(** * OnekotAPI: statistics aggregation and leaderboard ranking

    A shallow embedding of the period windowing ([getPeriodDates]), the
    pagination helper ([calculatePagination]), the [Stats] model's upsert
    ([updateOrCreateStats]), the statistics service ([calculateStats]), the
    run service's listings, soft delete, creation and leaderboard pipelines,
    followed by the properties proved about them.

    Modelling conventions.
    - A JavaScript [Date] is its time value: [Some t] for [t] milliseconds
      since the epoch, [None] for NaN (an Invalid Date).  [TimeClip] bounds
      time values by +-8.64e15.  Local time is the host's: [LocalTZA] gives
      the zone's offset at every instant, as in ECMA-262.
    - A JavaScript [Number] that the code computes is an IEEE 754 binary64
      value ([Number.t], the Standard Library's [spec_float] at precision 53):
      sums, quotients and products round as the engine's do; NaN, the
      infinities and the signed zeros are values.
    - A number stored in a run document is a finite double; the document
      gives its exact value, a rational, and [Number.ofQ] is the double with
      that value.  MongoDB's [$sum] of such values is their sum.
    - A MongoDB collection is the list of its documents in store order.
    - [new Date()] reads a clock; the reading is the explicit argument [now],
      and [stamp] is the reading mongoose takes when it stamps a write. *)

From Stdlib Require Import ZArith QArith Qminmax Lia List String Bool.
From Stdlib Require Import Permutation Sorted DecimalString SpecFloat.
Import ListNotations.

Local Open Scope string_scope.
Local Open Scope Z_scope.

(** ** Errors thrown by the modelled code *)

Inductive error : Type :=
| InvalidPeriodType   (* helpers.js: throw new Error('Invalid period type') *)
| ValidationError     (* mongoose: a validator rejected a path *)
| CastError           (* mongoose: NaN or an Invalid Date cannot be cast *)
| RangeError          (* the engine: too many arguments in a spread call *)
| TypeError           (* the engine: a property of undefined is read *)
| EndTimeError        (* Run.js: 'End time must be after start time' *)
| DuplicateKey        (* MongoDB: E11000, a unique index is violated *)
| Conflict            (* ApiError.conflict('Run with this ID already exists') *)
| AggregateError.     (* MongoDB rejected a $skip / $limit argument *)

Inductive result (A : Type) : Type :=
| Ok (a : A)
| Err (e : error).

Arguments Ok {A} a.
Arguments Err {A} e.

(** ** ECMAScript Date arithmetic (ECMA-262, "Time Values and Time Range") *)

Module JSDate.

Definition msPerSecond : Z := 1000.
Definition msPerMinute : Z := 60000.
Definition msPerHour : Z := 3600000.
Definition msPerDay : Z := 86400000.

Definition Day (t : Z) : Z := t / msPerDay.
Definition TimeWithinDay (t : Z) : Z := t mod msPerDay.

Definition DaysInYear (y : Z) : Z :=
  if negb (y mod 4 =? 0) then 365
  else if negb (y mod 100 =? 0) then 366
  else if negb (y mod 400 =? 0) then 365
  else 366.

Definition DayFromYear (y : Z) : Z :=
  365 * (y - 1970) + (y - 1969) / 4 - (y - 1901) / 100 + (y - 1601) / 400.

Definition TimeFromYear (y : Z) : Z := msPerDay * DayFromYear y.

(** ECMA-262 defines YearFromTime(t) as the largest [y] with
    [TimeFromYear y <= t].  It is computed here from the 400-year cycle of
    146097 days, which is off by at most one year, and then adjusted;
    [YearFromTime_largest] below proves it is that largest [y]. *)
Definition YearFromDay (d : Z) : Z :=
  let y0 := 1970 + (400 * d) / 146097 in
  if DayFromYear (y0 + 1) <=? d then y0 + 1
  else if DayFromYear y0 <=? d then y0
  else y0 - 1.

Definition YearFromTime (t : Z) : Z := YearFromDay (Day t).

Definition LeapOfYear (y : Z) : Z := if DaysInYear y =? 366 then 1 else 0.

Definition InLeapYear (t : Z) : Z := LeapOfYear (YearFromTime t).

Definition DayWithinYear (t : Z) : Z := Day t - DayFromYear (YearFromTime t).

Definition MonthFromTime (t : Z) : Z :=
  let d := DayWithinYear t in
  let l := InLeapYear t in
  if d <? 31 then 0
  else if d <? 59 + l then 1
  else if d <? 90 + l then 2
  else if d <? 120 + l then 3
  else if d <? 151 + l then 4
  else if d <? 181 + l then 5
  else if d <? 212 + l then 6
  else if d <? 243 + l then 7
  else if d <? 273 + l then 8
  else if d <? 304 + l then 9
  else if d <? 334 + l then 10
  else 11.

Definition DateFromTime (t : Z) : Z :=
  let d := DayWithinYear t in
  let l := InLeapYear t in
  match MonthFromTime t with
  | 0 => d + 1
  | 1 => d - 30
  | 2 => d - 58 - l
  | 3 => d - 89 - l
  | 4 => d - 119 - l
  | 5 => d - 150 - l
  | 6 => d - 180 - l
  | 7 => d - 211 - l
  | 8 => d - 242 - l
  | 9 => d - 272 - l
  | 10 => d - 303 - l
  | _ => d - 333 - l
  end.

Definition WeekDay (t : Z) : Z := (Day t + 4) mod 7.

Definition MakeTime (hour min sec ms : Z) : Z :=
  hour * msPerHour + min * msPerMinute + sec * msPerSecond + ms.

(** Day within the year on which month [mn] (0..11) starts; [l] is 1 in a
    leap year. *)
Definition MonthStartDay (mn l : Z) : Z :=
  match mn with
  | 0 => 0
  | 1 => 31
  | 2 => 59 + l
  | 3 => 90 + l
  | 4 => 120 + l
  | 5 => 151 + l
  | 6 => 181 + l
  | 7 => 212 + l
  | 8 => 243 + l
  | 9 => 273 + l
  | 10 => 304 + l
  | _ => 334 + l
  end.

(** MakeDay(year, month, date): ECMA-262 asks for "a time value t such that
    YearFromTime(t) is ym, MonthFromTime(t) is mn and DateFromTime(t) is 1"
    and returns [Day t + dt - 1]; [MakeDay_finds_first_of_month] proves the
    day computed here is the day of such a [t]. *)
Definition MakeDay (year month date : Z) : Z :=
  let ym := year + month / 12 in
  let mn := month mod 12 in
  DayFromYear ym + MonthStartDay mn (LeapOfYear ym) + date - 1.

Definition MakeDate (day time : Z) : Z := day * msPerDay + time.

(** MakeFullYear: a year argument in 0..99 of the Date constructor means
    1900 + year. *)
Definition MakeFullYear (year : Z) : Z :=
  if (0 <=? year) && (year <=? 99) then 1900 + year else year.


(** The range of time values, and TimeClip: a time value outside the range
    is NaN. *)
Definition maxTime : Z := 8640000000000000.

Definition TimeClip (time : Z) : option Z :=
  if Z.abs time <=? maxTime then Some time else None.

(** The host's time zone, as ECMA-262's LocalTZA(t, isUTC): the offset of
    local time from UTC in milliseconds, at the UTC time value [t] when
    [isUTC] is true and at the local time value [t] when it is false. *)
Definition TimeZone : Type := Z -> bool -> Z.

Definition LocalTime (LocalTZA : TimeZone) (t : Z) : Z := t + LocalTZA t true.
Definition UTC (LocalTZA : TimeZone) (t : Z) : Z := t - LocalTZA t false.

(** A zone whose offset never changes. *)
Definition fixedOffset (LocalTZA : TimeZone) (tza : Z) : Prop :=
  forall t isUTC, LocalTZA t isUTC = tza.

(** Methods of [Date.prototype] on the receiver's time value; a getter
    returns a number ([None] is NaN), a mutator the receiver's new time
    value. *)
Definition getFullYear (tz : TimeZone) (tv : option Z) : option Z :=
  option_map (fun t => YearFromTime (LocalTime tz t)) tv.
Definition getMonth (tz : TimeZone) (tv : option Z) : option Z :=
  option_map (fun t => MonthFromTime (LocalTime tz t)) tv.
Definition getDate (tz : TimeZone) (tv : option Z) : option Z :=
  option_map (fun t => DateFromTime (LocalTime tz t)) tv.
Definition getDay (tz : TimeZone) (tv : option Z) : option Z :=
  option_map (fun t => WeekDay (LocalTime tz t)) tv.

Definition setHours (tz : TimeZone) (tv : option Z) (hour min sec ms : Z)
  : option Z :=
  match tv with
  | None => None
  | Some t =>
      let tl := LocalTime tz t in
      TimeClip (UTC tz (MakeDate (Day tl) (MakeTime hour min sec ms)))
  end.

Definition setDate (tz : TimeZone) (tv : option Z) (date : option Z)
  : option Z :=
  match tv, date with
  | Some t, Some dt =>
      let tl := LocalTime tz t in
      let newDate :=
        MakeDate (MakeDay (YearFromTime tl) (MonthFromTime tl) dt)
                 (TimeWithinDay tl) in
      TimeClip (UTC tz newDate)
  | _, _ => None
  end.

(** [new Date(year, month, date, hours, minutes, seconds, ms)] *)
Definition construct (tz : TimeZone) (year month : option Z)
    (date hours minutes seconds ms : Z) : option Z :=
  match year, month with
  | Some y, Some m =>
      let yr := MakeFullYear y in
      TimeClip (UTC tz (MakeDate (MakeDay yr m date)
                                 (MakeTime hours minutes seconds ms)))
  | _, _ => None
  end.

(** [a + b] on numbers that may be NaN. *)
Definition plus (a b : option Z) : option Z :=
  match a, b with
  | Some x, Some y => Some (x + y)
  | _, _ => None
  end.

End JSDate.

(** ** The host: its time zone, and the engine's limit on the number of
    arguments of a call, which a spread of a longer array exceeds. *)

Record Host : Type := mkHost {
  LocalTZA : JSDate.TimeZone;
  maxArguments : nat
}.

(** ** utils/helpers.js *)

Module Helpers.
Import JSDate.

Record Pagination : Type := mkPagination {
  page : Z;
  limit : Z;
  totalPages : Z;
  totalItems : Z;
  hasNextPage : bool;
  hasPrevPage : bool
}.

(** [Math.ceil(a / b)] on integers, for [b <> 0]. *)
Definition Math_ceil_div (a b : Z) : Z := - ((- a) / b).

Definition calculatePagination (totalItems page limit : Z) : Pagination :=
  let totalPages := Math_ceil_div totalItems limit in
  let hasNextPage := page <? totalPages in
  let hasPrevPage := 1 <? page in
  mkPagination page limit totalPages totalItems hasNextPage hasPrevPage.

Record Period : Type := mkPeriod {
  startDate : option Z;
  endDate : option Z
}.

(** [getPeriodDates(periodType, date = new Date())].  [date = None] is the
    omitted argument.  [refDate] is a mutable [Date]; each mutation below
    binds the receiver's next time value. *)
Definition getPeriodDates (tz : TimeZone) (now : Z) (periodType : string)
    (date : option Z) : result Period :=
  let refDate := TimeClip (match date with Some d => d | None => now end) in
  if String.eqb periodType "daily" then
    let refDate1 := setHours tz refDate 0 0 0 0 in
    let startDate := refDate1 in
    let refDate2 := setHours tz refDate1 23 59 59 999 in
    let endDate := refDate2 in
    Ok (mkPeriod startDate endDate)
  else if String.eqb periodType "weekly" then
    let dayOfWeek := getDay tz refDate in
    let diffToMonday :=
      option_map (fun dayOfWeek => if dayOfWeek =? 0 then -6
                                   else 1 - dayOfWeek) dayOfWeek in
    let startDate0 := refDate in
    let startDate1 :=
      setDate tz startDate0 (plus (getDate tz refDate) diffToMonday) in
    let startDate2 := setHours tz startDate1 0 0 0 0 in
    let endDate0 := startDate2 in
    let endDate1 :=
      setDate tz endDate0 (plus (getDate tz startDate2) (Some 6)) in
    let endDate2 := setHours tz endDate1 23 59 59 999 in
    Ok (mkPeriod startDate2 endDate2)
  else if String.eqb periodType "monthly" then
    let startDate :=
      construct tz (getFullYear tz refDate) (getMonth tz refDate) 1
                0 0 0 0 in
    let endDate :=
      construct tz (getFullYear tz refDate)
                (plus (getMonth tz refDate) (Some 1)) 0
                23 59 59 999 in
    Ok (mkPeriod startDate endDate)
  else if String.eqb periodType "yearly" then
    let startDate :=
      construct tz (getFullYear tz refDate) (Some 0) 1 0 0 0 0 in
    let endDate :=
      construct tz (getFullYear tz refDate) (Some 11) 31 23 59 59 999 in
    Ok (mkPeriod startDate endDate)
  else if String.eqb periodType "all_time" then
    Ok (mkPeriod (TimeClip 0) (TimeClip now))
  else Err InvalidPeriodType.

(** Number of days of month [m] (0..11) of year [y]. *)
Definition DaysInMonth (y m : Z) : Z :=
  match m with
  | 0 => 31
  | 1 => 28 + LeapOfYear y
  | 2 => 31
  | 3 => 30
  | 4 => 31
  | 5 => 30
  | 6 => 31
  | 7 => 31
  | 8 => 30
  | 9 => 31
  | 10 => 30
  | _ => 31
  end.

(** The durations the bounded period types stand for, in milliseconds, at a
    local time [tl]: 24 hours, 7 days, the calendar month of [tl], the
    calendar year of [tl]. *)
Definition periodDuration (periodType : string) (tl : Z) : Z :=
  if String.eqb periodType "daily" then 24 * msPerHour
  else if String.eqb periodType "weekly" then 7 * msPerDay
  else if String.eqb periodType "monthly" then
    DaysInMonth (YearFromTime tl) (MonthFromTime tl) * msPerDay
  else DaysInYear (YearFromTime tl) * msPerDay.

(** The weekly branch's shift from a day of the week (0 = Sunday) back to
    the Monday on or before it. *)
Definition diffToMonday (dayOfWeek : Z) : Z :=
  if dayOfWeek =? 0 then -6 else 1 - dayOfWeek.

Definition boundedPeriodTypes : list string :=
  ["daily"; "weekly"; "monthly"; "yearly"].

End Helpers.

(** ** utils/constants.js *)

Module PAGINATION.
Definition DEFAULT_PAGE : Z := 1.
Definition DEFAULT_LIMIT : Z := 10.
Definition MAX_LIMIT : Z := 100.
End PAGINATION.

(** ** JavaScript numbers

    IEEE 754 binary64, round to nearest, ties to even. *)

Module Number.

Definition t : Type := spec_float.

Definition prec : Z := 53.
Definition emax : Z := 1024.

Definition zero : t := S754_zero false.
Definition NaN : t := S754_nan.
Definition negInfinity : t := S754_infinity true.

Definition add : t -> t -> t := SFadd prec emax.
Definition sub : t -> t -> t := SFsub prec emax.
Definition mul : t -> t -> t := SFmul prec emax.
Definition div : t -> t -> t := SFdiv prec emax.

(** [x < y] and [x <= y]: false when an operand is NaN. *)
Definition ltb : t -> t -> bool := SFltb.
Definition leb : t -> t -> bool := SFleb.

Definition isNaN (x : t) : bool :=
  match x with S754_nan => true | _ => false end.

Definition isFinite (x : t) : bool :=
  match x with S754_zero _ | S754_finite _ _ _ => true | _ => false end.

(** The double nearest to a rational: the value itself when it is a double.
    The quotient of numerator and denominator, each an integer significand
    with exponent 0, is rounded once. *)
Definition ofQ (q : Q) : t :=
  match Qnum q with
  | Z0 => zero
  | Zpos n => div (S754_finite false n 0) (S754_finite false (Qden q) 0)
  | Zneg n => div (S754_finite true n 0) (S754_finite false (Qden q) 0)
  end.

(** [x || 0]: 0, -0 and NaN are falsy. *)
Definition orZero (x : t) : t :=
  match x with
  | S754_zero _ | S754_nan => zero
  | _ => x
  end.

(** One turn of the loop of [Math.max]: NaN wins, +0 is greater than -0. *)
Definition Math_max_step (highest number : t) : t :=
  match highest, number with
  | S754_nan, _ => S754_nan
  | _, S754_nan => S754_nan
  | S754_zero true, S754_zero false => S754_zero false
  | _, _ => if ltb highest number then number else highest
  end.

(** [Math.max(x1, ..., xn)] *)
Definition Math_max (xs : list t) : t :=
  fold_left Math_max_step xs negInfinity.

(** [xs.reduce((sum, x) => sum + f(x), 0)] *)
Definition reduce_sum {A : Type} (f : A -> t) (xs : list A) : t :=
  fold_left (fun sum x => add sum (f x)) xs zero.

(** The sum the engine computes for a list of numbers: from 0, left to
    right, each addition rounded. *)
Definition sum (xs : list t) : t := fold_left add xs zero.

(** [m] is a maximum of [l]. *)
Definition is_max (m : t) (l : list t) : Prop :=
  In m l /\ Forall (fun x => leb x m = true) l.

End Number.

(** [Math.max(...xs)]: the spread passes every element as an argument. *)
Definition Math_max_spread (maxArguments : nat) (xs : list Number.t)
  : result Number.t :=
  if (maxArguments <? List.length xs)%nat then Err RangeError
  else Ok (Number.Math_max xs).

(** ** Exact sums, for MongoDB's accumulators *)

Local Open Scope Q_scope.

Definition Qlt_bool (x y : Q) : bool := negb (Qle_bool y x).

(** The sum a [$sum] accumulator builds, document by document. *)
Definition reduce_sum {A : Type} (f : A -> Q) (xs : list A) : Q :=
  fold_left (fun sum x => sum + f x) xs 0.

(** The mathematical sum the aggregates are compared with. *)
Definition sumQ (l : list Q) : Q := fold_right Qplus 0 l.

(** ** models/User.js (the fields the leaderboards project) *)

Module User.
Record t : Type := mk {
  _id : string;
  username : string;
  email : string;
  runColor : string
}.
End User.

(** ** models/Run.js

    A stored run.  [notes] and [route] are stored too, but no modelled query
    reads them, and they are left out.  The numeric fields give the values
    of the stored doubles. *)

Module Run.
Record t : Type := mk {
  id : string;
  userId : string;
  startTime : Z;
  endTime : Z;
  distance : Q;
  duration : Q;
  averageSpeed : Q;
  maxSpeed : Q;
  isDeleted : bool
}.

(** The path [totalArea] of a stored run.  The schema declares no such path
    (nor [area], nor [location]), and the collection is written through the
    model alone ([Run.create], [run.save()]), whose strict mode drops what
    the schema does not declare: no stored run has the path. *)
Definition totalArea (r : t) : option Q := None.

(** [Run.find({ userId, isDeleted: false,
               startTime: { $gte: startDate, $lte: endDate } })], for valid
    dates. *)
Definition inPeriod (userId : string) (startDate endDate : Z) (r : t) : bool :=
  String.eqb r.(Run.userId) userId
  && Bool.eqb r.(isDeleted) false
  && (startDate <=? r.(startTime))%Z
  && (r.(startTime) <=? endDate)%Z.

Definition find (runs : list t) (userId : string) (startDate endDate : Z)
  : list t :=
  filter (inPeriod userId startDate endDate) runs.

(** The schema's [min: 0] validators, which every stored run has passed. *)
Definition schemaValid (r : t) : bool :=
  Qle_bool 0 r.(distance)
  && Qle_bool 0 r.(duration)
  && Qle_bool 0 r.(averageSpeed)
  && Qle_bool 0 r.(maxSpeed).







End Run.

(** ** models/Stats.js

    The schema's declared paths and the timestamps that [timestamps: true]
    adds; [_id] and [__v], which no write changes once the document exists,
    are left out.  The object literal that [calculateStats] returns for a
    period without runs has the same fields without timestamps. *)

Module Stats.

Record t : Type := mk {
  userId : string;
  periodType : string;
  periodStart : Z;
  periodEnd : Z;
  totalDistance : Number.t;
  totalDuration : Number.t;
  totalRuns : Z;
  averageSpeed : Number.t;
  longestRun : Number.t;
  longestDuration : Number.t;
  fastestSpeed : Number.t;
  createdAt : option Z;
  updatedAt : option Z
}.

(** The [statsData] argument of [updateOrCreateStats]. *)
Record Data : Type := mkData {
  d_totalDistance : Number.t;
  d_totalDuration : Number.t;
  d_totalRuns : Z;
  d_averageSpeed : Number.t;
  d_longestRun : Number.t;
  d_longestDuration : Number.t;
  d_fastestSpeed : Number.t
}.

(** [const query = { userId, periodType, periodStart }] *)
Definition query (userId periodType : string) (periodStart : Z) (d : t)
  : bool :=
  String.eqb d.(Stats.userId) userId
  && String.eqb d.(Stats.periodType) periodType
  && (d.(Stats.periodStart) =? periodStart)%Z.

(** [const update = { $set: { periodEnd, totalDistance: ..., ... } }]
    applied to a document at the clock reading [stamp]: mongoose adds
    [updatedAt: stamp] to the [$set]. *)
Definition update (stamp periodEnd : Z) (statsData : Data) (d : t) : t :=
  mk d.(userId) d.(periodType) d.(periodStart)
     periodEnd
     statsData.(d_totalDistance)
     statsData.(d_totalDuration)
     statsData.(d_totalRuns)
     statsData.(d_averageSpeed)
     statsData.(d_longestRun)
     statsData.(d_longestDuration)
     statsData.(d_fastestSpeed)
     d.(createdAt)
     (Some stamp).

(** The document an upsert inserts when nothing matches: the query's
    equality fields, [createdAt: stamp] from mongoose's [$setOnInsert], then
    the [$set]. *)
Definition inserted (stamp : Z) (userId periodType : string)
    (periodStart periodEnd : Z) (statsData : Data) : t :=
  update stamp periodEnd statsData
         (mk userId periodType periodStart periodEnd
             Number.zero Number.zero 0%Z Number.zero Number.zero Number.zero
             Number.zero (Some stamp) (Some stamp)).

(** The update is cast to the schema first: a NaN is no Number. *)
Definition castUpdate (statsData : Data) : bool :=
  negb (Number.isNaN statsData.(d_totalDistance))
  && negb (Number.isNaN statsData.(d_totalDuration))
  && negb (Number.isNaN statsData.(d_averageSpeed))
  && negb (Number.isNaN statsData.(d_longestRun))
  && negb (Number.isNaN statsData.(d_longestDuration))
  && negb (Number.isNaN statsData.(d_fastestSpeed)).

(** [runValidators: true]: the [min: 0] validators of the paths in [$set]. *)
Definition runValidators (statsData : Data) : bool :=
  Number.leb Number.zero statsData.(d_totalDistance)
  && Number.leb Number.zero statsData.(d_totalDuration)
  && (0 <=? statsData.(d_totalRuns))%Z
  && Number.leb Number.zero statsData.(d_averageSpeed)
  && Number.leb Number.zero statsData.(d_longestRun)
  && Number.leb Number.zero statsData.(d_longestDuration)
  && Number.leb Number.zero statsData.(d_fastestSpeed).

(** [findOneAndUpdate(query, update, { new: true, upsert: true })]: the
    first matching document is updated in place; without a match the upsert
    document is added.  Returns the document after the write and the
    collection after the write. *)
Fixpoint findOneAndUpdate (q : t -> bool) (upd : t -> t) (ins : t)
    (coll : list t) : t * list t :=
  match coll with
  | [] => (ins, [ins])
  | d :: rest =>
      if q d then (upd d, upd d :: rest)
      else let '(doc, rest') := findOneAndUpdate q upd ins rest in
           (doc, d :: rest')
  end.

Definition updateOrCreateStats (stamp : Z) (coll : list t)
    (userId periodType : string) (periodStart periodEnd : Z)
    (statsData : Data) : result (t * list t) :=
  if negb (castUpdate statsData) then Err CastError
  else if negb (runValidators statsData) then Err ValidationError
  else
    Ok (findOneAndUpdate (query userId periodType periodStart)
                         (update stamp periodEnd statsData)
                         (inserted stamp userId periodType periodStart
                                   periodEnd statsData)
                         coll).

(** The natural key of a document. *)
Definition key (d : t) : string * string * Z :=
  (d.(userId), d.(periodType), d.(periodStart)).

(** Two documents that agree on every field but [updatedAt]. *)
Definition sameButUpdatedAt (d d' : t) : Prop :=
  d.(userId) = d'.(userId) /\
  d.(periodType) = d'.(periodType) /\
  d.(periodStart) = d'.(periodStart) /\
  d.(periodEnd) = d'.(periodEnd) /\
  d.(totalDistance) = d'.(totalDistance) /\
  d.(totalDuration) = d'.(totalDuration) /\
  d.(totalRuns) = d'.(totalRuns) /\
  d.(averageSpeed) = d'.(averageSpeed) /\
  d.(longestRun) = d'.(longestRun) /\
  d.(longestDuration) = d'.(longestDuration) /\
  d.(fastestSpeed) = d'.(fastestSpeed) /\
  d.(createdAt) = d'.(createdAt).

(** [Stats.deleteMany({ userId })], issued by the user service when an
    account is deleted or its data cleared. *)
Definition deleteMany (coll : list t) (userId : string) : list t :=
  filter (fun d => negb (String.eqb d.(Stats.userId) userId)) coll.

(** The states of the [stats] collection: it starts empty, and its writers
    are [updateOrCreateStats] and [deleteMany]. *)
Inductive reachable : list t -> Prop :=
| reachable_empty : reachable []
| reachable_upsert stamp coll userId periodType periodStart periodEnd
    statsData doc coll' :
    reachable coll ->
    updateOrCreateStats stamp coll userId periodType periodStart periodEnd
                        statsData = Ok (doc, coll') ->
    reachable coll'
| reachable_deleteMany coll userId :
    reachable coll ->
    reachable (deleteMany coll userId).

End Stats.

(** ** services/statsService.js *)

Module StatsService.
Import Helpers.

(** The object literal returned for a period without runs. *)
Definition emptyStats (userId periodType : string) (startDate endDate : Z)
  : Stats.t :=
  Stats.mk userId periodType startDate endDate
           Number.zero Number.zero 0%Z Number.zero Number.zero Number.zero
           Number.zero None None.

(** The literal [3.6]. *)
Definition kmh : Number.t := Number.ofQ (36 # 10).

(** The statistics computed from a non-empty selection [run :: rest]. *)
Definition computeStats (maxArguments : nat) (run : Run.t)
    (rest : list Run.t) : result Stats.Data :=
  let runs := run :: rest in
  let totalDistance :=
    Number.reduce_sum (fun run => Number.ofQ run.(Run.distance)) runs in
  let totalDuration :=
    Number.reduce_sum (fun run => Number.ofQ run.(Run.duration)) runs in
  let totalRuns := Z.of_nat (List.length runs) in
  let averageSpeed :=
    if Number.ltb Number.zero totalDuration
    then Number.mul (Number.div totalDistance totalDuration) kmh
    else Number.zero in
  match Math_max_spread maxArguments
          (map (fun run => Number.ofQ run.(Run.distance)) runs) with
  | Err e => Err e
  | Ok longestRun =>
      match Math_max_spread maxArguments
              (map (fun run => Number.ofQ run.(Run.duration)) runs) with
      | Err e => Err e
      | Ok longestDuration =>
          match Math_max_spread maxArguments
                  (map (fun run => Number.ofQ run.(Run.averageSpeed))
                       runs) with
          | Err e => Err e
          | Ok fastestSpeed =>
              Ok (Stats.mkData totalDistance totalDuration totalRuns
                               averageSpeed longestRun longestDuration
                               fastestSpeed)
          end
      end
  end.

(** [calculateStats(userId, periodType, refDate = new Date())] over the
    [runs] and [stats] collections; returns what the call returns (or
    throws) and the [stats] collection afterwards.  A query with an Invalid
    Date is rejected when mongoose casts it. *)
Definition calculateStats (h : Host) (now stamp : Z) (runs : list Run.t)
    (stats : list Stats.t) (userId periodType : string)
    (refDate : option Z) : result Stats.t * list Stats.t :=
  let refDate := match refDate with Some d => d | None => now end in
  match getPeriodDates h.(LocalTZA) now periodType (Some refDate) with
  | Err e => (Err e, stats)
  | Ok p =>
      match p.(startDate), p.(endDate) with
      | Some startDate, Some endDate =>
          match Run.find runs userId startDate endDate with
          | [] => (Ok (emptyStats userId periodType startDate endDate), stats)
          | run :: rest =>
              match computeStats h.(maxArguments) run rest with
              | Err e => (Err e, stats)
              | Ok statsData =>
                  match Stats.updateOrCreateStats stamp stats userId
                          periodType startDate endDate statsData with
                  | Ok (doc, stats') => (Ok doc, stats')
                  | Err e => (Err e, stats)
                  end
              end
          end
      | _, _ => (Err CastError, stats)
      end
  end.

End StatsService.

(** ** MongoDB aggregation stages

    [$group] emits one document per distinct key, here in the order in which
    the keys first occur in its input; [$sort] on a single descending field
    is a stable insertion sort, so documents with equal sort values keep the
    order in which they arrive.  MongoDB promises neither order: they stand
    for whatever order the server happens to produce. *)

Module Aggregate.

Section Group.
Context {Doc Acc : Type}.
Variable key : Doc -> string.
Variable zero : Acc.
Variable step : Acc -> Doc -> Acc.

Fixpoint accumulate (d : Doc) (gs : list (string * Acc))
  : list (string * Acc) :=
  match gs with
  | [] => [(key d, step zero d)]
  | (k, a) :: gs' =>
      if String.eqb k (key d) then (k, step a d) :: gs'
      else (k, a) :: accumulate d gs'
  end.

Definition group (docs : list Doc) : list (string * Acc) :=
  fold_left (fun gs d => accumulate d gs) docs [].

End Group.

Section Sort.
Context {A : Type}.
Variable metric : A -> Q.

Fixpoint insert (x : A) (l : list A) : list A :=
  match l with
  | [] => [x]
  | y :: l' =>
      if Qlt_bool (metric x) (metric y) then y :: insert x l'
      else x :: y :: l'
  end.

(** [{ $sort: { metric: -1 } }] *)
Definition sort_desc (l : list A) : list A := fold_right insert [] l.

End Sort.

(** [{ $skip: n }] and [{ $limit: n }]; the server rejects a negative
    [$skip] and a [$limit] that is not positive. *)
Definition skip {A : Type} (n : Z) (l : list A) : list A :=
  skipn (Z.to_nat n) l.

Definition limit {A : Type} (n : Z) (l : list A) : list A :=
  firstn (Z.to_nat n) l.

Definition valid_skip_limit (s l : Z) : bool := (0 <=? s)%Z && (0 <? l)%Z.

(** [{ $count: 'total' }] followed by
    [totalResults.length > 0 ? totalResults[0].total : 0] *)
Definition count {A : Type} (l : list A) : Z := Z.of_nat (List.length l).

(** [$lookup] on the [users] collection by [_id]; [_id] is unique in a
    collection, so the joined array holds at most one user. *)
Definition lookup (users : list User.t) (id : string) : option User.t :=
  List.find (fun u => String.eqb u.(User._id) id) users.

End Aggregate.

(** [arr.map((item, index) => f(item, index))] *)
Fixpoint mapi_from {A B : Type} (f : A -> Z -> B) (index : Z) (l : list A)
  : list B :=
  match l with
  | [] => []
  | x :: l' => f x index :: mapi_from f (index + 1)%Z l'
  end.

Definition mapi {A B : Type} (f : A -> Z -> B) (l : list A) : list B :=
  mapi_from f 0%Z l.

(** ** services/runService.js: the leaderboards *)

Module DistanceItem.
(** A document after [$project] of the distance pipeline. *)
Record t : Type := mk {
  userId : string;
  username : option string;
  email : option string;
  runColor : option string;
  totalDistance : Q;
  totalRuns : Z;
  totalDuration : Q
}.
End DistanceItem.

Module AreaItem.
(** A document after [$project] of the area pipeline. *)
Record t : Type := mk {
  userId : string;
  username : string;
  email : string;
  totalAreaCovered : Q;
  totalRuns : Z;
  totalDistance : Q;
  averageArea : Q
}.
End AreaItem.

Module RunService.
Import Helpers Aggregate.

(** [{ rank: skip + index + 1, ...item }] *)
Record Ranked (Item : Type) : Type := mkRanked {
  rank : Z;
  item : Item
}.
Arguments mkRanked {Item} rank item.
Arguments rank {Item} r.
Arguments item {Item} r.

Record Leaderboard (Item : Type) : Type := mkLeaderboard {
  leaderboard : list (Ranked Item);
  pagination : Pagination
}.
Arguments mkLeaderboard {Item} leaderboard pagination.
Arguments leaderboard {Item} l.
Arguments pagination {Item} l.

Definition optionsPage (page : option Z) : Z :=
  match page with Some p => p | None => PAGINATION.DEFAULT_PAGE end.

Definition optionsLimit (limit : option Z) : Z :=
  match limit with Some l => l | None => PAGINATION.DEFAULT_LIMIT end.

(** *** getDistanceLeaderboard *)

(** [{ $match: { isDeleted: false } }] *)
Definition distanceMatch (runs : list Run.t) : list Run.t :=
  filter (fun r => Bool.eqb r.(Run.isDeleted) false) runs.

(** Accumulators of [$group]: totalDistance, totalRuns, totalDuration. *)
Definition distanceStep (a : Q * Z * Q) (r : Run.t) : Q * Z * Q :=
  let '(totalDistance, totalRuns, totalDuration) := a in
  (totalDistance + r.(Run.distance), (totalRuns + 1)%Z,
   totalDuration + r.(Run.duration)).

Definition distanceGroup (runs : list Run.t) : list (string * (Q * Z * Q)) :=
  group Run.userId (0, 0%Z, 0) distanceStep runs.

Definition distanceMetric (g : string * (Q * Z * Q)) : Q :=
  let '(_, (totalDistance, _, _)) := g in totalDistance.

(** [$lookup], [$unwind] with [preserveNullAndEmptyArrays: true] and
    [$project]: a group without a user document is kept, with the user
    fields missing. *)
Definition distanceProject (users : list User.t)
    (g : string * (Q * Z * Q)) : DistanceItem.t :=
  let '(_id, (totalDistance, totalRuns, totalDuration)) := g in
  let userInfo := lookup users _id in
  DistanceItem.mk _id
    (option_map User.username userInfo)
    (option_map User.email userInfo)
    (option_map User.runColor userInfo)
    totalDistance totalRuns totalDuration.

(** The pipeline before [$skip] and [$limit] are pushed onto it. *)
Definition distancePipeline (runs : list Run.t) (users : list User.t)
  : list DistanceItem.t :=
  map (distanceProject users)
      (sort_desc distanceMetric (distanceGroup (distanceMatch runs))).

(** [pipeline.slice(0, 1)], [$group] by [_id: '$userId'], [$count]. *)
Definition distanceTotalItems (runs : list Run.t) : Z :=
  count (group Run.userId tt (fun _ _ => tt) (distanceMatch runs)).

Definition getDistanceLeaderboard (runs : list Run.t) (users : list User.t)
    (page limit : option Z) : result (Leaderboard DistanceItem.t) :=
  let page := optionsPage page in
  let limit := optionsLimit limit in
  let totalItems := distanceTotalItems runs in
  let skip := ((page - 1) * Z.min limit PAGINATION.MAX_LIMIT)%Z in
  if valid_skip_limit skip (Z.min limit PAGINATION.MAX_LIMIT) then
    let leaderboard :=
      Aggregate.limit (Z.min limit PAGINATION.MAX_LIMIT)
        (Aggregate.skip skip (distancePipeline runs users)) in
    let rankedLeaderboard :=
      mapi (fun item index => mkRanked (skip + index + 1)%Z item)
           leaderboard in
    let pagination := calculatePagination totalItems page limit in
    Ok (mkLeaderboard rankedLeaderboard pagination)
  else Err AggregateError.

(** The entries a client collects by requesting the pages 1..[n] of the
    distance leaderboard in turn, each with the same [limit]. *)
Definition distancePages (runs : list Run.t) (users : list User.t)
    (limit : option Z) (n : nat) : list (Ranked DistanceItem.t) :=
  flat_map
    (fun p =>
       match getDistanceLeaderboard runs users (Some (Z.of_nat p)) limit with
       | Ok lb => lb.(leaderboard)
       | Err _ => []
       end)
    (seq 1 n).

(** *** getAreaLeaderboard *)

(** [{ $match: { isDeleted: false, totalArea: { $ne: null, $gt: 0 } } }] *)
Definition areaEligible (r : Run.t) : bool :=
  Bool.eqb r.(Run.isDeleted) false
  && match Run.totalArea r with
     | Some a => Qlt_bool 0 a
     | None => false
     end.

Definition areaMatch (runs : list Run.t) : list Run.t :=
  filter areaEligible runs.

(** What [$sum: '$totalArea'] adds for a run: a missing value counts as 0. *)
Definition areaOf (r : Run.t) : Q :=
  match Run.totalArea r with Some x => x | None => 0 end.

(** Accumulators of [$group]: totalAreaCovered, totalRuns, totalDistance. *)
Definition areaStep (a : Q * Z * Q) (r : Run.t) : Q * Z * Q :=
  let '(totalAreaCovered, totalRuns, totalDistance) := a in
  (totalAreaCovered + areaOf r,
   (totalRuns + 1)%Z,
   totalDistance + r.(Run.distance)).

Definition areaGroup (runs : list Run.t) : list (string * (Q * Z * Q)) :=
  group Run.userId (0, 0%Z, 0) areaStep runs.

Definition areaMetric (g : string * (Q * Z * Q)) : Q :=
  let '(_, (totalAreaCovered, _, _)) := g in totalAreaCovered.

(** [$lookup], [$unwind: '$user'] and [$project]: a group without a user
    document is dropped by the [$unwind]. *)
Definition areaProject (users : list User.t) (g : string * (Q * Z * Q))
  : list AreaItem.t :=
  let '(_id, (totalAreaCovered, totalRuns, totalDistance)) := g in
  match lookup users _id with
  | Some user =>
      [AreaItem.mk _id user.(User.username) user.(User.email)
         totalAreaCovered totalRuns totalDistance
         (totalAreaCovered / inject_Z totalRuns)]
  | None => []
  end.

Definition areaPipeline (runs : list Run.t) (users : list User.t)
  : list AreaItem.t :=
  flat_map (areaProject users)
           (sort_desc areaMetric (areaGroup (areaMatch runs))).

Definition areaTotalItems (runs : list Run.t) : Z :=
  count (group Run.userId tt (fun _ _ => tt) (areaMatch runs)).

Definition getAreaLeaderboard (runs : list Run.t) (users : list User.t)
    (page limit : option Z) : result (Leaderboard AreaItem.t) :=
  let page := optionsPage page in
  let limit := optionsLimit limit in
  let totalItems := areaTotalItems runs in
  let skip := ((page - 1) * Z.min limit PAGINATION.MAX_LIMIT)%Z in
  if valid_skip_limit skip (Z.min limit PAGINATION.MAX_LIMIT) then
    let leaderboard :=
      Aggregate.limit (Z.min limit PAGINATION.MAX_LIMIT)
        (Aggregate.skip skip (areaPipeline runs users)) in
    let rankedLeaderboard :=
      mapi (fun item index => mkRanked (skip + index + 1)%Z item)
           leaderboard in
    let pagination := calculatePagination totalItems page limit in
    Ok (mkLeaderboard rankedLeaderboard pagination)
  else Err AggregateError.

End RunService.

(** ** Sample data: one run of 1000 m for each of [n] distinct owners *)

Definition sampleOwner (n : nat) : string :=
  String (Ascii.ascii_of_nat n) EmptyString.

Definition sampleRun (n : nat) : Run.t :=
  Run.mk (sampleOwner n) (sampleOwner n) 0 600000 (1000 # 1) (600 # 1)
         (6 # 1) (7 # 1) false.

Definition sampleRuns (n : nat) : list Run.t := map sampleRun (seq 0 n).

(** ** Sample data: three runs of two owners *)

Definition twoOwnerRuns : list Run.t :=
  [Run.mk "r1" "u1" 0 600000 (5000 # 1) (1800 # 1) (10 # 1) (12 # 1) false;
   Run.mk "r2" "u1" 700000 900000 (3000 # 1) (1200 # 1) (9 # 1) (11 # 1)
          false;
   Run.mk "r3" "u2" 0 600000 (4000 # 1) (1500 # 1) (9 # 1) (11 # 1) false].

Definition twoOwnerUsers : list User.t :=
  [User.mk "u1" "alice" "alice@example.com" "#FF6B6B";
   User.mk "u2" "bob" "bob@example.com" "#4ECDC4"].

(** ** Sample hosts

    UTC, and the offsets of America/New_York around 2023: UTC-5, and UTC-4
    from 2023-03-12T07:00:00Z to 2023-11-05T06:00:00Z.  A local time that the
    clocks skip or repeat is read with the offset before the transition. *)

Definition utc : JSDate.TimeZone := fun _ _ => 0%Z.

Definition newYork2023 : JSDate.TimeZone :=
  fun t isUTC =>
    if isUTC then
      if (t <? 1678604400000)%Z then (-18000000)%Z
      else if (t <? 1699164000000)%Z then (-14400000)%Z
      else (-18000000)%Z
    else
      if (t <? 1678590000000)%Z then (-18000000)%Z
      else if (t <? 1699149600000)%Z then (-14400000)%Z
      else (-18000000)%Z.

Definition utcHost : Host := mkHost utc 1000.

(** * Further operations of the modelled files *)

(** The first and the last millisecond of the [n] local days from local day
    [d] on, in a zone of offset [tza]. *)
Definition windowStart (tza d : Z) : Z := (d * JSDate.msPerDay - tza)%Z.

Definition windowEnd (tza d n : Z) : Z :=
  ((d + n - 1) * JSDate.msPerDay + (JSDate.msPerDay - 1) - tza)%Z.

(** The window that a bounded period type stands for, in a zone of fixed
    offset [tza]: the first and the last millisecond of the local day, of the
    local week from Monday to Sunday, of the calendar month or of the
    calendar year of [ref]. *)
Definition periodWindow (tza : Z) (periodType : string) (ref : Z) : Z * Z :=
  let tl := (ref + tza)%Z in
  let y := JSDate.YearFromTime tl in
  let m := JSDate.MonthFromTime tl in
  if String.eqb periodType "daily" then
    (windowStart tza (JSDate.Day tl), windowEnd tza (JSDate.Day tl) 1)
  else if String.eqb periodType "weekly" then
    let monday :=
      (JSDate.Day tl + Helpers.diffToMonday (JSDate.WeekDay tl))%Z in
    (windowStart tza monday, windowEnd tza monday 7)
  else if String.eqb periodType "monthly" then
    let first := JSDate.MakeDay y m 1 in
    (windowStart tza first, windowEnd tza first (Helpers.DaysInMonth y m))
  else
    let first := JSDate.DayFromYear y in
    (windowStart tza first, windowEnd tza first (JSDate.DaysInYear y)).

(** A period whose two dates are valid. *)
Definition validPeriod (w : Z * Z) : Helpers.Period :=
  Helpers.mkPeriod (Some (fst w)) (Some (snd w)).

(** ** utils/ApiError.js and the messages of utils/constants.js *)

Inductive ApiError : Type :=
| badRequest (message : string)
| notFound (message : string).

(** What a service method returns, or the [ApiError] it throws. *)
Inductive outcome (A : Type) : Type :=
| Returned (a : A)
| Thrown (e : ApiError).

Arguments Returned {A} a.
Arguments Thrown {A} e.

Module MESSAGES.
Definition RUN_DELETED : string := "Run deleted successfully".
Definition RUN_NOT_FOUND : string := "Run session not found".
Definition INVALID_DATE_RANGE : string := "Invalid date range".
End MESSAGES.

Module PERIOD_TYPES.
Definition DAILY : string := "daily".
Definition WEEKLY : string := "weekly".
Definition MONTHLY : string := "monthly".
Definition YEARLY : string := "yearly".
Definition ALL_TIME : string := "all_time".
(** [Object.values(PERIOD_TYPES)] *)
Definition values : list string := [DAILY; WEEKLY; MONTHLY; YEARLY; ALL_TIME].
End PERIOD_TYPES.

(** ** utils/helpers.js: formatDuration

    On integral seconds.  [%] is the remainder with the sign of the dividend
    ([Z.rem]); [Math.floor(a / b)] for a positive [b] is [a / b]. *)

Module Format.

(** [n.toString()] for an integer: decimal digits, ["-"] in front of a
    negative number. *)
Definition toString (n : Z) : string :=
  DecimalString.NilZero.string_of_int (Z.to_int n).

(** [s.padStart(2, '0')] *)
Definition padStart2 (s : string) : string :=
  match String.length s with
  | O => "00"
  | S O => ("0" ++ s)%string
  | _ => s
  end.

Definition formatDuration (seconds : Z) : string :=
  let hours := (seconds / 3600)%Z in
  let minutes := (Z.rem seconds 3600 / 60)%Z in
  let secs := Z.rem seconds 60 in
  (padStart2 (toString hours) ++ ":"
   ++ padStart2 (toString minutes) ++ ":"
   ++ padStart2 (toString secs))%string.

(** The two decimal digits of a number below 100. *)
Definition digit (n : Z) : Ascii.ascii :=
  Ascii.ascii_of_nat (48 + Z.to_nat n).

Definition twoDigits (n : Z) : string :=
  String (digit (n / 10)) (String (digit (n mod 10)) EmptyString).

End Format.

(** ** Queries built with [find]: [sort], [skip], [limit]

    [sort({ startTime: -1 })] and [sort({ periodStart: -1 })] order by a date,
    most recent first; as for [$sort], documents with equal dates keep their
    order.  [skip(n)] is rejected by the server for a negative [n].
    [limit(0)] means no limit, and the driver sends a negative limit as its
    absolute value. *)

Module Query.

Definition sortByDateDesc {A : Type} (date : A -> Z) (l : list A) : list A :=
  Aggregate.sort_desc (fun x => inject_Z (date x)) l.

Definition skip {A : Type} (n : Z) (l : list A) : list A :=
  skipn (Z.to_nat n) l.

Definition limit {A : Type} (n : Z) (l : list A) : list A :=
  if (n =? 0)%Z then l else firstn (Z.to_nat (Z.abs n)) l.

End Query.

(** ** models/Run.js: the schema's statics *)

Module RunStatics.

(** [{ userId, ...(includeDeleted ? {} : { isDeleted: false }) }] *)
Definition userQuery (userId : string) (includeDeleted : bool) (r : Run.t)
  : bool :=
  String.eqb r.(Run.userId) userId
  && (includeDeleted || Bool.eqb r.(Run.isDeleted) false).

(** [Run.getUserRuns(userId, { page, limit, includeDeleted })] *)
Definition getUserRuns (runs : list Run.t) (userId : string)
    (page limit : Z) (includeDeleted : bool) : result (list Run.t) :=
  let skip := ((page - 1) * limit)%Z in
  if (skip <? 0)%Z then Err AggregateError
  else
    Ok (Query.limit limit
          (Query.skip skip
             (Query.sortByDateDesc Run.startTime
                (filter (userQuery userId includeDeleted) runs)))).

(** [Run.getRunsByDateRange(userId, startDate, endDate)] *)
Definition getRunsByDateRange (runs : list Run.t) (userId : string)
    (startDate endDate : Z) : list Run.t :=
  Query.sortByDateDesc Run.startTime (Run.find runs userId startDate endDate).

End RunStatics.

(** ** models/Stats.js: the schema's statics and virtuals *)

Module StatsStatics.

(** [this.find({ userId, periodType }).sort({ periodStart: -1 })] *)
Definition getStatsByPeriod (coll : list Stats.t) (userId periodType : string)
  : list Stats.t :=
  Query.sortByDateDesc Stats.periodStart
    (filter (fun d => String.eqb d.(Stats.userId) userId
                      && String.eqb d.(Stats.periodType) periodType)
            coll).

(** [this.findOne({ userId, periodType: 'all_time' })] *)
Definition getAllTimeStats (coll : list Stats.t) (userId : string)
  : option Stats.t :=
  List.find (fun d => String.eqb d.(Stats.userId) userId
                      && String.eqb d.(Stats.periodType) "all_time")
            coll.

End StatsStatics.

(** ** services/statsService.js: the read operations *)

Module StatsReads.
Import StatsService.

Definition getStatsByPeriod (stats : list Stats.t)
    (userId periodType : string) : outcome (list Stats.t) :=
  if existsb (String.eqb periodType) PERIOD_TYPES.values then
    Returned (StatsStatics.getStatsByPeriod stats userId periodType)
  else Thrown (badRequest "Invalid period type").

(** [getAllTimeStats(userId)]: the stored row if there is one, else a
    computation. *)
Definition getAllTimeStats (h : Host) (now stamp : Z) (runs : list Run.t)
    (stats : list Stats.t) (userId : string)
  : result Stats.t * list Stats.t :=
  match StatsStatics.getAllTimeStats stats userId with
  | Some doc => (Ok doc, stats)
  | None =>
      calculateStats h now stamp runs stats userId PERIOD_TYPES.ALL_TIME None
  end.

Definition getWeeklyStats (h : Host) (now stamp : Z) (runs : list Run.t)
    (stats : list Stats.t) (userId : string)
  : result Stats.t * list Stats.t :=
  calculateStats h now stamp runs stats userId PERIOD_TYPES.WEEKLY None.

Definition getMonthlyStats (h : Host) (now stamp : Z) (runs : list Run.t)
    (stats : list Stats.t) (userId : string)
  : result Stats.t * list Stats.t :=
  calculateStats h now stamp runs stats userId PERIOD_TYPES.MONTHLY None.

Definition getYearlyStats (h : Host) (now stamp : Z) (runs : list Run.t)
    (stats : list Stats.t) (userId : string)
  : result Stats.t * list Stats.t :=
  calculateStats h now stamp runs stats userId PERIOD_TYPES.YEARLY None.

End StatsReads.

(** The states of the [stats] collection that the services produce:
    [calculateStats] is the only caller of [updateOrCreateStats], and the
    user service deletes a user's rows. *)
Inductive serviceReachable : list Stats.t -> Prop :=
| serviceReachable_empty : serviceReachable []
| serviceReachable_calculateStats h now stamp runs stats userId periodType
    refDate :
    serviceReachable stats ->
    serviceReachable
      (snd (StatsService.calculateStats h now stamp runs stats userId
                                        periodType refDate))
| serviceReachable_deleteMany stats userId :
    serviceReachable stats ->
    serviceReachable (Stats.deleteMany stats userId).

(** What holds of such a collection: keys are distinct, and rows of type
    [all_time] start at the epoch. *)
Definition storeInvariant (stats : list Stats.t) : Prop :=
  NoDup (map Stats.key stats) /\
  forall d, In d stats -> Stats.periodType d = "all_time" ->
            Stats.periodStart d = 0%Z.

(** ** models/User.js: the run counters in [metadata] *)

Module UserDoc.

Record Metadata : Type := mkMetadata {
  totalRuns : Z;
  totalDistance : Number.t;
  totalDuration : Number.t
}.

Record t : Type := mk {
  _id : string;
  metadata : option Metadata
}.

(** [user.updateMetadata({ distance, duration })] *)
Definition updateMetadata (m : Metadata) (distance duration : Number.t)
  : Metadata :=
  mkMetadata (m.(totalRuns) + 1)%Z
             (Number.add m.(totalDistance) (Number.orZero distance))
             (Number.add m.(totalDuration) (Number.orZero duration)).

(** [User.findById(userId)] *)
Definition findById (users : list t) (userId : string) : option t :=
  List.find (fun u => String.eqb u.(_id) userId) users.

(** [user.save()]: the stored document with the user's [_id] is replaced. *)
Fixpoint save (users : list t) (user : t) : list t :=
  match users with
  | [] => []
  | u :: rest =>
      if String.eqb u.(_id) user.(_id) then user :: rest
      else u :: save rest user
  end.

End UserDoc.

(** ** services/runService.js: creating, reading and deleting runs *)

Module RunQueries.
Import Helpers.






(** [getUserRuns(userId, { page, limit, includeDeleted })] *)
Definition getUserRuns (runs : list Run.t) (userId : string)
    (page limit : option Z) (includeDeleted : bool)
  : result (list Run.t * Pagination) :=
  let page := RunService.optionsPage page in
  let limit := RunService.optionsLimit limit in
  match RunStatics.getUserRuns runs userId page
          (Z.min limit PAGINATION.MAX_LIMIT) includeDeleted with
  | Err e => Err e
  | Ok found =>
      let totalItems :=
        Z.of_nat (List.length
                    (filter (RunStatics.userQuery userId includeDeleted)
                            runs)) in
      let pagination := calculatePagination totalItems page limit in
      Ok (found, pagination)
  end.

(** The runs a client collects by requesting the pages 1..[n] in turn, each
    with the same [limit]. *)
Definition userRunPages (runs : list Run.t) (userId : string)
    (limit : option Z) (includeDeleted : bool) (n : nat) : list Run.t :=
  flat_map
    (fun p =>
       match getUserRuns runs userId (Some (Z.of_nat p)) limit
                         includeDeleted with
       | Ok (found, _) => found
       | Err _ => []
       end)
    (seq 1 n).

(** [Run.findOne({ id: runId, userId, isDeleted: false })] *)
Definition isLiveRun (runId userId : string) (r : Run.t) : bool :=
  String.eqb r.(Run.id) runId
  && String.eqb r.(Run.userId) userId
  && Bool.eqb r.(Run.isDeleted) false.

Definition getRunById (runs : list Run.t) (runId userId : string)
  : outcome Run.t :=
  match List.find (isLiveRun runId userId) runs with
  | Some run => Returned run
  | None => Thrown (notFound MESSAGES.RUN_NOT_FOUND)
  end.

Definition getRunsByDateRange (runs : list Run.t) (userId : string)
    (startDate endDate : Z) : outcome (list Run.t) :=
  if (endDate <=? startDate)%Z then
    Thrown (badRequest MESSAGES.INVALID_DATE_RANGE)
  else Returned (RunStatics.getRunsByDateRange runs userId startDate endDate).

(** [getRecentRuns(userId, limit = 10)] *)
Definition getRecentRuns (runs : list Run.t) (userId : string)
    (limit : option Z) : list Run.t :=
  let limit := match limit with Some l => l | None => 10%Z end in
  Query.limit (Z.min limit PAGINATION.MAX_LIMIT)
    (Query.sortByDateDesc Run.startTime
       (filter (RunStatics.userQuery userId false) runs)).

(** [run.isDeleted = true; await run.save()]: the found document, the first
    match, is replaced in the collection. *)
Definition setDeleted (r : Run.t) : Run.t :=
  Run.mk r.(Run.id) r.(Run.userId) r.(Run.startTime) r.(Run.endTime)
         r.(Run.distance) r.(Run.duration) r.(Run.averageSpeed)
         r.(Run.maxSpeed) true.

Fixpoint saveDeleted (runs : list Run.t) (runId userId : string)
  : list Run.t :=
  match runs with
  | [] => []
  | r :: rest =>
      if isLiveRun runId userId r then setDeleted r :: rest
      else r :: saveDeleted rest runId userId
  end.

(** The metadata after a run is taken off the counters. *)
Definition removeFromMetadata (m : UserDoc.Metadata) (run : Run.t)
  : UserDoc.Metadata :=
  UserDoc.mkMetadata
    (Z.max 0 (m.(UserDoc.totalRuns) - 1))
    (Number.Math_max
       [Number.zero;
        Number.sub m.(UserDoc.totalDistance) (Number.ofQ run.(Run.distance))])
    (Number.Math_max
       [Number.zero;
        Number.sub m.(UserDoc.totalDuration)
                   (Number.ofQ run.(Run.duration))]).

(** [deleteRun(runId, userId)] over the [runs] and [users] collections:
    the message returned and both collections afterwards. *)
Definition deleteRun (runs : list Run.t) (users : list UserDoc.t)
    (runId userId : string)
  : outcome (string * list Run.t * list UserDoc.t) :=
  match List.find (isLiveRun runId userId) runs with
  | None => Thrown (notFound MESSAGES.RUN_NOT_FOUND)
  | Some run =>
      let runs' := saveDeleted runs runId userId in
      let users' :=
        match UserDoc.findById users userId with
        | Some user =>
            match user.(UserDoc.metadata) with
            | Some m =>
                UserDoc.save users
                  (UserDoc.mk user.(UserDoc._id)
                              (Some (removeFromMetadata m run)))
            | None => users
            end
        | None => users
        end in
      Returned (MESSAGES.RUN_DELETED, runs', users')
  end.

End RunQueries.

Local Open Scope string_scope.
Local Open Scope Z_scope.

(** * Properties *)

(** ** The calendar *)

(** Proof automation shared by the calendar lemmas. *)
Ltac divmod := Z.to_euclidean_division_equations; lia.

(** Enumerate the twelve values of a month index [m] known to be in 0..11. *)
Ltac month_cases m :=
  let H := fresh "Hcase" in
  assert (H : m = 0 \/ m = 1 \/ m = 2 \/ m = 3 \/ m = 4 \/ m = 5 \/ m = 6 \/
              m = 7 \/ m = 8 \/ m = 9 \/ m = 10 \/ m = 11) by lia;
  repeat (destruct H as [H | H]); rewrite H in *.

Ltac split_ltb :=
  repeat match goal with
         | |- context [if ?a <? ?b then _ else _] =>
             let E := fresh "E" in
             destruct (a <? b) eqn:E;
             [apply Z.ltb_lt in E | apply Z.ltb_ge in E]
         end.

Section Calendar.
Import JSDate.

Lemma DaysInYear_cases y : DaysInYear y = 365 \/ DaysInYear y = 366.
Proof.
  unfold DaysInYear.
  destruct (y mod 4 =? 0), (y mod 100 =? 0), (y mod 400 =? 0); cbn; auto.
Qed.

Lemma DayFromYear_succ y : DayFromYear (y + 1) = DayFromYear y + DaysInYear y.
Proof.
  unfold DayFromYear, DaysInYear.
  destruct (y mod 4 =? 0) eqn:E4; destruct (y mod 100 =? 0) eqn:E100;
    destruct (y mod 400 =? 0) eqn:E400; cbn [negb];
    rewrite ?Z.eqb_eq, ?Z.eqb_neq in *; divmod.
Qed.

Lemma DayFromYear_lt y1 y2 : y1 < y2 -> DayFromYear y1 < DayFromYear y2.
Proof. unfold DayFromYear. intros H. divmod. Qed.

Lemma YearFromDay_spec d :
  DayFromYear (YearFromDay d) <= d < DayFromYear (YearFromDay d + 1).
Proof.
  unfold YearFromDay.
  set (y0 := 1970 + (400 * d) / 146097).
  destruct (DayFromYear (y0 + 1) <=? d) eqn:E1.
  - apply Z.leb_le in E1. split; [exact E1|].
    unfold DayFromYear, y0 in *. divmod.
  - apply Z.leb_gt in E1.
    destruct (DayFromYear y0 <=? d) eqn:E2.
    + apply Z.leb_le in E2. lia.
    + apply Z.leb_gt in E2. replace (y0 - 1 + 1) with y0 by lia.
      split; [|exact E2].
      unfold DayFromYear, y0 in *. divmod.
Qed.

Lemma YearFromDay_unique d y :
  DayFromYear y <= d < DayFromYear (y + 1) -> YearFromDay d = y.
Proof.
  intros Hy. pose proof (YearFromDay_spec d) as Hs.
  destruct (Z.lt_trichotomy (YearFromDay d) y) as [Hlt | [Heq | Hgt]]; auto.
  - assert (DayFromYear (YearFromDay d + 1) <= DayFromYear y).
    { destruct (Z.eq_dec (YearFromDay d + 1) y) as [->|]; [lia|].
      apply Z.lt_le_incl, DayFromYear_lt. lia. }
    lia.
  - assert (DayFromYear (y + 1) <= DayFromYear (YearFromDay d)).
    { destruct (Z.eq_dec (y + 1) (YearFromDay d)) as [->|]; [lia|].
      apply Z.lt_le_incl, DayFromYear_lt. lia. }
    lia.
Qed.

Lemma Day_bounds t : Day t * msPerDay <= t < Day t * msPerDay + msPerDay.
Proof. unfold Day, msPerDay. divmod. Qed.

Lemma TimeWithinDay_eq t : TimeWithinDay t = t - Day t * msPerDay.
Proof. unfold TimeWithinDay, Day, msPerDay. divmod. Qed.

Lemma Day_MakeDate d tm : 0 <= tm < msPerDay -> Day (MakeDate d tm) = d.
Proof. unfold Day, MakeDate, msPerDay. intros H. divmod. Qed.

(** YearFromTime(t) is the largest [y] whose year starts at or before [t]. *)
Lemma YearFromTime_largest t :
  TimeFromYear (YearFromTime t) <= t /\
  forall y, TimeFromYear y <= t -> y <= YearFromTime t.
Proof.
  unfold YearFromTime, TimeFromYear.
  pose proof (YearFromDay_spec (Day t)) as [Hlo Hhi].
  pose proof (Day_bounds t) as Hd.
  split; [unfold msPerDay in *; lia|].
  intros y Hy.
  destruct (Z_le_gt_dec y (YearFromDay (Day t))) as [|Hgt]; auto.
  assert (DayFromYear (YearFromDay (Day t) + 1) <= DayFromYear y).
  { destruct (Z.eq_dec (YearFromDay (Day t) + 1) y) as [->|]; [lia|].
    apply Z.lt_le_incl, DayFromYear_lt. lia. }
  unfold msPerDay in *. lia.
Qed.

Lemma LeapOfYear_DaysInYear y : DaysInYear y = 365 + LeapOfYear y.
Proof.
  unfold LeapOfYear. destruct (DaysInYear_cases y) as [-> | ->]; reflexivity.
Qed.

Lemma DayWithinYear_bounds t :
  0 <= DayWithinYear t < 365 + InLeapYear t.
Proof.
  unfold DayWithinYear, InLeapYear, YearFromTime.
  pose proof (YearFromDay_spec (Day t)) as H.
  rewrite DayFromYear_succ, LeapOfYear_DaysInYear in H. lia.
Qed.

Lemma InLeapYear_cases t : InLeapYear t = 0 \/ InLeapYear t = 1.
Proof.
  unfold InLeapYear, LeapOfYear.
  destruct (DaysInYear _ =? 366); auto.
Qed.

Lemma MonthFromTime_range t : 0 <= MonthFromTime t <= 11.
Proof.
  unfold MonthFromTime.
  repeat match goal with |- context [if ?c then _ else _] => destruct c end;
    lia.
Qed.

(** The month of [t] starts at or before [t]'s day and the next month starts
    after it. *)
Lemma MonthStartDay_bounds t :
  MonthStartDay (MonthFromTime t) (InLeapYear t) <= DayWithinYear t /\
  (MonthFromTime t < 11 ->
   DayWithinYear t < MonthStartDay (MonthFromTime t + 1) (InLeapYear t)).
Proof.
  pose proof (DayWithinYear_bounds t) as Hb.
  unfold MonthFromTime. cbv zeta.
  split_ltb;
    (split; [|intros Hlt]);
    try match goal with
        | |- context [MonthStartDay (?a + 1) _] =>
            let v := eval compute in (a + 1) in change (a + 1) with v
        end;
    cbn [MonthStartDay]; lia.
Qed.

Lemma DateFromTime_eq t :
  DateFromTime t =
  DayWithinYear t - MonthStartDay (MonthFromTime t) (InLeapYear t) + 1.
Proof.
  unfold DateFromTime.
  pose proof (MonthFromTime_range t) as Hr.
  month_cases (MonthFromTime t); cbn [MonthStartDay]; lia.
Qed.

(** MakeDay inverts the year/month/date decomposition, also for a date
    shifted out of its month: this is what [setDate] relies on. *)
Lemma MakeDay_roundtrip t k :
  MakeDay (YearFromTime t) (MonthFromTime t) (DateFromTime t + k) = Day t + k.
Proof.
  pose proof (MonthFromTime_range t) as Hr.
  unfold MakeDay.
  replace (MonthFromTime t / 12) with 0 by divmod.
  replace (MonthFromTime t mod 12) with (MonthFromTime t) by divmod.
  rewrite Z.add_0_r, DateFromTime_eq.
  unfold DayWithinYear, InLeapYear. lia.
Qed.

(** The day MakeDay computes for date 1 is the day of a time value with the
    requested year and month and date 1, as ECMA-262 requires. *)
Lemma MakeDay_finds_first_of_month ym mn :
  0 <= mn <= 11 ->
  let t := MakeDate (MakeDay ym mn 1) 0 in
  YearFromTime t = ym /\ MonthFromTime t = mn /\ DateFromTime t = 1.
Proof.
  intros Hmn t.
  assert (Hday : Day t = DayFromYear ym + MonthStartDay mn (LeapOfYear ym)).
  { unfold t. rewrite Day_MakeDate by (unfold msPerDay; lia).
    unfold MakeDay.
    replace (mn / 12) with 0 by divmod.
    replace (mn mod 12) with mn by divmod.
    rewrite Z.add_0_r. lia. }
  assert (Hl : LeapOfYear ym = 0 \/ LeapOfYear ym = 1).
  { unfold LeapOfYear. destruct (DaysInYear ym =? 366); auto. }
  assert (Hms : 0 <= MonthStartDay mn (LeapOfYear ym) <= 334 + LeapOfYear ym).
  { month_cases mn; cbn [MonthStartDay]; lia. }
  assert (Hy : YearFromTime t = ym).
  { unfold YearFromTime. apply YearFromDay_unique.
    rewrite DayFromYear_succ, LeapOfYear_DaysInYear, Hday. lia. }
  assert (Hdwy : DayWithinYear t = MonthStartDay mn (LeapOfYear ym)).
  { unfold DayWithinYear. rewrite Hy, Hday. lia. }
  assert (Hm : MonthFromTime t = mn).
  { unfold MonthFromTime, InLeapYear. rewrite Hdwy, Hy.
    month_cases mn; cbn [MonthStartDay]; split_ltb; lia. }
  repeat split; auto.
  rewrite DateFromTime_eq, Hm, Hdwy. unfold InLeapYear. rewrite Hy. lia.
Qed.

End Calendar.

(** ** The period window in a zone of fixed offset *)

Lemma Ok_inj {A : Type} (a b : A) : Ok a = Ok b -> a = b.
Proof. intros H. injection H as H. exact H. Qed.

Section TimeRange.
Import JSDate.

Lemma TimeClip_ok t : Z.abs t <= maxTime -> TimeClip t = Some t.
Proof.
  intros H. unfold TimeClip.
  destruct (Z.abs t <=? maxTime) eqn:E; [reflexivity|].
  apply Z.leb_gt in E. lia.
Qed.

Lemma TimeClip_Some t u : TimeClip t = Some u -> u = t /\ Z.abs t <= maxTime.
Proof.
  unfold TimeClip. destruct (Z.abs t <=? maxTime) eqn:E; [|discriminate].
  intros H. injection H as <-. apply Z.leb_le in E. auto.
Qed.

Lemma TimeWithinDay_range t : 0 <= TimeWithinDay t < msPerDay.
Proof. unfold TimeWithinDay, msPerDay. divmod. Qed.

Lemma Day_unique t d : d * msPerDay <= t < d * msPerDay + msPerDay -> Day t = d.
Proof. unfold Day, msPerDay. intros H. divmod. Qed.

Lemma diffToMonday_range t :
  (-6 <= Helpers.diffToMonday (WeekDay t) <= 0) /\
  ((Day t + Helpers.diffToMonday (WeekDay t) + 4) mod 7 = 1).
Proof.
  unfold Helpers.diffToMonday, WeekDay.
  destruct ((Day t + 4) mod 7 =? 0) eqn:E;
    [apply Z.eqb_eq in E | apply Z.eqb_neq in E]; divmod.
Qed.

Lemma MakeFullYear_id y : ~ (0 <= y <= 99) -> MakeFullYear y = y.
Proof.
  unfold MakeFullYear. intros H.
  destruct (0 <=? y) eqn:E1; destruct (y <=? 99) eqn:E2; cbn; auto.
  apply Z.leb_le in E1, E2. lia.
Qed.

End TimeRange.

(** ** Months and weeks *)

Section Months.
Import JSDate Helpers.

(** First day and day count of the calendar month of a local time. *)
Lemma month_days t :
  let y := YearFromTime t in
  let m := MonthFromTime t in
  MakeDay y m 1 <= Day t < MakeDay y m 1 + DaysInMonth y m /\
  MakeDay y (m + 1) 0 = MakeDay y m 1 + DaysInMonth y m - 1.
Proof.
  intros y m.
  pose proof (MonthFromTime_range t) as Hr. fold m in Hr.
  pose proof (MonthStartDay_bounds t) as [Hlo Hhi]. fold m in Hlo, Hhi.
  pose proof (DayWithinYear_bounds t) as Hb.
  pose proof (DayFromYear_succ y) as Hs.
  rewrite LeapOfYear_DaysInYear in Hs.
  unfold DayWithinYear, InLeapYear in *. fold y in Hlo, Hhi, Hb.
  assert (Hl : LeapOfYear y = 0 \/ LeapOfYear y = 1).
  { unfold LeapOfYear. destruct (DaysInYear y =? 366); auto. }
  assert (Hm1 : MakeDay y m 1 = DayFromYear y + MonthStartDay m (LeapOfYear y)).
  { unfold MakeDay.
    replace (m / 12) with 0 by divmod.
    replace (m mod 12) with m by divmod.
    rewrite Z.add_0_r. lia. }
  rewrite Hm1. unfold MakeDay.
  month_cases m;
    match goal with
    | |- context [(?a + 1) / 12] =>
        let q := eval compute in ((a + 1) / 12) in
        let r := eval compute in ((a + 1) mod 12) in
        change ((a + 1) / 12) with q; change ((a + 1) mod 12) with r
    end;
    try match type of Hhi with
        | context [MonthStartDay (?a + 1) _] =>
            let v := eval compute in (a + 1) in
            change (a + 1) with v in Hhi
        end;
    cbn [MonthStartDay DaysInMonth] in *;
    rewrite ?Z.add_0_r; lia.
Qed.

Lemma MonthStartDay_next_le y m :
  0 <= m <= 11 ->
  0 <= MonthStartDay m (LeapOfYear y) /\
  MonthStartDay m (LeapOfYear y) + DaysInMonth y m <= 365 + LeapOfYear y /\
  1 <= DaysInMonth y m /\
  (m < 11 ->
   MonthStartDay (m + 1) (LeapOfYear y)
   = MonthStartDay m (LeapOfYear y) + DaysInMonth y m).
Proof.
  intros Hm.
  assert (Hl : LeapOfYear y = 0 \/ LeapOfYear y = 1).
  { unfold LeapOfYear. destruct (DaysInYear y =? 366); auto. }
  month_cases m;
    try match goal with
        | |- context [MonthStartDay (?a + 1) _] =>
            let v := eval compute in (a + 1) in change (a + 1) with v
        end;
    cbn [MonthStartDay DaysInMonth]; lia.
Qed.

Lemma MakeDay_first y m :
  0 <= m <= 11 ->
  MakeDay y m 1 = DayFromYear y + MonthStartDay m (LeapOfYear y).
Proof.
  intros Hm. unfold MakeDay.
  replace (m / 12) with 0 by divmod.
  replace (m mod 12) with m by divmod.
  rewrite Z.add_0_r. lia.
Qed.

(** A day inside the month [m] of year [y] has that year and month. *)
Lemma month_unique y m t :
  0 <= m <= 11 ->
  MakeDay y m 1 <= Day t < MakeDay y m 1 + DaysInMonth y m ->
  YearFromTime t = y /\ MonthFromTime t = m.
Proof.
  intros Hm Hd. rewrite (MakeDay_first y m Hm) in Hd.
  destruct (MonthStartDay_next_le y m Hm) as [H0 [Hle [_ Hnext]]].
  assert (Hy : YearFromTime t = y).
  { unfold YearFromTime. apply YearFromDay_unique.
    rewrite DayFromYear_succ, LeapOfYear_DaysInYear. lia. }
  split; [exact Hy|].
  pose proof (MonthStartDay_bounds t) as [Hlo Hhi].
  pose proof (MonthFromTime_range t) as Hr.
  unfold DayWithinYear, InLeapYear in *. rewrite Hy in *.
  destruct (MonthStartDay_next_le y (MonthFromTime t) Hr)
    as [_ [_ [Hpos' Hnext']]].
  assert (Hmono : forall a b, 0 <= a <= 11 -> 0 <= b <= 11 -> a < b ->
            MonthStartDay a (LeapOfYear y) + DaysInMonth y a
            <= MonthStartDay b (LeapOfYear y)).
  { intros a b Ha Hb Hab.
    assert (Hl : LeapOfYear y = 0 \/ LeapOfYear y = 1).
    { unfold LeapOfYear. destruct (DaysInYear y =? 366); auto. }
    month_cases a; month_cases b; try lia;
      cbn [MonthStartDay DaysInMonth]; lia. }
  destruct (Z.lt_trichotomy (MonthFromTime t) m) as [Hlt | [Heq | Hgt]]; auto.
  - pose proof (Hmono _ _ Hr Hm Hlt) as Hc.
    specialize (Hhi ltac:(lia)). rewrite Hnext' in Hhi by lia. lia.
  - pose proof (Hmono _ _ Hm Hr Hgt) as Hc. lia.
Qed.

(** The first day of the month after month [m] of year [y]; the year and
    month of that day. *)
Lemma next_month_first y m t :
  0 <= m <= 11 ->
  Day t = MakeDay y m 1 + DaysInMonth y m ->
  MakeDay (YearFromTime t) (MonthFromTime t) 1 = Day t.
Proof.
  intros Hm Hd.
  set (ym := y + (m + 1) / 12). set (mn := (m + 1) mod 12).
  assert (Hmn : 0 <= mn <= 11) by (unfold mn; divmod).
  assert (Hfirst : MakeDay ym mn 1 = Day t).
  { rewrite Hd, (MakeDay_first y m Hm), (MakeDay_first ym mn Hmn).
    destruct (MonthStartDay_next_le y m Hm) as [_ [_ [_ Hnext]]].
    destruct (Z.eq_dec m 11) as [-> | Hne].
    - unfold ym, mn. change ((11 + 1) / 12) with 1.
      change ((11 + 1) mod 12) with 0.
      rewrite DayFromYear_succ, LeapOfYear_DaysInYear.
      cbn [MonthStartDay DaysInMonth]. lia.
    - assert (Eym : ym = y) by (unfold ym; divmod).
      assert (Emn : mn = m + 1) by (unfold mn; divmod).
      rewrite Eym, Emn, Hnext by lia. lia. }
  destruct (MakeDay_finds_first_of_month ym mn Hmn) as [Hy [Hmo _]].
  assert (Hyt : YearFromTime t = ym).
  { rewrite <- Hy. unfold YearFromTime. f_equal.
    rewrite Day_MakeDate by (unfold msPerDay; lia). symmetry. exact Hfirst. }
  assert (Hdw : DayWithinYear t
                = DayWithinYear (MakeDate (MakeDay ym mn 1) 0)).
  { unfold DayWithinYear. rewrite Hyt, Hy.
    rewrite Day_MakeDate by (unfold msPerDay; lia). rewrite Hfirst.
    reflexivity. }
  assert (Hmt : MonthFromTime t = mn).
  { rewrite <- Hmo. unfold MonthFromTime, InLeapYear.
    rewrite Hdw, Hyt, Hy. reflexivity. }
  rewrite Hyt, Hmt. exact Hfirst.
Qed.

Lemma monday_of_week monday D :
  (monday + 4) mod 7 = 1 ->
  monday <= D < monday + 7 ->
  D + diffToMonday ((D + 4) mod 7) = monday.
Proof.
  intros Hm Hd. unfold diffToMonday.
  destruct ((D + 4) mod 7 =? 0) eqn:E;
    [apply Z.eqb_eq in E | apply Z.eqb_neq in E]; divmod.
Qed.

End Months.

(** ** The window of a bounded period type, as arithmetic *)

Section WindowArithmetic.
Import JSDate Helpers.

Variable tza : Z.

(** The local days a window of [n] days starting on day [d] covers. *)
Lemma window_days d n t :
  windowStart tza d <= t <= windowEnd tza d n ->
  d <= Day (t + tza) < d + n.
Proof.
  unfold windowStart, windowEnd. intros H.
  pose proof (Day_bounds (t + tza)) as Hb.
  revert H Hb. generalize (Day (t + tza)). intros D. unfold msPerDay. lia.
Qed.

Lemma window_next_day d n :
  Day (windowEnd tza d n + 1 + tza) = d + n /\
  windowEnd tza d n + 1 = windowStart tza (d + n).
Proof.
  unfold windowStart, windowEnd. split.
  - apply Day_unique. unfold msPerDay. lia.
  - unfold msPerDay. lia.
Qed.

Lemma periodWindow_bounded periodType :
  In periodType boundedPeriodTypes ->
  periodType = "daily" \/ periodType = "weekly" \/ periodType = "monthly" \/
  periodType = "yearly".
Proof. cbn. intuition auto. Qed.

(** The window holds its reference instant and is one millisecond short of
    the period's duration. *)
Lemma periodWindow_spec periodType ref :
  In periodType boundedPeriodTypes ->
  let w := periodWindow tza periodType ref in
  fst w <= ref <= snd w /\
  snd w - fst w = periodDuration periodType (ref + tza) - 1.
Proof.
  intros Hin. pose proof (Day_bounds (ref + tza)) as Hd.
  apply periodWindow_bounded in Hin.
  destruct Hin as [-> | [-> | [-> | ->]]];
    unfold periodWindow, periodDuration;
    cbn [String.eqb Ascii.eqb Bool.eqb fst snd];
    unfold windowStart, windowEnd.
  - unfold msPerHour, msPerDay in *. lia.
  - destruct (diffToMonday_range (ref + tza)) as [Hk _].
    unfold msPerHour, msPerDay in *. lia.
  - destruct (month_days (ref + tza)) as [Hm _]. cbv zeta in Hm.
    unfold msPerHour, msPerDay in *. lia.
  - pose proof (YearFromDay_spec (Day (ref + tza))) as Hy.
    rewrite DayFromYear_succ in Hy. unfold YearFromTime.
    unfold msPerHour, msPerDay in *. lia.
Qed.

Lemma DaysInMonth_le y m : 1 <= DaysInMonth y m <= 31.
Proof.
  assert (Hl : LeapOfYear y = 0 \/ LeapOfYear y = 1).
  { unfold LeapOfYear. destruct (DaysInYear y =? 366); auto. }
  unfold DaysInMonth.
  destruct m as [|p|p]; try lia.
  do 4 (destruct p as [p|p|]; try lia).
Qed.

Lemma periodDuration_le periodType tl :
  0 < periodDuration periodType tl <= 366 * msPerDay.
Proof.
  unfold periodDuration.
  pose proof (DaysInMonth_le (YearFromTime tl) (MonthFromTime tl)).
  pose proof (DaysInYear_cases (YearFromTime tl)).
  repeat destruct (String.eqb _ _); unfold msPerHour, msPerDay; lia.
Qed.

(** A reference instant inside a window has that window. *)
Lemma periodWindow_same periodType ref ref' :
  In periodType boundedPeriodTypes ->
  fst (periodWindow tza periodType ref) <= ref'
  <= snd (periodWindow tza periodType ref) ->
  periodWindow tza periodType ref' = periodWindow tza periodType ref /\
  (periodType = "monthly" \/ periodType = "yearly" ->
   YearFromTime (ref' + tza) = YearFromTime (ref + tza)).
Proof.
  intros Hin. apply periodWindow_bounded in Hin.
  destruct Hin as [-> | [-> | [-> | ->]]];
    unfold periodWindow; cbn [String.eqb Ascii.eqb Bool.eqb fst snd];
    intros Hw.
  - apply window_days in Hw.
    split; [do 2 f_equal; lia|].
    intros [H | H]; discriminate.
  - pose proof Hw as Hw'. apply window_days in Hw.
    destruct (diffToMonday_range (ref + tza)) as [Hk Hmon].
    assert (Hm : Day (ref' + tza) + diffToMonday (WeekDay (ref' + tza))
                 = Day (ref + tza) + diffToMonday (WeekDay (ref + tza))).
    { unfold WeekDay at 1. apply monday_of_week; assumption. }
    split; [rewrite Hm; reflexivity|].
    intros [H | H]; discriminate.
  - apply window_days in Hw.
    destruct (month_unique _ _ (ref' + tza)
                (MonthFromTime_range (ref + tza)) Hw) as [Hy Hm].
    split; [rewrite Hy, Hm; reflexivity | auto].
  - apply window_days in Hw.
    assert (Hy : YearFromTime (ref' + tza) = YearFromTime (ref + tza)).
    { unfold YearFromTime at 1. apply YearFromDay_unique.
      rewrite DayFromYear_succ. exact Hw. }
    split; [rewrite Hy; reflexivity | auto].
Qed.

(** The millisecond after a window opens the next one. *)
Lemma periodWindow_next periodType ref :
  In periodType boundedPeriodTypes ->
  fst (periodWindow tza periodType
                    (snd (periodWindow tza periodType ref) + 1))
  = snd (periodWindow tza periodType ref) + 1.
Proof.
  intros Hin. apply periodWindow_bounded in Hin.
  destruct Hin as [-> | [-> | [-> | ->]]];
    unfold periodWindow; cbn [String.eqb Ascii.eqb Bool.eqb fst snd].
  - destruct (window_next_day (Day (ref + tza)) 1) as [Hd He].
    rewrite Hd, He. reflexivity.
  - destruct (diffToMonday_range (ref + tza)) as [_ Hmon].
    set (monday := Day (ref + tza) + diffToMonday (WeekDay (ref + tza))) in *.
    destruct (window_next_day monday 7) as [Hd He].
    unfold WeekDay. rewrite Hd, He.
    replace ((monday + 7 + 4) mod 7) with 1 by divmod.
    unfold diffToMonday. cbn [Z.eqb]. f_equal. lia.
  - set (y := YearFromTime (ref + tza)) in *.
    set (m := MonthFromTime (ref + tza)) in *.
    destruct (window_next_day (MakeDay y m 1) (DaysInMonth y m))
      as [Hd He].
    rewrite (next_month_first y m _ (MonthFromTime_range _) Hd), Hd, He.
    reflexivity.
  - set (y := YearFromTime (ref + tza)) in *.
    destruct (window_next_day (DayFromYear y) (DaysInYear y)) as [Hd He].
    assert (Hnext : YearFromTime (windowEnd tza (DayFromYear y)
                                            (DaysInYear y) + 1 + tza)
                    = y + 1).
    { unfold YearFromTime. apply YearFromDay_unique. rewrite Hd.
      rewrite !DayFromYear_succ.
      pose proof (DaysInYear_cases (y + 1)). lia. }
    rewrite Hnext, He, DayFromYear_succ. reflexivity.
Qed.

End WindowArithmetic.

(** ** [getPeriodDates] in a zone of fixed offset *)

Section FixedZone.
Import JSDate Helpers.

Variable tz : TimeZone.
Variable tza : Z.
Hypothesis Hfix : fixedOffset tz tza.

Lemma startDate_mk a b : startDate (mkPeriod a b) = a.
Proof. reflexivity. Qed.

Lemma endDate_mk a b : endDate (mkPeriod a b) = b.
Proof. reflexivity. Qed.

Lemma LocalTime_fixed t : LocalTime tz t = t + tza.
Proof. unfold LocalTime. rewrite Hfix. reflexivity. Qed.

Lemma UTC_fixed t : UTC tz t = t - tza.
Proof. unfold UTC. rewrite Hfix. reflexivity. Qed.

Lemma setHours_fixed t h m s ms :
  setHours tz (Some t) h m s ms
  = TimeClip (MakeDate (Day (t + tza)) (MakeTime h m s ms) - tza).
Proof. unfold setHours. rewrite UTC_fixed, LocalTime_fixed. reflexivity. Qed.

Lemma setDate_fixed t k :
  setDate tz (Some t) (Some (DateFromTime (t + tza) + k))
  = TimeClip (t + k * msPerDay).
Proof.
  unfold setDate. rewrite UTC_fixed, LocalTime_fixed, MakeDay_roundtrip.
  f_equal. rewrite TimeWithinDay_eq. unfold MakeDate. lia.
Qed.

Lemma getPeriodDates_invalid_ref now periodType ref :
  In periodType boundedPeriodTypes ->
  TimeClip ref = None ->
  getPeriodDates tz now periodType (Some ref) = Ok (mkPeriod None None).
Proof.
  intros Hin Hc. apply periodWindow_bounded in Hin.
  destruct Hin as [-> | [-> | [-> | ->]]];
    unfold getPeriodDates; cbn [String.eqb Ascii.eqb Bool.eqb];
    rewrite Hc; reflexivity.
Qed.

Lemma getPeriodDates_daily now ref :
  Z.abs ref <= maxTime ->
  let w := periodWindow tza "daily" ref in
  getPeriodDates tz now "daily" (Some ref)
  = Ok (mkPeriod (TimeClip (fst w))
                 (match TimeClip (fst w) with
                  | Some _ => TimeClip (snd w)
                  | None => None
                  end)).
Proof.
  intros Hr w. unfold getPeriodDates. cbn [String.eqb Ascii.eqb Bool.eqb].
  rewrite (TimeClip_ok ref Hr), setHours_fixed.
  assert (Hs : MakeDate (Day (ref + tza)) (MakeTime 0 0 0 0) - tza = fst w).
  { unfold w, periodWindow. cbn [String.eqb Ascii.eqb Bool.eqb fst].
    unfold windowStart, MakeDate, MakeTime. lia. }
  rewrite Hs. destruct (TimeClip (fst w)) as [s|] eqn:Ec; [|reflexivity].
  apply TimeClip_Some in Ec. destruct Ec as [-> _].
  rewrite setHours_fixed. do 3 f_equal.
  unfold w, periodWindow. cbn [String.eqb Ascii.eqb Bool.eqb fst snd].
  unfold windowStart, windowEnd.
  replace (Day (ref + tza) * msPerDay - tza + tza)
    with (MakeDate (Day (ref + tza)) 0) by (unfold MakeDate; lia).
  rewrite Day_MakeDate by (unfold msPerDay; lia).
  unfold MakeDate, MakeTime, msPerHour, msPerMinute, msPerSecond, msPerDay.
  lia.
Qed.

Lemma getPeriodDates_weekly now ref :
  Z.abs ref <= maxTime ->
  let w := periodWindow tza "weekly" ref in
  let k := diffToMonday (WeekDay (ref + tza)) in
  getPeriodDates tz now "weekly" (Some ref)
  = Ok (match TimeClip (ref + k * msPerDay) with
        | None => mkPeriod None None
        | Some _ =>
            match TimeClip (fst w) with
            | None => mkPeriod None None
            | Some _ =>
                mkPeriod (Some (fst w))
                         (match TimeClip (fst w + 6 * msPerDay) with
                          | None => None
                          | Some _ => TimeClip (snd w)
                          end)
            end
        end).
Proof.
  intros Hr w k. unfold getPeriodDates. cbn [String.eqb Ascii.eqb Bool.eqb].
  rewrite (TimeClip_ok ref Hr).
  cbn [getDay getDate option_map plus]. rewrite LocalTime_fixed.
  fold (diffToMonday (WeekDay (ref + tza))). fold k.
  rewrite setDate_fixed.
  destruct (TimeClip (ref + k * msPerDay)) as [t1|] eqn:E1; [|reflexivity].
  apply TimeClip_Some in E1. destruct E1 as [-> _].
  rewrite setHours_fixed.
  assert (Hmon : Day (ref + k * msPerDay + tza) = Day (ref + tza) + k).
  { apply Day_unique. pose proof (Day_bounds (ref + tza)).
    unfold msPerDay in *. lia. }
  assert (Hs : MakeDate (Day (ref + k * msPerDay + tza)) (MakeTime 0 0 0 0)
               - tza = fst w).
  { rewrite Hmon. unfold w, periodWindow.
    cbn [String.eqb Ascii.eqb Bool.eqb fst]. fold k.
    unfold windowStart, MakeDate, MakeTime. lia. }
  rewrite Hs. destruct (TimeClip (fst w)) as [s|] eqn:E2; [|reflexivity].
  apply TimeClip_Some in E2. destruct E2 as [-> _].
  cbn [getDate option_map plus]. rewrite LocalTime_fixed, setDate_fixed.
  destruct (TimeClip (fst w + 6 * msPerDay)) as [e1|] eqn:E3;
    [|reflexivity].
  apply TimeClip_Some in E3. destruct E3 as [-> _].
  rewrite setHours_fixed. do 3 f_equal.
  unfold w, periodWindow. cbn [String.eqb Ascii.eqb Bool.eqb fst snd].
  fold k. unfold windowStart, windowEnd.
  replace ((Day (ref + tza) + k) * msPerDay - tza + 6 * msPerDay + tza)
    with (MakeDate (Day (ref + tza) + k + 6) 0) by (unfold MakeDate; lia).
  rewrite Day_MakeDate by (unfold msPerDay; lia).
  unfold MakeDate, MakeTime, msPerHour, msPerMinute, msPerSecond, msPerDay.
  lia.
Qed.

Lemma getPeriodDates_monthly now ref :
  ~ (0 <= YearFromTime (ref + tza) <= 99) ->
  Z.abs ref <= maxTime ->
  let w := periodWindow tza "monthly" ref in
  getPeriodDates tz now "monthly" (Some ref)
  = Ok (mkPeriod (TimeClip (fst w)) (TimeClip (snd w))).
Proof.
  intros Hy Hr w. unfold getPeriodDates. cbn [String.eqb Ascii.eqb Bool.eqb].
  rewrite (TimeClip_ok ref Hr).
  cbn [getFullYear getMonth option_map plus construct].
  rewrite !LocalTime_fixed, !UTC_fixed, (MakeFullYear_id _ Hy).
  destruct (month_days (ref + tza)) as [_ Hlast]. rewrite Hlast.
  unfold w, periodWindow. cbn [String.eqb Ascii.eqb Bool.eqb fst snd].
  unfold windowStart, windowEnd, MakeDate, MakeTime, msPerHour, msPerMinute,
    msPerSecond, msPerDay.
  f_equal. f_equal; (apply f_equal; lia).
Qed.

Lemma getPeriodDates_yearly now ref :
  ~ (0 <= YearFromTime (ref + tza) <= 99) ->
  Z.abs ref <= maxTime ->
  let w := periodWindow tza "yearly" ref in
  getPeriodDates tz now "yearly" (Some ref)
  = Ok (mkPeriod (TimeClip (fst w)) (TimeClip (snd w))).
Proof.
  intros Hy Hr w. unfold getPeriodDates. cbn [String.eqb Ascii.eqb Bool.eqb].
  rewrite (TimeClip_ok ref Hr).
  cbn [getFullYear getMonth option_map plus construct].
  rewrite !LocalTime_fixed, !UTC_fixed, (MakeFullYear_id _ Hy).
  unfold MakeDay.
  change (0 / 12) with 0. change (0 mod 12) with 0.
  change (11 / 12) with 0. change (11 mod 12) with 11.
  rewrite !Z.add_0_r. cbn [MonthStartDay].
  unfold w, periodWindow. cbn [String.eqb Ascii.eqb Bool.eqb fst snd].
  rewrite (LeapOfYear_DaysInYear (YearFromTime (ref + tza))).
  unfold windowStart, windowEnd, MakeDate, MakeTime, msPerHour, msPerMinute,
    msPerSecond, msPerDay.
  f_equal. f_equal; (apply f_equal; lia).
Qed.

(** Where the reference instant and both ends of its window are time values
    of the range, [getPeriodDates] returns that window. *)
Lemma getPeriodDates_fixed_valid now periodType ref :
  In periodType boundedPeriodTypes ->
  (periodType = "monthly" \/ periodType = "yearly" ->
   ~ (0 <= YearFromTime (ref + tza) <= 99)) ->
  Z.abs ref <= maxTime ->
  Z.abs (fst (periodWindow tza periodType ref)) <= maxTime ->
  Z.abs (snd (periodWindow tza periodType ref)) <= maxTime ->
  getPeriodDates tz now periodType (Some ref)
  = Ok (validPeriod (periodWindow tza periodType ref)).
Proof.
  intros Hin Hyear Hr Hs He.
  pose proof (periodWindow_spec tza periodType ref Hin) as [Hb _].
  apply periodWindow_bounded in Hin. unfold validPeriod.
  destruct Hin as [-> | [-> | [-> | ->]]].
  - rewrite (getPeriodDates_daily now ref Hr). cbv zeta.
    rewrite (TimeClip_ok _ Hs), (TimeClip_ok _ He). reflexivity.
  - rewrite (getPeriodDates_weekly now ref Hr). cbv zeta.
    destruct (diffToMonday_range (ref + tza)) as [Hk _].
    assert (Hw : fst (periodWindow tza "weekly" ref)
                 <= ref + diffToMonday (WeekDay (ref + tza)) * msPerDay).
    { unfold periodWindow. cbn [String.eqb Ascii.eqb Bool.eqb fst].
      unfold windowStart. pose proof (Day_bounds (ref + tza)).
      unfold msPerDay in *. lia. }
    assert (Hw2 : fst (periodWindow tza "weekly" ref) + 6 * msPerDay
                  <= snd (periodWindow tza "weekly" ref)).
    { unfold periodWindow. cbn [String.eqb Ascii.eqb Bool.eqb fst snd].
      unfold windowStart, windowEnd, msPerDay. lia. }
    rewrite (TimeClip_ok (ref + _ * msPerDay))
      by (unfold msPerDay in *; lia).
    rewrite (TimeClip_ok _ Hs).
    rewrite (TimeClip_ok (_ + 6 * msPerDay)) by (unfold msPerDay in *; lia).
    rewrite (TimeClip_ok _ He). reflexivity.
  - rewrite (getPeriodDates_monthly now ref (Hyear (or_introl eq_refl)) Hr).
    cbv zeta. rewrite (TimeClip_ok _ Hs), (TimeClip_ok _ He). reflexivity.
  - rewrite (getPeriodDates_yearly now ref (Hyear (or_intror eq_refl)) Hr).
    cbv zeta. rewrite (TimeClip_ok _ Hs), (TimeClip_ok _ He). reflexivity.
Qed.

(** Conversely, a window with two valid dates is the window of the
    reference instant, and all three are time values of the range. *)
Lemma getPeriodDates_fixed_inv now periodType ref w s e :
  In periodType boundedPeriodTypes ->
  (periodType = "monthly" \/ periodType = "yearly" ->
   ~ (0 <= YearFromTime (ref + tza) <= 99)) ->
  getPeriodDates tz now periodType (Some ref) = Ok w ->
  startDate w = Some s ->
  endDate w = Some e ->
  Z.abs ref <= maxTime /\
  (s, e) = periodWindow tza periodType ref /\
  Z.abs s <= maxTime /\ Z.abs e <= maxTime.
Proof.
  intros Hin Hyear Hw Hs He.
  destruct (TimeClip ref) as [r|] eqn:Er.
  2:{ rewrite (getPeriodDates_invalid_ref now periodType ref Hin Er) in Hw.
      apply Ok_inj in Hw. subst w. discriminate. }
  apply TimeClip_Some in Er. destruct Er as [_ Hr]. split; [exact Hr|].
  apply periodWindow_bounded in Hin.
  destruct Hin as [-> | [-> | [-> | ->]]].
  - rewrite (getPeriodDates_daily now ref Hr) in Hw. cbv zeta in Hw.
    apply Ok_inj in Hw. subst w. rewrite ?startDate_mk in Hs. rewrite ?endDate_mk in He.
    rewrite Hs in He.
    apply TimeClip_Some in Hs, He. destruct Hs as [-> Hs], He as [-> He].
    split; [symmetry; apply surjective_pairing | auto].
  - rewrite (getPeriodDates_weekly now ref Hr) in Hw. cbv zeta in Hw.
    apply Ok_inj in Hw. subst w.
    destruct (TimeClip (ref + _ * msPerDay)); [|discriminate].
    destruct (TimeClip (fst (periodWindow tza "weekly" ref))) eqn:E2;
      [|discriminate].
    rewrite ?startDate_mk in Hs. rewrite ?endDate_mk in He.
    destruct (TimeClip (_ + 6 * msPerDay)); [|discriminate].
    apply TimeClip_Some in E2, He. destruct E2 as [_ E2], He as [-> He].
    injection Hs as <-. split; [symmetry; apply surjective_pairing | auto].
  - rewrite (getPeriodDates_monthly now ref (Hyear (or_introl eq_refl)) Hr)
      in Hw. cbv zeta in Hw.
    apply Ok_inj in Hw. subst w. rewrite ?startDate_mk in Hs. rewrite ?endDate_mk in He.
    apply TimeClip_Some in Hs, He. destruct Hs as [-> Hs], He as [-> He].
    split; [symmetry; apply surjective_pairing | auto].
  - rewrite (getPeriodDates_yearly now ref (Hyear (or_intror eq_refl)) Hr)
      in Hw. cbv zeta in Hw.
    apply Ok_inj in Hw. subst w. rewrite ?startDate_mk in Hs. rewrite ?endDate_mk in He.
    apply TimeClip_Some in Hs, He. destruct Hs as [-> Hs], He as [-> He].
    split; [symmetry; apply surjective_pairing | auto].
Qed.

End FixedZone.

(** ** C1: the window of a bounded period type *)

Section PeriodClaims.
Import JSDate Helpers.

Lemma utc_fixed : fixedOffset utc 0.
Proof. intros t isUTC. reflexivity. Qed.

Lemma Period_eta w s e :
  startDate w = Some s -> endDate w = Some e -> w = mkPeriod (Some s) (Some e).
Proof. destruct w as [a b]. cbn. intros -> ->. reflexivity. Qed.




(** Why the zone's offset must not change: in America/New_York the clocks
    go from 02:00 to 03:00 on 2023-03-12, and the daily window of noon that
    day, from local midnight to local 23:59:59.999, is 23 hours less one
    millisecond. *)
Lemma getPeriodDates_daily_spring_forward :
  getPeriodDates newYork2023 0 "daily" (Some 1678636800000)
  = Ok (mkPeriod (Some 1678597200000) (Some 1678679999999)) /\
  1678679999999 - 1678597200000 = 23 * msPerHour - 1.
Proof. split; vm_compute; reflexivity. Qed.

(** Why the reference instant must lie inside the range: on the last day of
    the range the daily window has no valid end. *)
Lemma getPeriodDates_daily_range_end :
  getPeriodDates utc 0 "daily" (Some maxTime)
  = Ok (mkPeriod (Some maxTime) None).
Proof. vm_compute. reflexivity. Qed.

(** Why the monthly and yearly windows need a year outside 0..99: for the
    first instant of the year 50 the [Date] constructor is handed the year 50
    and builds the window of 1950, which starts after the reference. *)
Lemma getPeriodDates_two_digit_year :
  YearFromTime (LocalTime utc (-60589296000000)) = 50 /\
  getPeriodDates utc 0 "yearly" (Some (-60589296000000))
  = Ok (mkPeriod (Some (-631152000000)) (Some (-599616000001))) /\
  -60589296000000 < -631152000000.
Proof.
  split; [vm_compute; reflexivity|]. split; [vm_compute; reflexivity | lia].
Qed.

(** A value outside the enumerated period types is rejected. *)
Lemma getPeriodDates_invalid tz now date :
  getPeriodDates tz now "hourly" date = Err InvalidPeriodType.
Proof. reflexivity. Qed.

(** ** Further properties of the period windows *)

(** In a zone of fixed offset, every instant of a window computes that same
    window: all calls made during one period agree on its start and end,
    hence on the key under which the period's summary is stored. *)
Theorem getPeriodDates_same_window tz tza now periodType ref ref' w s e :
  fixedOffset tz tza ->
  In periodType boundedPeriodTypes ->
  (periodType = "monthly" \/ periodType = "yearly" ->
   ~ (0 <= YearFromTime (LocalTime tz ref) <= 99)) ->
  getPeriodDates tz now periodType (Some ref) = Ok w ->
  startDate w = Some s ->
  endDate w = Some e ->
  s <= ref' <= e ->
  getPeriodDates tz now periodType (Some ref') = Ok w.
Proof.
  intros Hfix Hin Hyear Hw Hs He Hin'.
  rewrite (LocalTime_fixed tz tza Hfix) in *.
  destruct (getPeriodDates_fixed_inv tz tza Hfix now periodType ref w s e
              Hin Hyear Hw Hs He) as [Hr [Hse [Hsr Her]]].
  assert (Es : s = fst (periodWindow tza periodType ref))
    by (rewrite <- Hse; reflexivity).
  assert (Ee : e = snd (periodWindow tza periodType ref))
    by (rewrite <- Hse; reflexivity).
  destruct (periodWindow_same tza periodType ref ref' Hin) as [Hsame Hy];
    [rewrite <- Es, <- Ee; exact Hin'|].
  rewrite (Period_eta w s e Hs He).
  rewrite (getPeriodDates_fixed_valid tz tza Hfix now periodType ref' Hin).
  - unfold validPeriod. rewrite Hsame, <- Es, <- Ee. reflexivity.
  - intros Hp. rewrite (Hy Hp). apply Hyear, Hp.
  - lia.
  - rewrite Hsame, <- Es. exact Hsr.
  - rewrite Hsame, <- Ee. exact Her.
Qed.

Lemma getPeriodDates_same_window_witness :
  getPeriodDates utc 0 "monthly" (Some 1699000000000)
  = Ok (mkPeriod (Some 1698796800000) (Some 1701388799999)).
Proof.
  apply (getPeriodDates_same_window utc 0 0 "monthly" 1700000000000
           1699000000000 (mkPeriod (Some 1698796800000) (Some 1701388799999))
           1698796800000 1701388799999).
  - exact utc_fixed.
  - cbn. auto.
  - intros _ [_ H]. vm_compute in H. apply H. reflexivity.
  - vm_compute. reflexivity.
  - reflexivity.
  - reflexivity.
  - lia.
Defined.

(** In a zone of fixed offset, windows tile the time line: the instant after
    a window's end opens the next window, without gap or overlap, as long as
    that instant is at least 366 days before the end of the range. *)
Theorem getPeriodDates_next_window tz tza now periodType ref w s e :
  fixedOffset tz tza ->
  In periodType boundedPeriodTypes ->
  (periodType = "monthly" \/ periodType = "yearly" ->
   ~ (0 <= YearFromTime (LocalTime tz ref) <= 99) /\
   ~ (0 <= YearFromTime (LocalTime tz (e + 1)) <= 99)) ->
  getPeriodDates tz now periodType (Some ref) = Ok w ->
  startDate w = Some s ->
  endDate w = Some e ->
  e + 1 <= maxTime - 366 * msPerDay ->
  exists e',
    getPeriodDates tz now periodType (Some (e + 1))
    = Ok (mkPeriod (Some (e + 1)) (Some e')) /\
    e + 1 <= e'.
Proof.
  intros Hfix Hin Hyear Hw Hs He Hmax.
  rewrite !(LocalTime_fixed tz tza Hfix) in *.
  destruct (getPeriodDates_fixed_inv tz tza Hfix now periodType ref w s e
              Hin (fun Hp => proj1 (Hyear Hp)) Hw Hs He)
    as [Hr [Hse [Hsr Her]]].
  assert (Es : s = fst (periodWindow tza periodType ref))
    by (rewrite <- Hse; reflexivity).
  assert (Ee : e = snd (periodWindow tza periodType ref))
    by (rewrite <- Hse; reflexivity).
  destruct (periodWindow_spec tza periodType ref Hin) as [Hb _].
  rewrite <- Es, <- Ee in Hb.
  pose proof (periodWindow_next tza periodType ref Hin) as Hnext.
  rewrite <- Ee in Hnext.
  destruct (periodWindow_spec tza periodType (e + 1) Hin) as [Hb' Hd'].
  pose proof (periodDuration_le periodType (e + 1 + tza)) as Hle.
  rewrite Hnext in Hb', Hd'.
  exists (snd (periodWindow tza periodType (e + 1))).
  split; [|lia].
  rewrite (getPeriodDates_fixed_valid tz tza Hfix now periodType (e + 1) Hin).
  - unfold validPeriod. rewrite Hnext. reflexivity.
  - intros Hp. apply (proj2 (Hyear Hp)).
  - unfold maxTime, msPerDay in *. lia.
  - rewrite Hnext. unfold maxTime, msPerDay in *. lia.
  - unfold maxTime, msPerDay in *. lia.
Qed.

Lemma getPeriodDates_next_window_witness :
  exists e',
    getPeriodDates utc 0 "monthly" (Some (1701388799999 + 1))
    = Ok (mkPeriod (Some (1701388799999 + 1)) (Some e')) /\
    1701388799999 + 1 <= e'.
Proof.
  apply (getPeriodDates_next_window utc 0 0 "monthly" 1700000000000
           (mkPeriod (Some 1698796800000) (Some 1701388799999))
           1698796800000 1701388799999).
  - exact utc_fixed.
  - cbn. auto.
  - intros _. split; intros [_ H]; vm_compute in H; apply H; reflexivity.
  - vm_compute. reflexivity.
  - reflexivity.
  - reflexivity.
  - vm_compute. discriminate.
Defined.

(** In a zone of fixed offset, for a reference instant at least 7 days
    inside the range, the weekly window runs from Monday 00:00:00.000 to
    Sunday 23:59:59.999, local time. *)
Theorem getPeriodDates_weekly_monday_to_sunday tz tza now ref :
  fixedOffset tz tza ->
  Z.abs ref <= maxTime - 7 * msPerDay ->
  exists s e,
    getPeriodDates tz now "weekly" (Some ref)
    = Ok (mkPeriod (Some s) (Some e)) /\
    WeekDay (LocalTime tz s) = 1 /\
    TimeWithinDay (LocalTime tz s) = 0 /\
    WeekDay (LocalTime tz e) = 0 /\
    TimeWithinDay (LocalTime tz e) = msPerDay - 1.
Proof.
  intros Hfix Hr.
  assert (Hin : In "weekly" boundedPeriodTypes) by (cbn; auto).
  destruct (periodWindow_spec tza "weekly" ref Hin) as [Hb Hd].
  change (periodDuration "weekly" (ref + tza)) with (7 * msPerDay) in Hd.
  exists (fst (periodWindow tza "weekly" ref)),
         (snd (periodWindow tza "weekly" ref)).
  split.
  { rewrite (getPeriodDates_fixed_valid tz tza Hfix now "weekly" ref Hin).
    - reflexivity.
    - intros [H | H]; discriminate.
    - unfold maxTime, msPerDay in *. lia.
    - unfold maxTime, msPerDay in *. lia.
    - unfold maxTime, msPerDay in *. lia. }
  clear Hb Hd. rewrite !(LocalTime_fixed tz tza Hfix).
  unfold periodWindow. cbn [String.eqb Ascii.eqb Bool.eqb fst snd].
  destruct (diffToMonday_range (ref + tza)) as [_ Hmon].
  set (monday := Day (ref + tza) + diffToMonday (WeekDay (ref + tza))) in *.
  assert (Hs : windowStart tza monday + tza = MakeDate monday 0).
  { unfold windowStart, MakeDate. lia. }
  assert (He : windowEnd tza monday 7 + tza
               = MakeDate (monday + 6) (msPerDay - 1)).
  { unfold windowEnd, MakeDate. lia. }
  unfold WeekDay. rewrite Hs, He.
  rewrite !TimeWithinDay_eq.
  rewrite !Day_MakeDate by (unfold msPerDay; lia).
  repeat split.
  - exact Hmon.
  - unfold MakeDate. lia.
  - revert Hmon. generalize monday. intros d Hd. divmod.
  - unfold MakeDate. lia.
Qed.

Lemma getPeriodDates_weekly_monday_to_sunday_witness :
  exists s e,
    getPeriodDates utc 0 "weekly" (Some 1700000000000)
    = Ok (mkPeriod (Some s) (Some e)) /\
    WeekDay (LocalTime utc s) = 1 /\
    TimeWithinDay (LocalTime utc s) = 0 /\
    WeekDay (LocalTime utc e) = 0 /\
    TimeWithinDay (LocalTime utc e) = msPerDay - 1.
Proof.
  apply (getPeriodDates_weekly_monday_to_sunday utc 0 0 1700000000000).
  - exact utc_fixed.
  - vm_compute. discriminate.
Defined.

End PeriodClaims.

(** ** Floating-point numbers: signs *)

Section NumberSigns.
Import Number.

(** The sign of a number that is not NaN. *)
Lemma shr_1_nonneg mrs : 0 <= shr_m mrs -> 0 <= shr_m (shr_1 mrs).
Proof.
  destruct mrs as [m r s]. cbn [shr_m]. intros Hm.
  destruct m as [|p|p]; cbn; try lia.
  destruct p; cbn; lia.
Qed.

Lemma iter_shr_1_nonneg p mrs :
  0 <= shr_m mrs -> 0 <= shr_m (iter_pos shr_1 p mrs).
Proof.
  revert mrs. induction p as [p IH|p IH|]; intros mrs Hm; cbn [iter_pos].
  - apply IH, IH, shr_1_nonneg, Hm.
  - apply IH, IH, Hm.
  - apply shr_1_nonneg, Hm.
Qed.

Lemma shr_fexp_nonneg m e l :
  0 <= m -> 0 <= shr_m (fst (shr_fexp prec emax m e l)).
Proof.
  intros Hm. unfold shr_fexp, shr.
  assert (H0 : 0 <= shr_m (shr_record_of_loc m l)).
  { destruct l as [|[| |]]; exact Hm. }
  destruct (fexp prec emax (Zdigits2 m + e) - e) as [|p|p]; cbn [fst];
    auto using iter_shr_1_nonneg.
Qed.

Lemma round_nearest_even_nonneg m l : 0 <= m -> 0 <= round_nearest_even m l.
Proof.
  intros Hm. destruct l as [|[| |]]; cbn; try lia.
  destruct (Z.even m); lia.
Qed.

(** A rounded non-negative significand keeps the sign it is given. *)
Lemma binary_round_aux_sign sx mx ex lx :
  0 <= mx ->
  match binary_round_aux prec emax sx mx ex lx with
  | S754_zero s | S754_infinity s | S754_finite s _ _ => s = sx
  | S754_nan => False
  end.
Proof.
  intros Hm. unfold binary_round_aux.
  pose proof (shr_fexp_nonneg mx ex lx Hm) as H1.
  destruct (shr_fexp prec emax mx ex lx) as [mrs' e'] eqn:E1.
  cbn [fst] in H1.
  pose proof (shr_fexp_nonneg
                (round_nearest_even (shr_m mrs') (loc_of_shr_record mrs'))
                e' loc_Exact
                (round_nearest_even_nonneg _ _ H1)) as H2.
  destruct (shr_fexp prec emax _ e' loc_Exact) as [mrs'' e''] eqn:E2.
  cbn [fst] in H2.
  destruct (shr_m mrs'') as [|p|p]; try reflexivity; [|lia].
  destruct (e'' <=? emax - prec); reflexivity.
Qed.

Lemma binary_round_sign sx mx ex :
  match binary_round prec emax sx mx ex with
  | S754_zero s | S754_infinity s | S754_finite s _ _ => s = sx
  | S754_nan => False
  end.
Proof.
  unfold binary_round.
  destruct (shl_align mx ex _) as [mz ez].
  apply binary_round_aux_sign. lia.
Qed.

Lemma binary_normalize_notNaN m e :
  isNaN (binary_normalize prec emax m e false) = false.
Proof.
  unfold binary_normalize. destruct m as [|p|p]; [reflexivity| |].
  - pose proof (binary_round_sign false p e) as H.
    destruct (binary_round prec emax false p e); try reflexivity.
    destruct H.
  - pose proof (binary_round_sign true p e) as H.
    destruct (binary_round prec emax true p e); try reflexivity.
    destruct H.
Qed.

(** [0 <= x], as the [min: 0] validators test it. *)
Lemma nonneg_spec x :
  leb zero x = true <->
  match x with
  | S754_zero _ => True
  | S754_infinity s | S754_finite s _ _ => s = false
  | S754_nan => False
  end.
Proof.
  destruct x as [s|s| |s m e]; try destruct s; cbn;
    intuition (auto; discriminate).
Qed.

Lemma nonneg_notNaN x : leb zero x = true -> isNaN x = false.
Proof. destruct x; try reflexivity. discriminate. Qed.

Lemma signed_nonneg x :
  match x with
  | S754_zero s | S754_infinity s | S754_finite s _ _ => s = false
  | S754_nan => False
  end ->
  leb zero x = true.
Proof. intros H. apply nonneg_spec. destruct x; auto. Qed.

Lemma add_nonneg x y :
  leb zero x = true -> leb zero y = true -> leb zero (add x y) = true.
Proof.
  intros Hx Hy. apply nonneg_spec in Hx, Hy. unfold add.
  destruct x as [sx|sx| |sx mx ex]; destruct y as [sy|sy| |sy my ey];
    try contradiction; subst; cbn [SFadd];
    try (destruct sx); try (destruct sy); try reflexivity.
  apply signed_nonneg. cbn [cond_Zopp]. unfold binary_normalize.
  destruct (fst (shl_align mx ex (Z.min ex ey))) as [a|a|];
    destruct (fst (shl_align my ey (Z.min ex ey))) as [b|b|];
    cbn [Z.add]; apply binary_round_sign.
Qed.

Lemma reduce_sum_nonneg {A : Type} (f : A -> t) (xs : list A) :
  Forall (fun x => leb zero (f x) = true) xs ->
  leb zero (reduce_sum f xs) = true.
Proof.
  unfold reduce_sum.
  assert (H : forall a, leb zero a = true ->
                        Forall (fun x => leb zero (f x) = true) xs ->
                        leb zero (fold_left (fun sum x => add sum (f x)) xs a)
                        = true).
  { induction xs as [|x xs IH]; intros a Ha Hxs; cbn [fold_left].
    - exact Ha.
    - inversion Hxs; subst. apply IH; auto using add_nonneg. }
  apply H. reflexivity.
Qed.

Lemma div_eucl_nonneg a b : 0 <= a -> 0 < b -> 0 <= fst (Z.div_eucl a b).
Proof.
  intros Ha Hb. change (fst (Z.div_eucl a b)) with (a / b).
  apply Z.div_pos; lia.
Qed.

Lemma div_finite_sign sx mx ex sy my ey :
  match div (S754_finite sx mx ex) (S754_finite sy my ey) with
  | S754_zero s | S754_infinity s | S754_finite s _ _ => s = xorb sx sy
  | S754_nan => False
  end.
Proof.
  unfold div. cbn [SFdiv]. unfold SFdiv_core_binary.
  set (s := _ - _ - _).
  set (m' := match s with Z.pos _ => _ | Z0 => _ | Z.neg _ => _ end).
  assert (Hm : 0 <= m').
  { unfold m'. destruct s; try lia. apply Z.shiftl_nonneg. lia. }
  pose proof (div_eucl_nonneg m' (Z.pos my) Hm ltac:(lia)) as Hq.
  destruct (Z.div_eucl m' (Z.pos my)) as [q r]. cbn [fst] in Hq.
  apply binary_round_aux_sign, Hq.
Qed.

Lemma ofQ_notNaN q : isNaN (ofQ q) = false.
Proof.
  unfold ofQ. destruct (Qnum q) as [|n|n]; [reflexivity| |].
  - pose proof (div_finite_sign false n 0 false (Qden q) 0) as H.
    destruct (div _ _); try reflexivity. destruct H.
  - pose proof (div_finite_sign true n 0 false (Qden q) 0) as H.
    destruct (div _ _); try reflexivity. destruct H.
Qed.

Lemma ofQ_nonneg q : (0 <= q)%Q -> leb zero (ofQ q) = true.
Proof.
  intros Hq. unfold ofQ. unfold Qle in Hq. cbn in Hq.
  destruct (Qnum q) as [|n|n]; [reflexivity| |lia].
  apply signed_nonneg.
  apply (div_finite_sign false n 0 false (Qden q) 0).
Qed.

Lemma div_nonneg x y :
  leb zero x = true -> ltb zero y = true -> isFinite x = true ->
  leb zero (div x y) = true.
Proof.
  intros Hx Hy Hf. apply nonneg_spec in Hx.
  destruct y as [sy|sy| |sy my ey]; try discriminate;
    (destruct sy; [discriminate|]);
    destruct x as [sx|sx| |sx mx ex]; try discriminate; try contradiction;
    subst; try (destruct sx; reflexivity); try reflexivity.
  apply signed_nonneg. apply (div_finite_sign false mx ex false my ey).
Qed.

Lemma mul_finite_sign sx mx ex sy my ey :
  match mul (S754_finite sx mx ex) (S754_finite sy my ey) with
  | S754_zero s | S754_infinity s | S754_finite s _ _ => s = xorb sx sy
  | S754_nan => False
  end.
Proof. unfold mul. cbn [SFmul]. apply binary_round_aux_sign. lia. Qed.

Lemma mul_nonneg x my ey :
  leb zero x = true ->
  leb zero (mul x (S754_finite false my ey)) = true.
Proof.
  intros Hx. apply nonneg_spec in Hx.
  destruct x as [sx|sx| |sx mx ex]; try contradiction; subst.
  - destruct sx; reflexivity.
  - reflexivity.
  - apply signed_nonneg. apply (mul_finite_sign false mx ex false my ey).
Qed.

Lemma sub_finite_notNaN x q :
  isFinite x = true -> isNaN (sub x (ofQ q)) = false.
Proof.
  intros Hx. pose proof (ofQ_notNaN q) as Hq.
  destruct (ofQ q) as [sy|sy| |sy my ey]; try discriminate;
    destruct x as [sx|sx| |sx mx ex]; try discriminate; unfold sub;
    cbn [SFsub]; try reflexivity.
  - destruct sx, sy; reflexivity.
  - apply binary_normalize_notNaN.
Qed.

End NumberSigns.

(** ** Floating-point numbers: order and maximum *)

Ltac cmp_cases :=
  change (Pos.compare_cont Eq) with Pos.compare in *;
  repeat match goal with
         | H : context [(?a ?= ?b)%Z] |- _ =>
             destruct (Z.compare_spec a b); subst
         | |- context [(?a ?= ?b)%Z] =>
             destruct (Z.compare_spec a b); subst
         | H : context [(?a ?= ?b)%positive] |- _ =>
             destruct (Pos.compare_spec a b); subst
         | |- context [(?a ?= ?b)%positive] =>
             destruct (Pos.compare_spec a b); subst
         end;
  cbn in *; try reflexivity; try discriminate; try lia.

Section NumberOrder.
Import Number.

Lemma leb_refl x : isNaN x = false -> leb x x = true.
Proof.
  destruct x as [s|s| |s m e]; try discriminate; intros _;
    unfold leb, SFleb; cbn [SFcompare]; try (destruct s; reflexivity).
  destruct s; cmp_cases.
Qed.

Lemma ltb_leb x y : ltb x y = true -> leb x y = true.
Proof.
  unfold ltb, leb, SFltb, SFleb.
  destruct (SFcompare x y) as [[| |]|]; auto.
Qed.

Lemma not_ltb_leb x y :
  isNaN x = false -> isNaN y = false -> ltb x y = false -> leb y x = true.
Proof.
  destruct x as [sx|sx| |sx mx ex]; destruct y as [sy|sy| |sy my ey];
    try discriminate; intros _ _; unfold ltb, leb, SFltb, SFleb;
    cbn [SFcompare];
    try (destruct sx); try (destruct sy); try reflexivity;
    try discriminate; cmp_cases.
Qed.

Lemma leb_trans x y z : leb x y = true -> leb y z = true -> leb x z = true.
Proof.
  destruct x as [sx|sx| |sx mx ex]; destruct y as [sy|sy| |sy my ey];
    destruct z as [sz|sz| |sz mz ez];
    unfold leb, SFleb; cbn [SFcompare];
    try (destruct sx); try (destruct sy); try (destruct sz);
    try reflexivity; try discriminate; intros H1 H2; cmp_cases.
Qed.

Lemma leb_negInfinity x : isNaN x = false -> leb negInfinity x = true.
Proof. destruct x as [s|s| |s m e]; try discriminate; destruct s; auto. Qed.

Lemma leb_negInfinity_inv x : leb x negInfinity = true -> x = negInfinity.
Proof.
  destruct x as [s|s| |s m e]; try discriminate; destruct s;
    try discriminate; reflexivity.
Qed.

Lemma leb_notNaN x y : leb x y = true -> isNaN x = false /\ isNaN y = false.
Proof.
  destruct x, y; try discriminate; auto.
Qed.

Lemma Math_max_step_spec h x :
  isNaN h = false -> isNaN x = false ->
  let r := Math_max_step h x in
  (r = h \/ r = x) /\ leb h r = true /\ leb x r = true.
Proof.
  intros Hh Hx r.
  assert (Hgen : (if ltb h x then x else h) = h
                 \/ (if ltb h x then x else h) = x).
  { destruct (ltb h x); auto. }
  assert (Hcmp : leb h (if ltb h x then x else h) = true /\
                 leb x (if ltb h x then x else h) = true).
  { destruct (ltb h x) eqn:E.
    - split; [apply ltb_leb, E | apply leb_refl, Hx].
    - split; [apply leb_refl, Hh | apply not_ltb_leb; auto]. }
  unfold r, Math_max_step.
  destruct h as [sh|sh| |sh mh eh]; try discriminate;
    destruct x as [sx|sx| |sx mx ex]; try discriminate;
    try (destruct sh); try (destruct sx);
    first [ split; [exact Hgen | exact Hcmp]
          | split; [right; reflexivity | split; reflexivity] ].
Qed.

Lemma fold_Math_max_step xs h :
  isNaN h = false -> Forall (fun x => isNaN x = false) xs ->
  let r := fold_left Math_max_step xs h in
  (r = h \/ In r xs) /\ leb h r = true /\
  Forall (fun x => leb x r = true) xs.
Proof.
  revert h. induction xs as [|x xs IH]; intros h Hh Hxs; cbn [fold_left].
  - split; [left; reflexivity|]. split; [apply leb_refl, Hh | constructor].
  - inversion Hxs as [|? ? Hx Hxs']; subst.
    destruct (Math_max_step_spec h x Hh Hx) as [Hor [Hle1 Hle2]].
    assert (Hn : isNaN (Math_max_step h x) = false)
      by (apply (leb_notNaN _ _ Hle1)).
    destruct (IH (Math_max_step h x) Hn Hxs') as [Hin [Hle Hall]].
    split; [|split].
    + destruct Hin as [-> | Hin]; [|right; right; exact Hin].
      destruct Hor as [-> | ->]; [left; reflexivity | right; left; reflexivity].
    + eapply leb_trans; eauto.
    + constructor; [eapply leb_trans; eauto | exact Hall].
Qed.

(** [Math.max] of a non-empty list without NaN is a maximum of the list. *)
Lemma Math_max_is_max xs :
  xs <> [] -> Forall (fun x => isNaN x = false) xs ->
  is_max (Math_max xs) xs.
Proof.
  intros Hne Hxs. unfold Math_max, is_max.
  destruct (fold_Math_max_step xs negInfinity eq_refl Hxs) as [Hin [_ Hall]].
  split; [|exact Hall].
  destruct Hin as [Hr | Hin]; [|exact Hin].
  destruct xs as [|x xs]; [contradiction|].
  inversion Hall as [|? ? Hx _]; subst. rewrite Hr in Hx.
  apply leb_negInfinity_inv in Hx. subst x. rewrite Hr. left. reflexivity.
Qed.

Lemma is_max_nonneg m xs :
  is_max m xs -> Forall (fun x => leb zero x = true) xs -> leb zero m = true.
Proof.
  intros [Hin _] Hall. rewrite Forall_forall in Hall. apply Hall, Hin.
Qed.

Lemma Math_max_spread_ok maxArguments xs :
  (List.length xs <= maxArguments)%nat ->
  Math_max_spread maxArguments xs = Ok (Math_max xs).
Proof.
  intros H. unfold Math_max_spread.
  destruct (maxArguments <? List.length xs)%nat eqn:E; [|reflexivity].
  apply Nat.ltb_lt in E. lia.
Qed.

Lemma Math_max_spread_over maxArguments xs :
  (maxArguments < List.length xs)%nat ->
  Math_max_spread maxArguments xs = Err RangeError.
Proof.
  intros H. unfold Math_max_spread.
  destruct (maxArguments <? List.length xs)%nat eqn:E; [reflexivity|].
  apply Nat.ltb_ge in E. lia.
Qed.

End NumberOrder.

(** ** The stats collection *)

Section StatsStore.

Variables (stamp : Z) (userId periodType : string) (periodStart periodEnd : Z).
Variable statsData : Stats.Data.

Let k : string * string * Z := (userId, periodType, periodStart).
Let q := Stats.query userId periodType periodStart.
Let upd := Stats.update stamp periodEnd statsData.
Let ins :=
  Stats.inserted stamp userId periodType periodStart periodEnd statsData.

Lemma query_key d : q d = true <-> Stats.key d = k.
Proof.
  unfold q, Stats.query, Stats.key, k.
  rewrite !andb_true_iff, !String.eqb_eq, Z.eqb_eq.
  split; [intros [[-> ->] ->]; reflexivity | intros H; inversion H; auto].
Qed.

Lemma key_upd d : Stats.key (upd d) = Stats.key d.
Proof. reflexivity. Qed.

Lemma key_ins : Stats.key ins = k.
Proof. reflexivity. Qed.

Lemma upsert_keys coll :
  let coll' := snd (Stats.findOneAndUpdate q upd ins coll) in
  (In k (map Stats.key coll) /\ map Stats.key coll' = map Stats.key coll) \/
  (~ In k (map Stats.key coll) /\
   map Stats.key coll' = (map Stats.key coll ++ [k])%list).
Proof.
  induction coll as [|d coll IH]; cbn [Stats.findOneAndUpdate].
  - right. split; [intros []|]. reflexivity.
  - destruct (q d) eqn:E.
    + left. apply query_key in E. cbn [snd map]. rewrite key_upd.
      split; [left; exact E | reflexivity].
    + assert (Hd : Stats.key d <> k).
      { intros H. apply query_key in H. congruence. }
      destruct (Stats.findOneAndUpdate q upd ins coll) as [doc rest].
      cbn [snd map] in *.
      destruct IH as [[Hin Heq] | [Hnin Heq]]; rewrite Heq.
      * left. split; [right; exact Hin | reflexivity].
      * right. split; [|reflexivity]. intros [H | H]; auto.
Qed.

Lemma upsert_NoDup coll :
  NoDup (map Stats.key coll) ->
  NoDup (map Stats.key (snd (Stats.findOneAndUpdate q upd ins coll))).
Proof.
  intros Hnd.
  destruct (upsert_keys coll) as [[_ ->] | [Hnin ->]]; auto.
  apply NoDup_app; auto.
  - constructor; [intros []| constructor].
  - intros a Ha [<- | []]. auto.
Qed.

Lemma upsert_In_doc coll :
  In (fst (Stats.findOneAndUpdate q upd ins coll))
     (snd (Stats.findOneAndUpdate q upd ins coll)).
Proof.
  induction coll as [|d coll IH]; cbn [Stats.findOneAndUpdate].
  - left. reflexivity.
  - destruct (q d).
    + left. reflexivity.
    + destruct (Stats.findOneAndUpdate q upd ins coll) as [doc rest].
      right. exact IH.
Qed.

Lemma upsert_others coll d' :
  Stats.key d' <> k ->
  In d' (snd (Stats.findOneAndUpdate q upd ins coll)) <-> In d' coll.
Proof.
  intros Hk.
  induction coll as [|d coll IH]; cbn [Stats.findOneAndUpdate].
  - cbn. split; [intros [<- | []]|intros []]. apply Hk, key_ins.
  - destruct (q d) eqn:E.
    + apply query_key in E. cbn [snd In].
      split; intros [H | H]; auto; exfalso; apply Hk; subst d'; auto.
    + destruct (Stats.findOneAndUpdate q upd ins coll) as [doc rest].
      cbn [snd In] in *. rewrite IH. reflexivity.
Qed.

(** The written document: the row that matched, updated and stamped, the
    collection keeping its length; or the inserted document, the collection
    growing by it. *)
Lemma upsert_doc coll :
  let doc := fst (Stats.findOneAndUpdate q upd ins coll) in
  let coll' := snd (Stats.findOneAndUpdate q upd ins coll) in
  (exists old, In old coll /\ Stats.key old = k /\ doc = upd old /\
               List.length coll' = List.length coll) \/
  (~ In k (map Stats.key coll) /\ doc = ins /\
   List.length coll' = S (List.length coll)).
Proof.
  induction coll as [|d coll IH]; cbn [Stats.findOneAndUpdate].
  - right. split; [intros []|]. split; reflexivity.
  - destruct (q d) eqn:E.
    + left. exists d. apply query_key in E. cbn [fst snd List.length].
      repeat split; auto. left. reflexivity.
    + assert (Hd : Stats.key d <> k).
      { intros H. apply query_key in H. congruence. }
      destruct (Stats.findOneAndUpdate q upd ins coll) as [doc rest].
      cbn [fst snd List.length map In] in *.
      destruct IH as [[old [Hin [Hk [Hdoc Hlen]]]] | [Hnin [Hdoc Hlen]]].
      * left. exists old. repeat split; auto.
      * right. repeat split; auto. intros [H | H]; auto.
Qed.

Lemma upsert_doc_fields coll :
  let doc := fst (Stats.findOneAndUpdate q upd ins coll) in
  doc = Stats.mk userId periodType periodStart periodEnd
          (Stats.d_totalDistance statsData)
          (Stats.d_totalDuration statsData)
          (Stats.d_totalRuns statsData)
          (Stats.d_averageSpeed statsData)
          (Stats.d_longestRun statsData)
          (Stats.d_longestDuration statsData)
          (Stats.d_fastestSpeed statsData)
          (Stats.createdAt doc) (Some stamp).
Proof.
  cbv zeta.
  destruct (upsert_doc coll) as [[old [_ [Hk [-> _]]]] | [_ [-> _]]].
  - unfold Stats.key, k in Hk. injection Hk as <- <- <-. reflexivity.
  - reflexivity.
Qed.

End StatsStore.

Lemma NoDup_key_inj (coll : list Stats.t) d1 d2 :
  NoDup (map Stats.key coll) ->
  In d1 coll -> In d2 coll -> Stats.key d1 = Stats.key d2 -> d1 = d2.
Proof.
  induction coll as [|d coll IH]; cbn [map In]; [intros _ []|].
  intros Hnd H1 H2 Hk. inversion Hnd as [|? ? Hnin Hnd']; subst.
  destruct H1 as [-> | H1], H2 as [-> | H2]; auto.
  - exfalso. apply Hnin. rewrite Hk. apply in_map, H2.
  - exfalso. apply Hnin. rewrite <- Hk. apply in_map, H1.
Qed.

Lemma NoDup_map_filter {A B : Type} (f : A -> B) (p : A -> bool) l :
  NoDup (map f l) -> NoDup (map f (filter p l)).
Proof.
  induction l as [|x l IH]; cbn [map filter]; auto.
  intros Hnd. inversion Hnd as [|? ? Hnin Hnd']; subst.
  destruct (p x); cbn [map]; auto.
  constructor; auto.
  intros Hin. apply Hnin. apply in_map_iff in Hin.
  destruct Hin as [y [Hy Hin]]. apply filter_In in Hin.
  rewrite <- Hy. apply in_map, Hin.
Qed.

Lemma updateOrCreateStats_Ok stamp coll userId periodType periodStart
    periodEnd statsData doc coll' :
  Stats.updateOrCreateStats stamp coll userId periodType periodStart
                            periodEnd statsData = Ok (doc, coll') ->
  Stats.castUpdate statsData = true /\
  Stats.runValidators statsData = true /\
  Stats.findOneAndUpdate (Stats.query userId periodType periodStart)
    (Stats.update stamp periodEnd statsData)
    (Stats.inserted stamp userId periodType periodStart periodEnd statsData)
    coll = (doc, coll').
Proof.
  unfold Stats.updateOrCreateStats.
  destruct (Stats.castUpdate statsData); [|discriminate].
  destruct (Stats.runValidators statsData); [|discriminate].
  cbn [negb]. intros H. apply Ok_inj in H. auto.
Qed.

Lemma reachable_NoDup coll :
  Stats.reachable coll -> NoDup (map Stats.key coll).
Proof.
  induction 1 as [|st coll u p ps pe data doc coll' _ IH Hup | coll u _ IH].
  - constructor.
  - apply updateOrCreateStats_Ok in Hup. destruct Hup as [_ [_ Hup]].
    pose proof (upsert_NoDup st u p ps pe data coll IH) as Hnd.
    rewrite Hup in Hnd. exact Hnd.
  - apply NoDup_map_filter, IH.
Qed.

(** The validators in terms of the values: every number of the update is at
    least 0, which no NaN is. *)
Lemma validators_spec statsData :
  Stats.castUpdate statsData = true /\ Stats.runValidators statsData = true
  <->
  Number.leb Number.zero (Stats.d_totalDistance statsData) = true /\
  Number.leb Number.zero (Stats.d_totalDuration statsData) = true /\
  0 <= Stats.d_totalRuns statsData /\
  Number.leb Number.zero (Stats.d_averageSpeed statsData) = true /\
  Number.leb Number.zero (Stats.d_longestRun statsData) = true /\
  Number.leb Number.zero (Stats.d_longestDuration statsData) = true /\
  Number.leb Number.zero (Stats.d_fastestSpeed statsData) = true.
Proof.
  unfold Stats.castUpdate, Stats.runValidators.
  rewrite !andb_true_iff, !negb_true_iff, Z.leb_le.
  split.
  - intros [_ H]. tauto.
  - intros [H1 [H2 [H3 [H4 [H5 [H6 H7]]]]]].
    repeat split; auto using nonneg_notNaN.
Qed.

(** C9.  In every state of the [stats] collection reached from the empty
    collection by its writers, no two rows share a key (owner, period type,
    period start).  An upsert on such a state whose numbers are all at
    least 0 succeeds and leaves exactly one row under its key: the returned
    document, whose every declared field is the one passed to the call (no
    field of an earlier row survives; only [createdAt] is the earlier row's,
    [updatedAt] being the time of the write); all other rows are untouched
    and the keys still distinct; the row either replaces the one that had
    the key, the collection keeping its size, or is added to a collection
    that had none.  An upsert with a number that is not at least 0 is
    rejected and writes nothing.  Each upsert is one atomic step of the
    model. *)
Theorem stats_unique_key_full_replace coll :
  Stats.reachable coll ->
  NoDup (map Stats.key coll) /\
  forall stamp userId periodType periodStart periodEnd statsData,
    let valid :=
      Number.leb Number.zero (Stats.d_totalDistance statsData) = true /\
      Number.leb Number.zero (Stats.d_totalDuration statsData) = true /\
      0 <= Stats.d_totalRuns statsData /\
      Number.leb Number.zero (Stats.d_averageSpeed statsData) = true /\
      Number.leb Number.zero (Stats.d_longestRun statsData) = true /\
      Number.leb Number.zero (Stats.d_longestDuration statsData) = true /\
      Number.leb Number.zero (Stats.d_fastestSpeed statsData) = true in
    (~ valid ->
     Stats.updateOrCreateStats stamp coll userId periodType periodStart
                               periodEnd statsData = Err CastError \/
     Stats.updateOrCreateStats stamp coll userId periodType periodStart
                               periodEnd statsData = Err ValidationError) /\
    (valid ->
     exists doc coll',
       Stats.updateOrCreateStats stamp coll userId periodType periodStart
                                 periodEnd statsData = Ok (doc, coll') /\
       doc = Stats.mk userId periodType periodStart periodEnd
               (Stats.d_totalDistance statsData)
               (Stats.d_totalDuration statsData)
               (Stats.d_totalRuns statsData)
               (Stats.d_averageSpeed statsData)
               (Stats.d_longestRun statsData)
               (Stats.d_longestDuration statsData)
               (Stats.d_fastestSpeed statsData)
               (Stats.createdAt doc) (Some stamp) /\
       In doc coll' /\
       (forall d, In d coll' ->
                  Stats.key d = (userId, periodType, periodStart) ->
                  d = doc) /\
       (forall d, Stats.key d <> (userId, periodType, periodStart) ->
                  (In d coll' <-> In d coll)) /\
       NoDup (map Stats.key coll') /\
       ((exists old,
            In old coll /\
            Stats.key old = (userId, periodType, periodStart) /\
            Stats.createdAt doc = Stats.createdAt old /\
            List.length coll' = List.length coll) \/
        (~ In (userId, periodType, periodStart) (map Stats.key coll) /\
         Stats.createdAt doc = Some stamp /\
         List.length coll' = S (List.length coll)))).
Proof.
  intros Hr. pose proof (reachable_NoDup coll Hr) as Hnd.
  split; [exact Hnd|].
  intros stamp userId periodType periodStart periodEnd statsData valid.
  pose proof (validators_spec statsData) as Hv. fold valid in Hv.
  split.
  - intros Hnv. unfold Stats.updateOrCreateStats.
    destruct (Stats.castUpdate statsData); [|left; reflexivity].
    destruct (Stats.runValidators statsData); [|right; reflexivity].
    exfalso. apply Hnv, Hv. auto.
  - intros Hvalid. apply Hv in Hvalid. destruct Hvalid as [Hc Hval].
    unfold Stats.updateOrCreateStats. rewrite Hc, Hval. cbn [negb].
    pose proof (upsert_doc_fields stamp userId periodType periodStart
                  periodEnd statsData coll) as Hdoc.
    pose proof (upsert_In_doc stamp userId periodType periodStart periodEnd
                  statsData coll) as Hin.
    pose proof (upsert_NoDup stamp userId periodType periodStart periodEnd
                  statsData coll Hnd) as Hnd'.
    pose proof (upsert_others stamp userId periodType periodStart periodEnd
                  statsData coll) as Hoth.
    pose proof (upsert_doc stamp userId periodType periodStart periodEnd
                  statsData coll) as Hcase.
    destruct (Stats.findOneAndUpdate _ _ _ coll) as [doc coll'].
    cbn [fst snd] in *.
    exists doc, coll'. split; [reflexivity|]. split; [exact Hdoc|].
    split; [exact Hin|].
    assert (Hkey : Stats.key doc = (userId, periodType, periodStart))
      by (rewrite Hdoc; reflexivity).
    split; [|split; [exact Hoth | split; [exact Hnd'|]]].
    + intros d Hd Hk. apply (NoDup_key_inj coll'); auto. congruence.
    + destruct Hcase as [[old [Ho [Hk [Hd Hlen]]]] | [Hnin [Hd Hlen]]].
      * left. exists old. repeat split; auto. rewrite Hd. reflexivity.
      * right. repeat split; auto. rewrite Hd. reflexivity.
Qed.

Lemma stats_unique_key_full_replace_witness :
  let data := Stats.mkData (Number.ofQ (1000 # 1)) (Number.ofQ (600 # 1)) 1
                           (Number.ofQ (6 # 1)) (Number.ofQ (1000 # 1))
                           (Number.ofQ (600 # 1)) (Number.ofQ (6 # 1)) in
  let row := Stats.mk "u1" "daily" 0 86399999
                      (Number.ofQ (1000 # 1)) (Number.ofQ (600 # 1)) 1
                      (Number.ofQ (6 # 1)) (Number.ofQ (1000 # 1))
                      (Number.ofQ (600 # 1)) (Number.ofQ (6 # 1))
                      (Some 7000) (Some 7000) in
  let data' := Stats.mkData (Number.ofQ (3000 # 1)) (Number.ofQ (1500 # 1)) 2
                            (Number.ofQ (72 # 10)) (Number.ofQ (2000 # 1))
                            (Number.ofQ (900 # 1)) (Number.ofQ (8 # 1)) in
  NoDup (map Stats.key [row]) /\
  exists doc coll',
    Stats.updateOrCreateStats 9000 [row] "u1" "daily" 0 86399999 data'
    = Ok (doc, coll') /\
    doc = Stats.mk "u1" "daily" 0 86399999
            (Number.ofQ (3000 # 1)) (Number.ofQ (1500 # 1)) 2
            (Number.ofQ (72 # 10)) (Number.ofQ (2000 # 1))
            (Number.ofQ (900 # 1)) (Number.ofQ (8 # 1))
            (Some 7000) (Some 9000) /\
    coll' = [doc].
Proof.
  intros data row data'.
  assert (Hr : Stats.reachable [row]).
  { apply (Stats.reachable_upsert 7000 [] "u1" "daily" 0 86399999 data row
             [row] Stats.reachable_empty).
    vm_compute. reflexivity. }
  destruct (stats_unique_key_full_replace [row] Hr) as [Hnd Hup].
  split; [exact Hnd|].
  destruct (Hup 9000 "u1" "daily" 0 86399999 data') as [_ Hok].
  destruct Hok as [doc [coll' [Hu _]]].
  { vm_compute. repeat split; congruence. }
  exists doc, coll'. split; [exact Hu|].
  vm_compute in Hu. apply Ok_inj in Hu.
  injection Hu as <- <-. split; reflexivity.
Defined.

(** ** [calculateStats] *)

Section StatsClaims.
Import JSDate Helpers StatsService.

Lemma getPeriodDates_enumerated_ok tz now periodType ref :
  In periodType (boundedPeriodTypes ++ ["all_time"]) ->
  exists w, getPeriodDates tz now periodType (Some ref) = Ok w.
Proof.
  unfold boundedPeriodTypes. cbn [In app].
  intros [<- | [<- | [<- | [<- | [<- | []]]]]]; eexists; reflexivity.
Qed.

(** With an explicit reference instant the window of a bounded period type
    does not read the clock. *)
Lemma getPeriodDates_bounded_clock tz now1 now2 periodType ref :
  In periodType boundedPeriodTypes ->
  getPeriodDates tz now1 periodType (Some ref)
  = getPeriodDates tz now2 periodType (Some ref).
Proof.
  unfold boundedPeriodTypes. cbn [In].
  intros [<- | [<- | [<- | [<- | []]]]]; reflexivity.
Qed.

Lemma inPeriod_spec userId startDate endDate r :
  Run.inPeriod userId startDate endDate r = true <->
  Run.userId r = userId /\ Run.isDeleted r = false /\
  startDate <= Run.startTime r <= endDate.
Proof.
  unfold Run.inPeriod.
  rewrite !andb_true_iff, String.eqb_eq, Z.leb_le, Z.leb_le.
  destruct (Run.isDeleted r); cbn; intuition congruence.
Qed.

Lemma find_spec runs userId startDate endDate r :
  In r (Run.find runs userId startDate endDate) <->
  In r runs /\ Run.userId r = userId /\ Run.isDeleted r = false /\
  startDate <= Run.startTime r <= endDate.
Proof. unfold Run.find. rewrite filter_In, inPeriod_spec. tauto. Qed.

Lemma find_idem runs userId startDate endDate :
  Run.find (Run.find runs userId startDate endDate) userId startDate endDate
  = Run.find runs userId startDate endDate.
Proof.
  unfold Run.find. induction runs as [|r runs IH]; cbn; auto.
  destruct (Run.inPeriod userId startDate endDate r) eqn:E; cbn; auto.
  rewrite E, IH. reflexivity.
Qed.

Lemma calculateStats_unfold h now stamp runs stats userId periodType refDate :
  calculateStats h now stamp runs stats userId periodType refDate =
  match getPeriodDates (LocalTZA h) now periodType
          (Some (match refDate with Some d => d | None => now end)) with
  | Err e => (Err e, stats)
  | Ok p =>
      match startDate p, endDate p with
      | Some startDate, Some endDate =>
          match Run.find runs userId startDate endDate with
          | [] => (Ok (emptyStats userId periodType startDate endDate), stats)
          | run :: rest =>
              match computeStats (maxArguments h) run rest with
              | Err e => (Err e, stats)
              | Ok statsData =>
                  match Stats.updateOrCreateStats stamp stats userId
                          periodType startDate endDate statsData with
                  | Ok (doc, stats') => (Ok doc, stats')
                  | Err e => (Err e, stats)
                  end
              end
          end
      | _, _ => (Err CastError, stats)
      end
  end.
Proof. reflexivity. Qed.

(** The call on a valid window. *)
Lemma calculateStats_window h now stamp runs stats userId periodType refDate
    w s e :
  getPeriodDates (LocalTZA h) now periodType
    (Some (match refDate with Some d => d | None => now end)) = Ok w ->
  startDate w = Some s -> endDate w = Some e ->
  calculateStats h now stamp runs stats userId periodType refDate =
  match Run.find runs userId s e with
  | [] => (Ok (emptyStats userId periodType s e), stats)
  | run :: rest =>
      match computeStats (maxArguments h) run rest with
      | Err e => (Err e, stats)
      | Ok statsData =>
          match Stats.updateOrCreateStats stamp stats userId periodType s e
                  statsData with
          | Ok (doc, stats') => (Ok doc, stats')
          | Err e => (Err e, stats)
          end
      end
  end.
Proof.
  intros Hw Hs He. rewrite calculateStats_unfold, Hw, Hs, He. reflexivity.
Qed.

Lemma reduce_sum_map {A : Type} (f : A -> Number.t) (xs : list A) :
  Number.reduce_sum f xs = Number.sum (map f xs).
Proof.
  unfold Number.reduce_sum, Number.sum. generalize Number.zero.
  induction xs as [|x xs IH]; intros a; cbn [fold_left map]; auto.
Qed.

(** What [computeStats] returns when it returns. *)
Lemma computeStats_Ok m run rest data :
  computeStats m run rest = Ok data ->
  let runs := run :: rest in
  let D := Number.sum (map (fun r => Number.ofQ (Run.distance r)) runs) in
  let T := Number.sum (map (fun r => Number.ofQ (Run.duration r)) runs) in
  (List.length runs <= m)%nat /\
  data = Stats.mkData D T (Z.of_nat (List.length runs))
           (if Number.ltb Number.zero T
            then Number.mul (Number.div D T) kmh else Number.zero)
           (Number.Math_max
              (map (fun r => Number.ofQ (Run.distance r)) runs))
           (Number.Math_max
              (map (fun r => Number.ofQ (Run.duration r)) runs))
           (Number.Math_max
              (map (fun r => Number.ofQ (Run.averageSpeed r)) runs)).
Proof.
  unfold computeStats, Math_max_spread. rewrite !length_map.
  rewrite !reduce_sum_map.
  destruct (Nat.ltb_spec m (List.length (run :: rest))) as [Hlt | Hle];
    [discriminate|].
  intros H. apply Ok_inj in H. subst data. cbv zeta. split; [exact Hle|].
  reflexivity.
Qed.

Lemma computeStats_within m run rest :
  (List.length (run :: rest) <= m)%nat ->
  exists data, computeStats m run rest = Ok data.
Proof.
  intros Hle. unfold computeStats, Math_max_spread. rewrite !length_map.
  destruct (Nat.ltb_spec m (List.length (run :: rest))) as [Hlt | _];
    [lia|].
  eexists. reflexivity.
Qed.

Lemma computeStats_over m run rest :
  (m < List.length (run :: rest))%nat ->
  computeStats m run rest = Err RangeError.
Proof.
  intros Hlt. unfold computeStats, Math_max_spread. rewrite !length_map.
  destruct (Nat.ltb_spec m (List.length (run :: rest))) as [_ | Hle];
    [reflexivity | lia].
Qed.

(** The document of a call that wrote one. *)
Lemma calculateStats_written h now stamp runs stats userId periodType refDate
    w s e run rest doc :
  getPeriodDates (LocalTZA h) now periodType
    (Some (match refDate with Some d => d | None => now end)) = Ok w ->
  startDate w = Some s -> endDate w = Some e ->
  Run.find runs userId s e = run :: rest ->
  fst (calculateStats h now stamp runs stats userId periodType refDate)
  = Ok doc ->
  exists data,
    computeStats (maxArguments h) run rest = Ok data /\
    Stats.updateOrCreateStats stamp stats userId periodType s e data
    = Ok (doc,
          snd (calculateStats h now stamp runs stats userId periodType
                              refDate)).
Proof.
  intros Hw Hs He Hf.
  rewrite (calculateStats_window _ _ _ _ _ _ _ _ _ _ _ Hw Hs He), Hf.
  destruct (computeStats (maxArguments h) run rest) as [data | err];
    [|discriminate].
  destruct (Stats.updateOrCreateStats stamp stats userId periodType s e data)
    as [[doc' stats'] | err] eqn:Eu; [|discriminate].
  cbn [fst snd]. intros H. apply Ok_inj in H. subst doc'.
  exists data. split; [reflexivity | exact Eu].
Qed.

Lemma updateOrCreateStats_doc stamp coll userId periodType periodStart
    periodEnd statsData doc coll' :
  Stats.updateOrCreateStats stamp coll userId periodType periodStart
                            periodEnd statsData = Ok (doc, coll') ->
  doc = Stats.mk userId periodType periodStart periodEnd
          (Stats.d_totalDistance statsData)
          (Stats.d_totalDuration statsData)
          (Stats.d_totalRuns statsData)
          (Stats.d_averageSpeed statsData)
          (Stats.d_longestRun statsData)
          (Stats.d_longestDuration statsData)
          (Stats.d_fastestSpeed statsData)
          (Stats.createdAt doc) (Some stamp).
Proof.
  intros H. apply updateOrCreateStats_Ok in H. destruct H as [_ [_ H]].
  pose proof (upsert_doc_fields stamp userId periodType periodStart periodEnd
                statsData coll) as Hd.
  rewrite H in Hd. exact Hd.
Qed.

(** C8.  For each of the five enumerated period types the period computation
    succeeds, and when its window is valid and no record matches the
    selection, [calculateStats] succeeds and returns the owner and period
    type it was given, [periodStart] and [periodEnd] equal to the window,
    and all seven totals 0. *)
Theorem calculateStats_empty_selection h now stamp runs stats userId periodType
    ref :
  In periodType (boundedPeriodTypes ++ ["all_time"]) ->
  exists w,
    getPeriodDates (LocalTZA h) now periodType (Some ref) = Ok w /\
    forall s e,
      startDate w = Some s -> endDate w = Some e ->
      Run.find runs userId s e = [] ->
      fst (calculateStats h now stamp runs stats userId periodType (Some ref))
      = Ok (Stats.mk userId periodType s e Number.zero Number.zero 0
                     Number.zero Number.zero Number.zero Number.zero
                     None None).
Proof.
  intros Hin.
  destruct (getPeriodDates_enumerated_ok (LocalTZA h) now periodType ref Hin)
    as [w Hw].
  exists w. split; [exact Hw|]. intros s e Hs He Hf.
  rewrite (calculateStats_window h now stamp _ stats userId periodType
             (Some ref) w s e Hw Hs He), Hf.
  reflexivity.
Qed.

Lemma calculateStats_empty_selection_witness :
  let run := Run.mk "r1" "u2" 3600000 5400000 (1000 # 1) (600 # 1)
                    (6 # 1) (7 # 1) false in
  fst (calculateStats utcHost 0 1 [run] [] "u1" "weekly" (Some 4000000))
  = Ok (Stats.mk "u1" "weekly" (-259200000) 345599999
                 Number.zero Number.zero 0 Number.zero Number.zero
                 Number.zero Number.zero None None).
Proof.
  intros run.
  destruct (calculateStats_empty_selection utcHost 0 1 [run] [] "u1" "weekly"
              4000000) as [w [Hw H]].
  - cbn. auto.
  - vm_compute in Hw. apply Ok_inj in Hw. subst w.
    apply H; reflexivity.
Defined.

(** C10.  When the window is valid and no record matches the selection,
    [calculateStats] writes nothing: the [stats] collection is the one it was
    called with, and a row persisted earlier for the same key is still
    there, unchanged. *)
Theorem calculateStats_empty_no_write h now stamp runs stats userId periodType
    ref w s e :
  getPeriodDates (LocalTZA h) now periodType (Some ref) = Ok w ->
  startDate w = Some s -> endDate w = Some e ->
  Run.find runs userId s e = [] ->
  snd (calculateStats h now stamp runs stats userId periodType (Some ref))
  = stats /\
  forall d,
    In d stats -> Stats.key d = (userId, periodType, s) ->
    In d (snd (calculateStats h now stamp runs stats userId periodType
                              (Some ref))).
Proof.
  intros Hw Hs He Hf.
  rewrite (calculateStats_window h now stamp _ stats userId periodType
             (Some ref) w s e Hw Hs He), Hf.
  cbn [snd]. split; [reflexivity|]. intros d Hd _. exact Hd.
Qed.

Lemma calculateStats_empty_no_write_witness :
  let old := Stats.mk "u1" "daily" 0 86399999
                      (Number.ofQ (1000 # 1)) (Number.ofQ (600 # 1)) 1
                      (Number.ofQ (6 # 1)) (Number.ofQ (1000 # 1))
                      (Number.ofQ (600 # 1)) (Number.ofQ (6 # 1))
                      (Some 7000) (Some 7000) in
  let run := Run.mk "r1" "u1" 3600000 5400000 (1000 # 1) (600 # 1)
                    (6 # 1) (7 # 1) true in
  snd (calculateStats utcHost 0 9000 [run] [old] "u1" "daily" (Some 4000000))
  = [old] /\
  In old (snd (calculateStats utcHost 0 9000 [run] [old] "u1" "daily"
                              (Some 4000000))).
Proof.
  intros old run.
  destruct (calculateStats_empty_no_write utcHost 0 9000 [run] [old] "u1"
              "daily" 4000000 (mkPeriod (Some 0) (Some 86399999)) 0 86399999)
    as [H1 H2]; [vm_compute; reflexivity | reflexivity | reflexivity
                 | reflexivity |].
  split; [exact H1|]. apply H2; [left; reflexivity | reflexivity].
Defined.

(** *** Idempotence *)

Lemma sameButUpdatedAt_refl d : Stats.sameButUpdatedAt d d.
Proof. unfold Stats.sameButUpdatedAt. repeat split. Qed.

Lemma Forall2_sameButUpdatedAt_refl l : Forall2 Stats.sameButUpdatedAt l l.
Proof. induction l; constructor; auto using sameButUpdatedAt_refl. Qed.

(** A second upsert under the same query finds the document of the first. *)
Lemma findOneAndUpdate_again (q : Stats.t -> bool)
    (upd1 upd2 : Stats.t -> Stats.t) (ins1 ins2 : Stats.t)
    (coll : list Stats.t) :
  (forall d, q d = true -> q (upd1 d) = true) ->
  q ins1 = true ->
  (forall d, Stats.sameButUpdatedAt (upd1 d) (upd2 (upd1 d))) ->
  Stats.sameButUpdatedAt ins1 (upd2 ins1) ->
  exists coll2,
    Stats.findOneAndUpdate q upd2 ins2
      (snd (Stats.findOneAndUpdate q upd1 ins1 coll))
    = (upd2 (fst (Stats.findOneAndUpdate q upd1 ins1 coll)), coll2) /\
    Forall2 Stats.sameButUpdatedAt
      (snd (Stats.findOneAndUpdate q upd1 ins1 coll)) coll2.
Proof.
  intros Hq Hins Hupd Hui.
  induction coll as [|d coll IH]; cbn [Stats.findOneAndUpdate fst snd].
  - rewrite Hins. eexists. split; [reflexivity|].
    constructor; [exact Hui | constructor].
  - destruct (q d) eqn:E; cbn [Stats.findOneAndUpdate fst snd].
    + rewrite (Hq d E). eexists. split; [reflexivity|].
      constructor; [apply Hupd | apply Forall2_sameButUpdatedAt_refl].
    + destruct (Stats.findOneAndUpdate q upd1 ins1 coll) as [doc rest].
      cbn [fst snd Stats.findOneAndUpdate] in *. rewrite E.
      destruct IH as [coll2 [-> HF]].
      eexists. split; [reflexivity|].
      constructor; [apply sameButUpdatedAt_refl | exact HF].
Qed.

Lemma query_inserted stamp userId periodType periodStart periodEnd statsData :
  Stats.query userId periodType periodStart
    (Stats.inserted stamp userId periodType periodStart periodEnd statsData)
  = true.
Proof.
  unfold Stats.query, Stats.inserted, Stats.update. cbn.
  rewrite !String.eqb_refl, Z.eqb_refl. reflexivity.
Qed.

Lemma updateOrCreateStats_again stamp1 stamp2 coll userId periodType
    periodStart periodEnd statsData doc coll' :
  Stats.updateOrCreateStats stamp1 coll userId periodType periodStart
                            periodEnd statsData = Ok (doc, coll') ->
  exists doc2 coll2,
    Stats.updateOrCreateStats stamp2 coll' userId periodType periodStart
                              periodEnd statsData = Ok (doc2, coll2) /\
    Stats.sameButUpdatedAt doc doc2 /\
    Stats.updatedAt doc = Some stamp1 /\
    Stats.updatedAt doc2 = Some stamp2 /\
    Forall2 Stats.sameButUpdatedAt coll' coll2.
Proof.
  intros H. pose proof (updateOrCreateStats_doc _ _ _ _ _ _ _ _ _ H) as Hdoc.
  apply updateOrCreateStats_Ok in H. destruct H as [Hc [Hv H]].
  unfold Stats.updateOrCreateStats. rewrite Hc, Hv. cbn [negb].
  destruct (findOneAndUpdate_again
              (Stats.query userId periodType periodStart)
              (Stats.update stamp1 periodEnd statsData)
              (Stats.update stamp2 periodEnd statsData)
              (Stats.inserted stamp1 userId periodType periodStart periodEnd
                              statsData)
              (Stats.inserted stamp2 userId periodType periodStart periodEnd
                              statsData) coll) as [coll2 [Hf HF]].
  - intros d Hd. exact Hd.
  - apply query_inserted.
  - intros d. unfold Stats.sameButUpdatedAt. repeat split.
  - unfold Stats.sameButUpdatedAt. repeat split.
  - rewrite H in Hf, HF. cbn [fst snd] in Hf, HF.
    exists (Stats.update stamp2 periodEnd statsData doc), coll2.
    split; [rewrite Hf; reflexivity|].
    split; [|split; [rewrite Hdoc; reflexivity
                    | split; [reflexivity | exact HF]]].
    rewrite Hdoc. unfold Stats.sameButUpdatedAt. repeat split.
Qed.

Lemma updateOrCreateStats_Err stamp1 stamp2 coll1 coll2 userId periodType
    periodStart periodEnd statsData e :
  Stats.updateOrCreateStats stamp1 coll1 userId periodType periodStart
                            periodEnd statsData = Err e ->
  Stats.updateOrCreateStats stamp2 coll2 userId periodType periodStart
                            periodEnd statsData = Err e.
Proof.
  unfold Stats.updateOrCreateStats.
  destruct (negb (Stats.castUpdate statsData)); [auto|].
  destruct (negb (Stats.runValidators statsData)); [auto | discriminate].
Qed.

(** C4, as the code has it.  [calculateStats] is idempotent for every
    bounded period type (daily, weekly, monthly, yearly) up to the write
    time [updatedAt]: invoked a second time with the same owner, period
    type, reference instant and record set, at any later clock reading, it
    fails the same way when the first failed, and otherwise returns a result
    identical in every field except [updatedAt], which is the time of the
    second write; the persisted rows are those the first invocation left,
    field by field except [updatedAt].  For [all_time] this holds when both
    invocations read the same clock instant for the period end, since the
    period end is the clock reading. *)
Theorem calculateStats_idempotent h now1 stamp1 now2 stamp2 runs stats userId
    periodType ref r1 s1 :
  In periodType boundedPeriodTypes \/ now1 = now2 ->
  calculateStats h now1 stamp1 runs stats userId periodType (Some ref)
  = (r1, s1) ->
  exists r2 s2,
    calculateStats h now2 stamp2 runs s1 userId periodType (Some ref)
    = (r2, s2) /\
    Forall2 Stats.sameButUpdatedAt s1 s2 /\
    (forall e, r1 = Err e -> r2 = Err e /\ s2 = s1) /\
    (forall d1, r1 = Ok d1 ->
       exists d2,
         r2 = Ok d2 /\ Stats.sameButUpdatedAt d1 d2 /\
         (Stats.updatedAt d1 = None -> d2 = d1 /\ s2 = s1) /\
         (Stats.updatedAt d1 <> None -> Stats.updatedAt d2 = Some stamp2)).
Proof.
  intros Hp.
  assert (Hg : getPeriodDates (LocalTZA h) now1 periodType (Some ref)
               = getPeriodDates (LocalTZA h) now2 periodType (Some ref)).
  { destruct Hp as [Hin | ->]; [|reflexivity].
    apply getPeriodDates_bounded_clock, Hin. }
  rewrite !calculateStats_unfold. rewrite <- Hg. clear Hg Hp.
  assert (Hsame : forall (r : result Stats.t) (s : list Stats.t),
             (forall d, r = Ok d -> Stats.updatedAt d = None) ->
             exists r2 s2,
               (r, s) = (r2, s2) /\
               Forall2 Stats.sameButUpdatedAt s s2 /\
               (forall e, r = Err e -> r2 = Err e /\ s2 = s) /\
               (forall d1, r = Ok d1 ->
                  exists d2,
                    r2 = Ok d2 /\ Stats.sameButUpdatedAt d1 d2 /\
                    (Stats.updatedAt d1 = None -> d2 = d1 /\ s2 = s) /\
                    (Stats.updatedAt d1 <> None ->
                     Stats.updatedAt d2 = Some stamp2))).
  { intros r s Hr. exists r, s. split; [reflexivity|].
    split; [apply Forall2_sameButUpdatedAt_refl|].
    split; [intros e He; auto|].
    intros d1 Hd. exists d1. split; [exact Hd|].
    split; [apply sameButUpdatedAt_refl|].
    split; [auto|]. intros Hn. exfalso. apply Hn, (Hr d1 Hd). }
  destruct (getPeriodDates (LocalTZA h) now1 periodType (Some ref))
    as [w | err].
  2:{ intros H. injection H as <- <-. apply Hsame. discriminate. }
  destruct (startDate w) as [s|].
  2:{ intros H. injection H as <- <-. apply Hsame. discriminate. }
  destruct (endDate w) as [e|].
  2:{ intros H. injection H as <- <-. apply Hsame. discriminate. }
  destruct (Run.find runs userId s e) as [|run rest].
  { intros H. injection H as <- <-. apply Hsame.
    intros d Hd. apply Ok_inj in Hd. subst d. reflexivity. }
  destruct (computeStats (maxArguments h) run rest) as [data | err].
  2:{ intros H. injection H as <- <-. apply Hsame. discriminate. }
  destruct (Stats.updateOrCreateStats stamp1 stats userId periodType s e data)
    as [[doc stats'] | err] eqn:Eu.
  - intros H. injection H as <- <-.
    destruct (updateOrCreateStats_again stamp1 stamp2 _ _ _ _ _ _ _ _ Eu)
      as [doc2 [coll2 [Hu [Hsb [Hu1 [Hu2 HF]]]]]].
    rewrite Hu. exists (Ok doc2), coll2. split; [reflexivity|].
    split; [exact HF|]. split; [discriminate|].
    intros d1 Hd. apply Ok_inj in Hd. subst d1.
    exists doc2. split; [reflexivity|]. split; [exact Hsb|].
    split; [rewrite Hu1; discriminate | intros _; exact Hu2].
  - intros H. injection H as <- <-.
    rewrite (updateOrCreateStats_Err stamp1 stamp2 stats stats _ _ _ _ _ _ Eu).
    apply Hsame. discriminate.
Qed.

Lemma calculateStats_idempotent_witness :
  let run := Run.mk "r1" "u1" 3600000 5400000 (1000 # 1) (600 # 1)
                    (6 # 1) (7 # 1) false in
  exists d1 s1 d2 s2,
    calculateStats utcHost 8000000 8000001 [run] [] "u1" "daily"
                   (Some 4000000) = (Ok d1, s1) /\
    calculateStats utcHost 9000000 9000001 [run] s1 "u1" "daily"
                   (Some 4000000) = (Ok d2, s2) /\
    Stats.sameButUpdatedAt d1 d2 /\
    Forall2 Stats.sameButUpdatedAt s1 s2 /\
    Stats.updatedAt d2 = Some 9000001.
Proof.
  intros run.
  destruct (calculateStats utcHost 8000000 8000001 [run] [] "u1" "daily"
                           (Some 4000000)) as [r1 s1] eqn:E1.
  destruct (calculateStats_idempotent utcHost 8000000 8000001 9000000 9000001
              [run] [] "u1" "daily" 4000000 r1 s1)
    as [r2 [s2 [E2 [HF [_ Hok]]]]].
  - left. cbn. auto.
  - exact E1.
  - vm_compute in E1. injection E1 as <- <-.
    destruct (Hok _ eq_refl) as [d2 [-> [Hsame [_ Hup]]]].
    do 4 eexists. split; [reflexivity|]. split; [exact E2|].
    split; [exact Hsame|]. split; [exact HF|]. apply Hup. discriminate.
Defined.

(** C4 as stated fails for [all_time]: with no data changed, an invocation at
    clock reading 1000 and one at clock reading 2000 return different period
    ends. *)
Lemma calculateStats_all_time_not_idempotent :
  fst (calculateStats utcHost 1000 1000 [] [] "u1" "all_time" (Some 0))
  = Ok (Stats.mk "u1" "all_time" 0 1000 Number.zero Number.zero 0
                 Number.zero Number.zero Number.zero Number.zero None None) /\
  fst (calculateStats utcHost 2000 2000 [] [] "u1" "all_time" (Some 0))
  = Ok (Stats.mk "u1" "all_time" 0 2000 Number.zero Number.zero 0
                 Number.zero Number.zero Number.zero Number.zero None None) /\
  fst (calculateStats utcHost 1000 1000 [] [] "u1" "all_time" (Some 0))
  <> fst (calculateStats utcHost 2000 2000 [] [] "u1" "all_time" (Some 0)).
Proof.
  split; [vm_compute; reflexivity|]. split; [vm_compute; reflexivity|].
  vm_compute. intros H. discriminate H.
Qed.

(** C4 as stated fails for the bounded period types as well, in the one
    field [updatedAt]: the second invocation writes the row again, and the
    row carries the time of that write. *)
Lemma calculateStats_rewrites_updatedAt :
  let run := Run.mk "r1" "u1" 3600000 5400000 (1000 # 1) (600 # 1)
                    (6 # 1) (7 # 1) false in
  exists d1 s1 d2 s2,
    calculateStats utcHost 8000000 8000001 [run] [] "u1" "daily"
                   (Some 4000000) = (Ok d1, s1) /\
    calculateStats utcHost 9000000 9000001 [run] s1 "u1" "daily"
                   (Some 4000000) = (Ok d2, s2) /\
    Stats.updatedAt d1 = Some 8000001 /\
    Stats.updatedAt d2 = Some 9000001 /\
    d1 <> d2.
Proof.
  intros run. do 4 eexists.
  split; [vm_compute; reflexivity|].
  split; [vm_compute; reflexivity|].
  split; [reflexivity|]. split; [reflexivity|].
  intros H. discriminate H.
Qed.

End StatsClaims.

(** ** The computed summary *)

Section Summary.
Import JSDate Helpers StatsService.

Lemma schemaValid_spec r :
  Run.schemaValid r = true ->
  (0 <= Run.distance r)%Q /\ (0 <= Run.duration r)%Q /\
  (0 <= Run.averageSpeed r)%Q /\ (0 <= Run.maxSpeed r)%Q.
Proof.
  unfold Run.schemaValid. rewrite !andb_true_iff, !Qle_bool_iff. tauto.
Qed.

Lemma Forall_field (f : Run.t -> Q) (l : list Run.t) :
  (forall r, Run.schemaValid r = true -> (0 <= f r)%Q) ->
  Forall (fun r => Run.schemaValid r = true) l ->
  Forall (fun x => Number.leb Number.zero x = true)
         (map (fun r => Number.ofQ (f r)) l).
Proof.
  intros Hf Hl. apply Forall_map. revert Hl. apply Forall_impl.
  intros r Hr. apply ofQ_nonneg, Hf, Hr.
Qed.

Lemma Forall_ofQ_notNaN (f : Run.t -> Q) (l : list Run.t) :
  Forall (fun x => Number.isNaN x = false)
         (map (fun r => Number.ofQ (f r)) l).
Proof.
  apply Forall_map, Forall_forall. intros r _. apply ofQ_notNaN.
Qed.

Lemma sum_nonneg xs :
  Forall (fun x => Number.leb Number.zero x = true) xs ->
  Number.leb Number.zero (Number.sum xs) = true.
Proof.
  intros H. change (Number.sum xs) with (Number.reduce_sum (fun x => x) xs).
  apply reduce_sum_nonneg, H.
Qed.

Lemma map_cons_nonempty {A B : Type} (f : A -> B) x l : map f (x :: l) <> [].
Proof. discriminate. Qed.

Lemma kmh_value : kmh = S754_finite false 8106479329266893 (-51).
Proof. vm_compute. reflexivity. Qed.

(** The average speed is a number at least 0 whenever the total distance is
    finite. *)
Lemma averageSpeed_nonneg D T :
  Number.leb Number.zero D = true -> Number.isFinite D = true ->
  Number.leb Number.zero
    (if Number.ltb Number.zero T
     then Number.mul (Number.div D T) kmh else Number.zero) = true.
Proof.
  intros HD HF. destruct (Number.ltb Number.zero T) eqn:E; [|reflexivity].
  rewrite kmh_value. apply mul_nonneg, div_nonneg; auto.
Qed.

(** The statistics of a selection of stored runs pass the validators of the
    stats schema. *)
Lemma computeStats_valid m run rest data :
  Forall (fun r => Run.schemaValid r = true) (run :: rest) ->
  Number.isFinite
    (Number.sum (map (fun r => Number.ofQ (Run.distance r)) (run :: rest)))
  = true ->
  computeStats m run rest = Ok data ->
  Stats.castUpdate data = true /\ Stats.runValidators data = true.
Proof.
  intros Hvalid Hfin Hc. apply computeStats_Ok in Hc.
  destruct Hc as [_ ->]. apply validators_spec.
  cbn [Stats.d_totalDistance Stats.d_totalDuration Stats.d_totalRuns
       Stats.d_averageSpeed Stats.d_longestRun Stats.d_longestDuration
       Stats.d_fastestSpeed].
  assert (HD := Forall_field Run.distance (run :: rest)
                  (fun r Hr => proj1 (schemaValid_spec r Hr)) Hvalid).
  assert (HT := Forall_field Run.duration (run :: rest)
                  (fun r Hr => proj1 (proj2 (schemaValid_spec r Hr))) Hvalid).
  assert (HS := Forall_field Run.averageSpeed (run :: rest)
                  (fun r Hr => proj1 (proj2 (proj2 (schemaValid_spec r Hr))))
                  Hvalid).
  split; [apply sum_nonneg, HD|].
  split; [apply sum_nonneg, HT|].
  split; [lia|].
  split; [apply averageSpeed_nonneg; [apply sum_nonneg, HD | exact Hfin]|].
  split; [|split].
  - apply (is_max_nonneg _ _ (Math_max_is_max _ (map_cons_nonempty _ _ _)
                                (Forall_ofQ_notNaN Run.distance _)) HD).
  - apply (is_max_nonneg _ _ (Math_max_is_max _ (map_cons_nonempty _ _ _)
                                (Forall_ofQ_notNaN Run.duration _)) HT).
  - apply (is_max_nonneg _ _ (Math_max_is_max _ (map_cons_nonempty _ _ _)
                                (Forall_ofQ_notNaN Run.averageSpeed _)) HS).
Qed.

(** A selection of stored runs within the engine's limits is summarised:
    the call returns a document. *)
Lemma calculateStats_succeeds h now stamp runs stats userId periodType ref w
    s e :
  getPeriodDates (LocalTZA h) now periodType (Some ref) = Ok w ->
  startDate w = Some s -> endDate w = Some e ->
  Forall (fun r => Run.schemaValid r = true) (Run.find runs userId s e) ->
  (List.length (Run.find runs userId s e) <= maxArguments h)%nat ->
  Number.isFinite
    (Number.sum (map (fun r => Number.ofQ (Run.distance r))
                     (Run.find runs userId s e))) = true ->
  exists doc,
    fst (calculateStats h now stamp runs stats userId periodType (Some ref))
    = Ok doc.
Proof.
  intros Hw Hs He Hvalid Hlen Hfin.
  rewrite (calculateStats_window h now stamp _ stats userId periodType
             (Some ref) w s e Hw Hs He).
  destruct (Run.find runs userId s e) as [|run rest];
    [eexists; reflexivity|].
  destruct (computeStats_within (maxArguments h) run rest Hlen)
    as [data Hc].
  destruct (computeStats_valid _ _ _ _ Hvalid Hfin Hc) as [Hcast Hval].
  rewrite Hc. unfold Stats.updateOrCreateStats. rewrite Hcast, Hval.
  cbn [negb].
  destruct (Stats.findOneAndUpdate _ _ _ stats) as [doc stats'].
  exists doc. reflexivity.
Qed.

(** C2, as the code has it.  For every owner, period type and reference
    instant with a valid window [s .. e], [calculateStats] aggregates exactly
    the records of the collection with matching owner, [isDeleted = false]
    and [s <= startTime <= e], both ends included: the call returns what it
    returns on those records alone; it returns the all-zero literal exactly
    when there is none; a document it returns counts each of them once and
    sums the distances and durations of them all; and it does return a
    document when they satisfy the run schema's validators, are no more
    than the engine passes as arguments of one call, and have a finite total
    distance. *)
Theorem calculateStats_selects_window h now stamp runs stats userId periodType
    ref w s e :
  getPeriodDates (LocalTZA h) now periodType (Some ref) = Ok w ->
  startDate w = Some s -> endDate w = Some e ->
  let selected :=
    filter (fun r => String.eqb (Run.userId r) userId
                     && negb (Run.isDeleted r)
                     && (s <=? Run.startTime r)
                     && (Run.startTime r <=? e)) runs in
  calculateStats h now stamp runs stats userId periodType (Some ref)
  = calculateStats h now stamp selected stats userId periodType (Some ref) /\
  (fst (calculateStats h now stamp runs stats userId periodType (Some ref))
   = Ok (Stats.mk userId periodType s e Number.zero Number.zero 0
                  Number.zero Number.zero Number.zero Number.zero None None)
   <-> selected = []) /\
  (forall doc,
      fst (calculateStats h now stamp runs stats userId periodType (Some ref))
      = Ok doc ->
      Stats.totalRuns doc = Z.of_nat (List.length selected) /\
      Stats.totalDistance doc
      = Number.sum (map (fun r => Number.ofQ (Run.distance r)) selected) /\
      Stats.totalDuration doc
      = Number.sum (map (fun r => Number.ofQ (Run.duration r)) selected)) /\
  (Forall (fun r => Run.schemaValid r = true) selected ->
   (List.length selected <= maxArguments h)%nat ->
   Number.isFinite
     (Number.sum (map (fun r => Number.ofQ (Run.distance r)) selected))
   = true ->
   exists doc,
     fst (calculateStats h now stamp runs stats userId periodType (Some ref))
     = Ok doc).
Proof.
  intros Hw Hs He selected.
  assert (Hsel : selected = Run.find runs userId s e).
  { unfold selected, Run.find. apply filter_ext. intros r.
    unfold Run.inPeriod. destruct (Run.isDeleted r); reflexivity. }
  rewrite Hsel. clear selected Hsel.
  split; [|split; [|split]].
  - rewrite !(calculateStats_window h now stamp _ stats userId periodType
                (Some ref) w s e Hw Hs He).
    rewrite find_idem. reflexivity.
  - split.
    + intros H.
      destruct (Run.find runs userId s e) as [|run rest] eqn:Hf;
        [reflexivity|].
      destruct (calculateStats_written h now stamp runs stats userId
                  periodType (Some ref) w s e run rest _ Hw Hs He Hf H)
        as [data [_ Hu]].
      apply updateOrCreateStats_doc in Hu. discriminate Hu.
    + intros Hf.
      rewrite (calculateStats_window h now stamp _ stats userId periodType
                 (Some ref) w s e Hw Hs He), Hf.
      reflexivity.
  - intros doc H.
    destruct (Run.find runs userId s e) as [|run rest] eqn:Hf.
    + rewrite (calculateStats_window h now stamp _ stats userId periodType
                 (Some ref) w s e Hw Hs He), Hf in H.
      cbn [fst] in H. apply Ok_inj in H. subst doc.
      split; [|split]; reflexivity.
    + destruct (calculateStats_written h now stamp runs stats userId
                  periodType (Some ref) w s e run rest _ Hw Hs He Hf H)
        as [data [Hc Hu]].
      apply updateOrCreateStats_doc in Hu.
      apply computeStats_Ok in Hc. destruct Hc as [_ Hd].
      rewrite Hu, Hd. split; [|split]; reflexivity.
  - apply (calculateStats_succeeds h now stamp runs stats userId periodType
             ref w s e Hw Hs He).
Qed.

Lemma calculateStats_selects_window_witness :
  let inside := Run.mk "r1" "u1" 3600000 5400000 (1000 # 1) (600 # 1)
                       (6 # 1) (7 # 1) false in
  let atEnd := Run.mk "r2" "u1" 86399999 86400999 (2000 # 1) (900 # 1)
                      (8 # 1) (9 # 1) false in
  let after := Run.mk "r3" "u1" 86400000 86400001 (400 # 1) (100 # 1)
                      (4 # 1) (4 # 1) false in
  let removed := Run.mk "r4" "u1" 7200000 7300000 (50 # 1) (10 # 1)
                        (5 # 1) (5 # 1) true in
  let other := Run.mk "r5" "u2" 3600000 5400000 (3000 # 1) (900 # 1)
                      (12 # 1) (13 # 1) false in
  let runs := [inside; after; removed; atEnd; other] in
  exists doc,
    fst (calculateStats utcHost 0 1 runs [] "u1" "daily" (Some 4000000))
    = Ok doc /\
    Stats.totalRuns doc = 2 /\
    Stats.totalDistance doc = Number.ofQ (3000 # 1) /\
    Stats.totalDuration doc = Number.ofQ (1500 # 1).
Proof.
  intros inside atEnd after removed other runs.
  destruct (calculateStats_selects_window utcHost 0 1 runs [] "u1" "daily"
              4000000 (mkPeriod (Some 0) (Some 86399999)) 0 86399999)
    as [_ [_ [H _]]]; [vm_compute; reflexivity | reflexivity | reflexivity |].
  eexists. split; [vm_compute; reflexivity|].
  apply H. vm_compute. reflexivity.
Defined.

(** C2 as stated fails: a record that starts exactly at the window's end is
    selected and counted.  The daily window of 1970-01-01 (UTC) ends at
    86399999 ms; a run of 1000 m starting at that instant is the owner's
    whole summary. *)
Lemma calculateStats_counts_run_at_window_end :
  let run := Run.mk "r1" "u1" 86399999 86400999 (1000 # 1) (600 # 1)
                    (6 # 1) (7 # 1) false in
  exists w doc,
    getPeriodDates utc 0 "daily" (Some 0) = Ok w /\
    endDate w = Some (Run.startTime run) /\
    fst (calculateStats utcHost 0 1 [run] [] "u1" "daily" (Some 0)) = Ok doc /\
    Stats.totalRuns doc = 1 /\
    Stats.totalDistance doc = Number.ofQ (1000 # 1).
Proof.
  intros run. exists (mkPeriod (Some 0) (Some 86399999)). eexists.
  split; [vm_compute; reflexivity|]. split; [reflexivity|].
  split; [vm_compute; reflexivity|]. split; vm_compute; reflexivity.
Qed.



(** The summary is computed in double precision: 1000 m in 700 s is
    5.142857142857143 km/h, the double nearest to [(1000 / 700) * 3.6] with
    each operation rounded, not the rational 36/7. *)
Lemma calculateStats_averageSpeed_rounded :
  let run := Run.mk "r1" "u1" 3600000 4300000 (1000 # 1) (700 # 1)
                    (1428571 # 1000000) (2 # 1) false in
  exists doc,
    fst (calculateStats utcHost 0 1 [run] [] "u1" "daily" (Some 4000000))
    = Ok doc /\
    Stats.averageSpeed doc
    = Number.ofQ (5142857142857143 # 1000000000000000) /\
    Stats.averageSpeed doc = S754_finite false 5790342378047781 (-50).
Proof.
  intros run. eexists. split; [vm_compute; reflexivity|].
  split; vm_compute; reflexivity.
Qed.

(** A selection larger than the engine's limit on the arguments of one call
    makes [Math.max(...)] throw a RangeError, and nothing is written. *)
Lemma calculateStats_selection_over_limit h now stamp runs stats userId
    periodType ref w s e :
  getPeriodDates (LocalTZA h) now periodType (Some ref) = Ok w ->
  startDate w = Some s -> endDate w = Some e ->
  (maxArguments h < List.length (Run.find runs userId s e))%nat ->
  calculateStats h now stamp runs stats userId periodType (Some ref)
  = (Err RangeError, stats).
Proof.
  intros Hw Hs He Hlen.
  rewrite (calculateStats_window h now stamp _ stats userId periodType
             (Some ref) w s e Hw Hs He).
  destruct (Run.find runs userId s e) as [|run rest];
    [cbn in Hlen; lia|].
  rewrite (computeStats_over _ _ _ Hlen). reflexivity.
Qed.

End Summary.

(** ** Exact sums *)

Section ExactSums.
Local Open Scope Q_scope.

Lemma Qlt_bool_iff x y : Qlt_bool x y = true <-> x < y.
Proof.
  unfold Qlt_bool. rewrite negb_true_iff.
  destruct (Qle_bool y x) eqn:E.
  - apply Qle_bool_iff in E. split; [discriminate|].
    intros H. exfalso. apply (Qlt_not_le _ _ H E).
  - split; auto. intros _. apply Qnot_le_lt. intros H.
    apply Qle_bool_iff in H. congruence.
Qed.



Lemma sumQ_nonneg (l : list Q) : Forall (fun x => 0 <= x) l -> 0 <= sumQ l.
Proof.
  unfold sumQ. induction 1 as [|x l Hx _ IH]; cbn [fold_right].
  - apply Qle_refl.
  - change (0 + 0 <= x + fold_right Qplus 0 l).
    apply Qplus_le_compat; assumption.
Qed.

End ExactSums.

(** ** Aggregation stages *)

Section SortStage.
Context {A : Type}.
Variable metric : A -> Q.

(** Descending order of the sort field. *)
Let desc (a b : A) : Prop := (metric b <= metric a)%Q.

Lemma insert_perm x l : Permutation (Aggregate.insert metric x l) (x :: l).
Proof.
  induction l as [|y l IH]; cbn [Aggregate.insert]; auto.
  destruct (Qlt_bool (metric x) (metric y)); auto.
  rewrite IH. apply perm_swap.
Qed.

Lemma sort_desc_perm l : Permutation (Aggregate.sort_desc metric l) l.
Proof.
  unfold Aggregate.sort_desc.
  induction l as [|x l IH]; cbn [fold_right]; auto.
  rewrite insert_perm. auto.
Qed.

Lemma insert_sorted x l :
  StronglySorted desc l -> StronglySorted desc (Aggregate.insert metric x l).
Proof.
  induction 1 as [|y l Hs IH Hall]; cbn [Aggregate.insert].
  - constructor; constructor.
  - destruct (Qlt_bool (metric x) (metric y)) eqn:E.
    + constructor; [exact IH|].
      apply (Permutation_Forall (Permutation_sym (insert_perm x l))).
      constructor; [|exact Hall].
      apply Qlt_bool_iff in E. apply Qlt_le_weak, E.
    + assert (Hyx : (metric y <= metric x)%Q).
      { apply Qnot_lt_le. intros H. apply Qlt_bool_iff in H. congruence. }
      constructor; [constructor; assumption|].
      constructor; [exact Hyx|].
      rewrite Forall_forall in *. intros z Hz.
      eapply Qle_trans; [apply Hall, Hz | exact Hyx].
Qed.

Lemma sort_desc_sorted l : StronglySorted desc (Aggregate.sort_desc metric l).
Proof.
  unfold Aggregate.sort_desc.
  induction l as [|x l IH]; cbn [fold_right].
  - constructor.
  - apply insert_sorted, IH.
Qed.

End SortStage.

Section ListFacts.
Context {A B : Type}.

Lemma StronglySorted_map (f : A -> B) (R : A -> A -> Prop)
    (R' : B -> B -> Prop) l :
  (forall a b, R a b -> R' (f a) (f b)) ->
  StronglySorted R l -> StronglySorted R' (map f l).
Proof.
  intros HR. induction 1 as [|x l Hs IH Hall]; cbn [map]; constructor; auto.
  rewrite Forall_forall in *. intros y Hy.
  apply in_map_iff in Hy. destruct Hy as [a [<- Ha]]. auto.
Qed.

Lemma StronglySorted_skipn (R : A -> A -> Prop) n l :
  StronglySorted R l -> StronglySorted R (skipn n l).
Proof.
  revert l. induction n as [|n IH]; intros l Hs; cbn [skipn]; auto.
  destruct l as [|x l]; auto. apply IH.
  inversion Hs; assumption.
Qed.

Lemma StronglySorted_firstn (R : A -> A -> Prop) n l :
  StronglySorted R l -> StronglySorted R (firstn n l).
Proof.
  revert l. induction n as [|n IH]; intros l Hs; cbn [firstn].
  - constructor.
  - destruct l as [|x l]; [constructor|].
    inversion Hs as [|? ? Hs' Hall]; subst.
    constructor; [apply IH, Hs'|].
    rewrite Forall_forall in *. intros y Hy. apply Hall.
    rewrite <- (firstn_skipn n l). apply in_or_app. left. exact Hy.
Qed.

Lemma StronglySorted_nth (R : A -> A -> Prop) l i j a b :
  StronglySorted R l ->
  (i < j)%nat ->
  nth_error l i = Some a -> nth_error l j = Some b -> R a b.
Proof.
  intros Hs. revert i j.
  induction Hs as [|x l Hs IH Hall]; intros i j Hij Hi Hj.
  - destruct i; discriminate.
  - destruct j as [|j]; [lia|]. cbn [nth_error] in Hj.
    destruct i as [|i]; cbn [nth_error] in Hi.
    + injection Hi as <-. rewrite Forall_forall in Hall.
      apply Hall. eapply nth_error_In, Hj.
    + apply (IH i j); auto. lia.
Qed.

Lemma nth_error_mapi_from (f : A -> Z -> B) s l i :
  nth_error (mapi_from f s l) i
  = option_map (fun x => f x (s + Z.of_nat i)) (nth_error l i).
Proof.
  revert s i. induction l as [|x l IH]; intros s i; cbn [mapi_from].
  - destruct i; reflexivity.
  - destruct i as [|i]; cbn [nth_error option_map].
    + rewrite Z.add_0_r. reflexivity.
    + rewrite IH. destruct (nth_error l i); cbn [option_map]; auto.
      do 2 f_equal. lia.
Qed.

Lemma mapi_from_app (f : A -> Z -> B) s l1 l2 :
  mapi_from f s (l1 ++ l2)
  = (mapi_from f s l1 ++ mapi_from f (s + Z.of_nat (List.length l1)) l2)%list.
Proof.
  revert s. induction l1 as [|x l1 IH]; intros s; cbn [mapi_from app].
  - cbn. rewrite Z.add_0_r. reflexivity.
  - rewrite IH. cbn [List.length]. do 3 f_equal. lia.
Qed.

Lemma length_mapi_from (f : A -> Z -> B) s l :
  List.length (mapi_from f s l) = List.length l.
Proof.
  revert s. induction l as [|x l IH]; intros s; cbn; auto.
Qed.

End ListFacts.

(** ** C5: the order of the distance leaderboard *)

Section DistanceOrder.
Import Helpers RunService.

Lemma distancePipeline_sorted runs users :
  StronglySorted
    (fun a b =>
       (DistanceItem.totalDistance b <= DistanceItem.totalDistance a)%Q)
    (distancePipeline runs users).
Proof.
  unfold distancePipeline.
  eapply StronglySorted_map; [|apply sort_desc_sorted].
  intros [ka [[da na] ta]] [kb [[db nb] tb]] H. exact H.
Qed.

(** C5, as the code has it.  In the sequence of entries a distance
    leaderboard page returns, the primary metric never increases and the rank
    strictly increases with the position: for entries at positions [i < j],
    [totalDistance j <= totalDistance i] and [rank i < rank j].  The pipeline
    sorts on totalDistance alone; nothing orders entries with equal
    totals. *)
Theorem distance_leaderboard_descending runs users page limit lb i j ei ej :
  getDistanceLeaderboard runs users page limit = Ok lb ->
  (i < j)%nat ->
  nth_error (leaderboard lb) i = Some ei ->
  nth_error (leaderboard lb) j = Some ej ->
  (DistanceItem.totalDistance (item ej)
   <= DistanceItem.totalDistance (item ei))%Q /\
  rank ei < rank ej.
Proof.
  unfold getDistanceLeaderboard.
  destruct (Aggregate.valid_skip_limit _ _); [|discriminate].
  intros H Hij Hi Hj. injection H as <-. cbn [leaderboard] in Hi, Hj.
  unfold mapi in Hi, Hj. rewrite nth_error_mapi_from in Hi, Hj.
  destruct (nth_error _ i) as [a|] eqn:Ea; [|discriminate].
  destruct (nth_error _ j) as [b|] eqn:Eb; [|discriminate].
  cbn [option_map] in Hi, Hj. injection Hi as <-. injection Hj as <-.
  cbn [item rank]. split; [|lia].
  refine (StronglySorted_nth
            (fun a b =>
               (DistanceItem.totalDistance b
                <= DistanceItem.totalDistance a)%Q)
            _ i j a b _ Hij Ea Eb).
  apply StronglySorted_firstn, StronglySorted_skipn, distancePipeline_sorted.
Qed.

Lemma distance_leaderboard_descending_witness :
  let r1 := Run.mk "r1" "a" 1000 2000 (3000 # 1) (900 # 1) (12 # 1) (13 # 1) false in
  let r2 := Run.mk "r2" "b" 3000 4000 (5000 # 1) (1500 # 1) (12 # 1) (13 # 1) false in
  let e1 := mkRanked 1 (DistanceItem.mk "b" None None None (5000 # 1) 1
                                         (1500 # 1)) in
  let e2 := mkRanked 2 (DistanceItem.mk "a" None None None (3000 # 1) 1
                                         (900 # 1)) in
  (DistanceItem.totalDistance (item e2)
   <= DistanceItem.totalDistance (item e1))%Q /\
  rank e1 < rank e2.
Proof.
  intros r1 r2 e1 e2.
  apply (distance_leaderboard_descending [r1; r2] [] None None
           (mkLeaderboard [e1; e2] (calculatePagination 2 1 10))
           0 1 e1 e2).
  - vm_compute. reflexivity.
  - lia.
  - reflexivity.
  - reflexivity.
Defined.

(** C5 as stated fails: two owners tie at 5000 m; the owner with the greater
    id, whose run is stored first, is ranked first. *)
Lemma distance_leaderboard_tie_keeps_store_order :
  let rb := Run.mk "r1" "b" 1000 2000 (5000 # 1) (1500 # 1) (12 # 1)
                   (13 # 1) false in
  let ra := Run.mk "r2" "a" 3000 4000 (5000 # 1) (1500 # 1) (12 # 1)
                   (13 # 1) false in
  exists lb ei ej,
    getDistanceLeaderboard [rb; ra] [] None None = Ok lb /\
    nth_error (leaderboard lb) 0 = Some ei /\
    nth_error (leaderboard lb) 1 = Some ej /\
    DistanceItem.totalDistance (item ei) = (5000 # 1)%Q /\
    DistanceItem.totalDistance (item ej) = (5000 # 1)%Q /\
    DistanceItem.userId (item ei) = "b" /\
    DistanceItem.userId (item ej) = "a" /\
    String.ltb (DistanceItem.userId (item ei))
               (DistanceItem.userId (item ej)) = false.
Proof.
  intros rb ra.
  exists (mkLeaderboard
            [mkRanked 1 (DistanceItem.mk "b" None None None (5000 # 1) 1
                                          (1500 # 1));
             mkRanked 2 (DistanceItem.mk "a" None None None (5000 # 1) 1
                                          (1500 # 1))]
            (calculatePagination 2 1 10)).
  do 2 eexists.
  split; [vm_compute; reflexivity|].
  repeat (split; [reflexivity|]). reflexivity.
Qed.

End DistanceOrder.

(** ** The [$group] stage *)

Section GroupStage.
Context {Doc Acc : Type}.
Variable key : Doc -> string.
Variable zero : Acc.
Variable step : Acc -> Doc -> Acc.

Local Abbreviation accumulate := (Aggregate.accumulate key zero step).
Local Abbreviation group := (Aggregate.group key zero step).

Lemma group_snoc l d : group (l ++ [d]) = accumulate d (group l).
Proof. unfold Aggregate.group. rewrite fold_left_app. reflexivity. Qed.

Lemma accumulate_keys_In d gs k :
  In k (map fst (accumulate d gs)) <-> k = key d \/ In k (map fst gs).
Proof.
  induction gs as [|[k0 a0] gs IH]; cbn [Aggregate.accumulate map fst In].
  - intuition congruence.
  - destruct (String.eqb k0 (key d)) eqn:E; cbn [map fst In].
    + apply String.eqb_eq in E. subst k0. intuition congruence.
    + rewrite IH. tauto.
Qed.

Lemma accumulate_NoDup d gs :
  NoDup (map fst gs) -> NoDup (map fst (accumulate d gs)).
Proof.
  induction gs as [|[k0 a0] gs IH]; cbn [Aggregate.accumulate map fst].
  - intros _. constructor; [intros [] | constructor].
  - intros Hnd. inversion Hnd as [|? ? Hnin Hnd']; subst.
    destruct (String.eqb k0 (key d)) eqn:E; cbn [map fst].
    + constructor; assumption.
    + constructor; [|apply IH, Hnd'].
      rewrite accumulate_keys_In. intros [-> | H]; auto.
      rewrite String.eqb_refl in E. discriminate.
Qed.


Lemma group_keys_In l k :
  In k (map fst (group l)) <-> exists d, In d l /\ key d = k.
Proof.
  induction l as [|d l IH] using rev_ind.
  - cbn. split; [intros [] | intros [d [[] _]]].
  - rewrite group_snoc, accumulate_keys_In, IH.
    split.
    + intros [-> | [d' [Hd' Hk]]].
      * exists d. split; auto. apply in_or_app. right. left. reflexivity.
      * exists d'. split; auto. apply in_or_app. auto.
    + intros [d' [Hd' Hk]]. apply in_app_or in Hd'.
      destruct Hd' as [Hd' | [<- | []]]; eauto.
Qed.

Lemma group_NoDup l : NoDup (map fst (group l)).
Proof.
  induction l as [|d l IH] using rev_ind.
  - constructor.
  - rewrite group_snoc. apply accumulate_NoDup, IH.
Qed.



End GroupStage.

(** The keys [$group] emits do not depend on its accumulators. *)
Lemma group_keys_accumulators {Doc Acc1 Acc2 : Type} (key : Doc -> string)
    (z1 : Acc1) (s1 : Acc1 -> Doc -> Acc1)
    (z2 : Acc2) (s2 : Acc2 -> Doc -> Acc2) l :
  map fst (Aggregate.group key z1 s1 l)
  = map fst (Aggregate.group key z2 s2 l).
Proof.
  induction l as [|d l IH] using rev_ind; [reflexivity|].
  rewrite !group_snoc.
  revert IH.
  generalize (Aggregate.group key z1 s1 l).
  generalize (Aggregate.group key z2 s2 l).
  intros g2 g1. revert g2.
  induction g1 as [|[k1 a1] g1 IHg]; intros [|[k2 a2] g2];
    cbn [map fst Aggregate.accumulate]; try discriminate; auto.
  intros H. injection H as <- H.
  destruct (String.eqb k1 (key d)); cbn [map fst]; f_equal; auto.
Qed.

(** ** C6: paging through the distance leaderboard *)

Section Paging.
Import Helpers RunService.

Lemma firstn_add {A : Type} (a b : nat) (l : list A) :
  firstn (a + b) l = (firstn a l ++ firstn b (skipn a l))%list.
Proof.
  revert l. induction a as [|a IH]; intros l; cbn [Nat.add firstn skipn app].
  - reflexivity.
  - destruct l as [|x l]; cbn [firstn skipn app].
    + rewrite firstn_nil. reflexivity.
    + rewrite IH. reflexivity.
Qed.

Lemma mapi_from_shift {A B : Type} (g : A -> Z -> B) (s a : Z) (l : list A) :
  mapi_from (fun x i => g x (s + i)) a l = mapi_from g (s + a) l.
Proof.
  revert a. induction l as [|x l IH]; intros a; cbn [mapi_from]; auto.
  rewrite IH. do 2 f_equal. lia.
Qed.

(** Consecutive slices of [L] items, numbered from their offset, concatenate
    to the numbered prefix of [n * L] items. *)
Lemma ranked_chunks {A B : Type} (g : A -> Z -> B) (l : list A) (L n : nat) :
  flat_map
    (fun p => mapi_from g (Z.of_nat ((p - 1) * L))
                        (firstn L (skipn ((p - 1) * L) l)))
    (seq 1 n)
  = mapi_from g 0 (firstn (n * L) l).
Proof.
  induction n as [|n IH].
  - reflexivity.
  - rewrite seq_S, flat_map_app, IH. cbn [flat_map].
    rewrite app_nil_r.
    replace (1 + n - 1)%nat with n by lia.
    replace (S n * L)%nat with (n * L + L)%nat by lia.
    rewrite firstn_add, mapi_from_app. f_equal.
    destruct (Nat.le_gt_cases (n * L) (List.length l)) as [Hle | Hgt].
    + rewrite length_firstn, Nat.min_l by exact Hle. reflexivity.
    + rewrite skipn_all2 by lia. rewrite firstn_nil. reflexivity.
Qed.

Lemma Math_ceil_div_covers (a b : Z) :
  0 <= a -> 0 < b ->
  0 <= Math_ceil_div a b /\ a <= Math_ceil_div a b * b.
Proof.
  intros Ha Hb. unfold Math_ceil_div.
  Z.to_euclidean_division_equations. nia.
Qed.

Lemma distanceTotalItems_length runs users :
  distanceTotalItems runs
  = Z.of_nat (List.length (distancePipeline runs users)).
Proof.
  unfold distanceTotalItems, distancePipeline, Aggregate.count.
  rewrite length_map.
  rewrite (Permutation_length (sort_desc_perm distanceMetric _)).
  unfold distanceGroup.
  rewrite <- (length_map fst (Aggregate.group _ tt _ _)).
  rewrite <- (length_map fst (Aggregate.group _ (0%Q, 0, 0%Q) _ _)).
  f_equal. f_equal. apply group_keys_accumulators.
Qed.

(** One page, for a page number [p >= 1] and a limit within the bounds. *)
Lemma getDistanceLeaderboard_page runs users (p : nat) (limit : Z) :
  (1 <= p)%nat ->
  1 <= limit <= PAGINATION.MAX_LIMIT ->
  getDistanceLeaderboard runs users (Some (Z.of_nat p)) (Some limit)
  = Ok (mkLeaderboard
          (mapi_from (fun item index => mkRanked (index + 1) item)
             (Z.of_nat ((p - 1) * Z.to_nat limit))
             (firstn (Z.to_nat limit)
                     (skipn ((p - 1) * Z.to_nat limit)
                            (distancePipeline runs users))))
          (calculatePagination (distanceTotalItems runs) (Z.of_nat p)
                               limit)).
Proof.
  intros Hp Hl. unfold getDistanceLeaderboard.
  cbn [optionsPage optionsLimit].
  rewrite Z.min_l by lia.
  assert (Hskip : (Z.of_nat p - 1) * limit
                  = Z.of_nat ((p - 1) * Z.to_nat limit)).
  { rewrite Nat2Z.inj_mul, Nat2Z.inj_sub, Z2Nat.id by lia. reflexivity. }
  unfold Aggregate.valid_skip_limit.
  replace (0 <=? (Z.of_nat p - 1) * limit) with true
    by (symmetry; apply Z.leb_le; nia).
  replace (0 <? limit) with true by (symmetry; apply Z.ltb_lt; lia).
  cbn [andb]. do 2 f_equal.
  unfold mapi, Aggregate.limit, Aggregate.skip.
  rewrite Hskip, Nat2Z.id.
  etransitivity;
    [exact (mapi_from_shift
              (fun item index => mkRanked (index + 1) item)
              (Z.of_nat ((p - 1) * Z.to_nat limit)) 0 _)|].
  rewrite Z.add_0_r. reflexivity.
Qed.

Lemma distanceProject_userId users g :
  DistanceItem.userId (distanceProject users g) = fst g.
Proof. destruct g as [k [[d n] t]]. reflexivity. Qed.

(** Every owner with a non-deleted run has exactly one item in the pipeline,
    and the pipeline has no other item. *)
Lemma distancePipeline_owners runs users :
  NoDup (map DistanceItem.userId (distancePipeline runs users)) /\
  forall u,
    In u (map DistanceItem.userId (distancePipeline runs users)) <->
    exists r, In r runs /\ Run.isDeleted r = false /\ Run.userId r = u.
Proof.
  assert (Hkeys : Permutation
                    (map DistanceItem.userId (distancePipeline runs users))
                    (map fst (distanceGroup (distanceMatch runs)))).
  { unfold distancePipeline. rewrite map_map.
    rewrite (map_ext _ fst (distanceProject_userId users)).
    apply Permutation_map, sort_desc_perm. }
  split.
  - apply (Permutation_NoDup (Permutation_sym Hkeys)), group_NoDup.
  - intros u. split.
    + intros H. apply (Permutation_in _ Hkeys) in H.
      apply group_keys_In in H. destruct H as [r [Hr Hk]].
      apply filter_In in Hr. destruct Hr as [Hr Hd].
      exists r. repeat split; auto.
      destruct (Run.isDeleted r); [discriminate | reflexivity].
    + intros [r [Hr [Hd Hk]]].
      apply (Permutation_in _ (Permutation_sym Hkeys)).
      apply group_keys_In. exists r. split; auto.
      apply filter_In. split; auto. rewrite Hd. reflexivity.
Qed.

(** For a limit within [1, MAX_LIMIT], the pages 1..totalPages concatenate to
    the whole ranking, every item once, ranked 1, 2, ...; totalItems is the
    number of items before slicing. *)
Lemma distance_pages_complete runs users limit :
  1 <= limit <= PAGINATION.MAX_LIMIT ->
  exists lb,
    getDistanceLeaderboard runs users (Some 1) (Some limit) = Ok lb /\
    totalItems (pagination lb)
    = Z.of_nat (List.length (distancePipeline runs users)) /\
    distancePages runs users (Some limit)
                  (Z.to_nat (totalPages (pagination lb)))
    = mapi (fun item index => mkRanked (index + 1) item)
           (distancePipeline runs users).
Proof.
  intros Hl.
  pose proof (getDistanceLeaderboard_page runs users 1 limit (le_n 1) Hl)
    as H1.
  change (Z.of_nat 1) with 1 in H1 at 1.
  eexists. split; [exact H1|].
  cbn [pagination calculatePagination totalItems totalPages].
  split; [apply distanceTotalItems_length|].
  rewrite (distanceTotalItems_length runs users).
  set (l := distancePipeline runs users).
  set (N := Z.of_nat (List.length l)).
  destruct (Math_ceil_div_covers N limit) as [Hn0 Hcov]; [lia | lia |].
  set (n := Z.to_nat (Math_ceil_div N limit)).
  unfold distancePages. rewrite flat_map_concat_map.
  rewrite (map_ext_in _
             (fun p => mapi_from
                         (fun item index => mkRanked (index + 1) item)
                         (Z.of_nat ((p - 1) * Z.to_nat limit))
                         (firstn (Z.to_nat limit)
                                 (skipn ((p - 1) * Z.to_nat limit) l)))).
  - rewrite <- flat_map_concat_map, ranked_chunks.
    rewrite firstn_all2; [reflexivity|].
    unfold n, N in *. nia.
  - intros p Hp. apply in_seq in Hp.
    rewrite getDistanceLeaderboard_page by (auto; lia). reflexivity.
Qed.

(** C6 at an input on which it fails: 101 owners, limit 200.  The slice is
    cut at MAX_LIMIT = 100 entries, but the metadata is computed with the
    requested limit: totalPages is 1 and hasNextPage is false, so the pages
    1..totalPages hold 100 of the 101 groups and the owner ranked last is on
    none of them. *)
Theorem distance_pages_limit_above_max :
  exists lb,
    getDistanceLeaderboard (sampleRuns 101) [] (Some 1) (Some 200) = Ok lb /\
    totalItems (pagination lb) = 101 /\
    limit (pagination lb) = 200 /\
    totalPages (pagination lb) = 1 /\
    hasNextPage (pagination lb) = false /\
    List.length (leaderboard lb) = 100%nat /\
    List.length (distancePages (sampleRuns 101) [] (Some 200) 1) = 100%nat /\
    existsb (fun e => String.eqb (DistanceItem.userId (item e))
                                 (sampleOwner 100))
            (distancePages (sampleRuns 101) [] (Some 200) 1) = false /\
    In (sampleOwner 100)
       (map DistanceItem.userId (distancePipeline (sampleRuns 101) [])).
Proof.
  eexists. split; [vm_compute; reflexivity|].
  repeat (split; [vm_compute; reflexivity|]).
  apply distancePipeline_owners. exists (sampleRun 100).
  split; [|split; reflexivity].
  unfold sampleRuns. apply in_map, in_seq. lia.
Qed.

End Paging.

(** ** C7: the area leaderboard *)

Section AreaLeaderboard.
Import Helpers RunService RunQueries.



Lemma In_firstn {A : Type} n (l : list A) x : In x (firstn n l) -> In x l.
Proof.
  intros H. rewrite <- (firstn_skipn n l). apply in_or_app. auto.
Qed.


(** No stored run passes the [$match] of the area leaderboard. *)
Lemma areaMatch_nil runs : areaMatch runs = [].
Proof.
  unfold areaMatch. induction runs as [|r runs IH]; cbn [filter]; auto.
  unfold areaEligible at 1. cbn [Run.totalArea].
  rewrite andb_false_r. exact IH.
Qed.

(** The area leaderboard of any [runs] collection has no entry and reports
    no item. *)
Lemma getAreaLeaderboard_no_entries runs users page limit lb :
  getAreaLeaderboard runs users page limit = Ok lb ->
  leaderboard lb = [] /\ totalItems (pagination lb) = 0.
Proof.
  unfold getAreaLeaderboard, areaPipeline, areaTotalItems.
  rewrite areaMatch_nil.
  destruct (Aggregate.valid_skip_limit _ _); [|discriminate].
  intros H. apply Ok_inj in H. subst lb.
  cbn [leaderboard pagination]. split; [|reflexivity].
  unfold Aggregate.skip, Aggregate.limit. cbn [areaGroup Aggregate.group
    fold_left Aggregate.sort_desc fold_right flat_map].
  rewrite skipn_nil, firstn_nil. reflexivity.
Qed.


End AreaLeaderboard.

(** * Further properties of the leaderboards *)

Section LeaderboardEntries.
Import Helpers RunService.

(** A leaderboard request is served exactly when its page and limit are at
    least 1; it then holds at most [min(limit, MAX_LIMIT)] entries, ranked
    consecutively from [(page - 1) * min(limit, MAX_LIMIT) + 1].  Any other
    page or limit makes the pipeline fail. *)
Theorem getDistanceLeaderboard_accepts runs users page limit :
  let p := optionsPage page in
  let l := Z.min (optionsLimit limit) PAGINATION.MAX_LIMIT in
  ((p < 1 \/ optionsLimit limit < 1) /\
   getDistanceLeaderboard runs users page limit = Err AggregateError) \/
  (1 <= p /\ 1 <= optionsLimit limit /\
   exists lb,
     getDistanceLeaderboard runs users page limit = Ok lb /\
     Z.of_nat (List.length (leaderboard lb)) <= l /\
     forall i e, nth_error (leaderboard lb) i = Some e ->
                 rank e = (p - 1) * l + Z.of_nat i + 1).
Proof.
  intros p l. unfold getDistanceLeaderboard. fold p. fold l.
  unfold Aggregate.valid_skip_limit.
  assert (Hmax : l <= PAGINATION.MAX_LIMIT) by (unfold l; lia).
  unfold PAGINATION.MAX_LIMIT in Hmax.
  destruct (0 <? l) eqn:El; [apply Z.ltb_lt in El | apply Z.ltb_ge in El].
  - assert (Hlim : 1 <= optionsLimit limit)
      by (unfold l, PAGINATION.MAX_LIMIT in *; lia).
    destruct (0 <=? (p - 1) * l) eqn:Es;
      [apply Z.leb_le in Es | apply Z.leb_gt in Es]; cbn [andb].
    + right. split; [nia|]. split; [exact Hlim|].
      eexists. split; [reflexivity|]. cbn [leaderboard]. split.
      * unfold mapi. rewrite length_mapi_from.
        unfold Aggregate.limit. rewrite length_firstn. lia.
      * intros i e He. unfold mapi in He.
        rewrite nth_error_mapi_from in He.
        destruct (nth_error _ i); [|discriminate].
        cbn [option_map] in He. injection He as <-. cbn [rank]. lia.
    + left. split; [left; nia | reflexivity].
  - rewrite andb_false_r. left. split; [|reflexivity].
    right. unfold l, PAGINATION.MAX_LIMIT in *. lia.
Qed.




Lemma distance_pages_complete_witness :
  1 <= 1 <= PAGINATION.MAX_LIMIT /\
  exists lb,
    getDistanceLeaderboard twoOwnerRuns twoOwnerUsers (Some 1) (Some 1)
    = Ok lb /\
    totalItems (pagination lb)
    = Z.of_nat (List.length (distancePipeline twoOwnerRuns twoOwnerUsers))
    /\
    distancePages twoOwnerRuns twoOwnerUsers (Some 1)
                  (Z.to_nat (totalPages (pagination lb)))
    = mapi (fun item index => mkRanked (index + 1) item)
           (distancePipeline twoOwnerRuns twoOwnerUsers).
Proof.
  split; [unfold PAGINATION.MAX_LIMIT; lia|].
  apply (distance_pages_complete twoOwnerRuns twoOwnerUsers 1).
  unfold PAGINATION.MAX_LIMIT. lia.
Defined.

End LeaderboardEntries.

(** * Reading the statistics *)

Lemma StronglySorted_impl {A : Type} (R R' : A -> A -> Prop) l :
  (forall a b, R a b -> R' a b) ->
  StronglySorted R l -> StronglySorted R' l.
Proof.
  intros HR. induction 1 as [|x l Hs IH Hall]; constructor; auto.
  eapply Forall_impl; [|exact Hall]. intros y. apply HR.
Qed.

Section DateSort.
Context {A : Type}.
Variable date : A -> Z.

Lemma sortByDateDesc_perm l : Permutation (Query.sortByDateDesc date l) l.
Proof. apply sort_desc_perm. Qed.

Lemma sortByDateDesc_sorted l :
  StronglySorted (fun a b => date b <= date a) (Query.sortByDateDesc date l).
Proof.
  unfold Query.sortByDateDesc.
  eapply StronglySorted_impl; [|apply sort_desc_sorted].
  intros a b H. rewrite Zle_Qle. exact H.
Qed.

Lemma sortByDateDesc_In l x : In x (Query.sortByDateDesc date l) <-> In x l.
Proof.
  split; apply Permutation_in;
    [apply sortByDateDesc_perm | apply Permutation_sym, sortByDateDesc_perm].
Qed.

End DateSort.

Lemma NoDup_nth_error_neq {A : Type} (l : list A) i j a b :
  NoDup l -> (i < j)%nat ->
  nth_error l i = Some a -> nth_error l j = Some b -> a <> b.
Proof.
  intros Hnd Hij Hi Hj Hab. subst b.
  assert (Hlen : (i < List.length l)%nat).
  { apply nth_error_Some. congruence. }
  pose proof (proj1 (NoDup_nth_error l) Hnd i j Hlen) as H.
  rewrite Hi, Hj in H. specialize (H eq_refl). lia.
Qed.

Section StatsReadOperations.
Import Helpers StatsService.

(** The rows [getStatsByPeriod] returns, on a collection with distinct keys:
    exactly the owner's rows of the period type, most recent period first,
    no two with the same period start. *)
Lemma getStatsByPeriod_static coll userId periodType :
  NoDup (map Stats.key coll) ->
  let rows := StatsStatics.getStatsByPeriod coll userId periodType in
  (forall d, In d rows <->
             In d coll /\ Stats.userId d = userId /\
             Stats.periodType d = periodType) /\
  (forall i j di dj,
      (i < j)%nat ->
      nth_error rows i = Some di -> nth_error rows j = Some dj ->
      Stats.periodStart dj < Stats.periodStart di).
Proof.
  intros Hnd rows.
  assert (Hin : forall d, In d rows <->
                          In d coll /\ Stats.userId d = userId /\
                          Stats.periodType d = periodType).
  { intros d. unfold rows, StatsStatics.getStatsByPeriod.
    rewrite sortByDateDesc_In, filter_In, andb_true_iff, !String.eqb_eq.
    tauto. }
  split; [exact Hin|].
  intros i j di dj Hij Hi Hj.
  assert (Hle : Stats.periodStart dj <= Stats.periodStart di).
  { refine (StronglySorted_nth
              (fun a b => Stats.periodStart b <= Stats.periodStart a)
              rows i j di dj _ Hij Hi Hj).
    apply sortByDateDesc_sorted. }
  assert (Hndr : NoDup (map Stats.key rows)).
  { unfold rows, StatsStatics.getStatsByPeriod.
    eapply Permutation_NoDup;
      [apply Permutation_map, Permutation_sym, sortByDateDesc_perm|].
    apply NoDup_map_filter, Hnd. }
  assert (Hne : Stats.key di <> Stats.key dj).
  { apply (NoDup_nth_error_neq (map Stats.key rows) i j); auto.
    - rewrite nth_error_map, Hi. reflexivity.
    - rewrite nth_error_map, Hj. reflexivity. }
  apply nth_error_In in Hi, Hj. apply Hin in Hi, Hj.
  destruct Hi as [_ [Hui Hpi]], Hj as [_ [Huj Hpj]].
  assert (Stats.periodStart di <> Stats.periodStart dj).
  { intros Heq. apply Hne. unfold Stats.key. congruence. }
  lia.
Qed.

(** [getStatsByPeriod] of the service, for a period type of the enumerated
    set and a collection written by its writers: the owner's rows of that
    type, each period once, most recent period first. *)
Theorem getStatsByPeriod_sorted_distinct coll userId periodType :
  Stats.reachable coll ->
  In periodType PERIOD_TYPES.values ->
  exists rows,
    StatsReads.getStatsByPeriod coll userId periodType = Returned rows /\
    (forall d, In d rows <->
               In d coll /\ Stats.userId d = userId /\
               Stats.periodType d = periodType) /\
    (forall i j di dj,
        (i < j)%nat ->
        nth_error rows i = Some di -> nth_error rows j = Some dj ->
        Stats.periodStart dj < Stats.periodStart di).
Proof.
  intros Hr Hp. unfold StatsReads.getStatsByPeriod.
  assert (E : existsb (String.eqb periodType) PERIOD_TYPES.values = true).
  { apply existsb_exists. exists periodType. split; auto.
    apply String.eqb_refl. }
  rewrite E. eexists. split; [reflexivity|].
  apply getStatsByPeriod_static, reachable_NoDup, Hr.
Qed.

Lemma getStatsByPeriod_sorted_distinct_witness :
  let older := Stats.mk "u1" "weekly" 1699228800000 1699833599999
                        (Number.ofQ (3000 # 1)) (Number.ofQ (900 # 1)) 1
                        (Number.ofQ (12 # 1)) (Number.ofQ (3000 # 1))
                        (Number.ofQ (900 # 1)) (Number.ofQ (12 # 1))
                        (Some 1699500000000) (Some 1699500000000) in
  let newer := Stats.mk "u1" "weekly" 1699833600000 1700438399999
                        (Number.ofQ (4500 # 1)) (Number.ofQ (2700 # 1)) 3
                        (Number.ofQ (6 # 1)) (Number.ofQ (2000 # 1))
                        (Number.ofQ (1200 # 1)) (Number.ofQ (6 # 1))
                        (Some 1700200000000) (Some 1700200000000) in
  exists rows,
    StatsReads.getStatsByPeriod [older; newer] "u1" "weekly" = Returned rows /\
    (forall d, In d rows <->
               In d [older; newer] /\ Stats.userId d = "u1" /\
               Stats.periodType d = "weekly") /\
    (forall i j di dj,
        (i < j)%nat ->
        nth_error rows i = Some di -> nth_error rows j = Some dj ->
        Stats.periodStart dj < Stats.periodStart di).
Proof.
  intros older newer.
  apply (getStatsByPeriod_sorted_distinct [older; newer] "u1" "weekly").
  - apply (Stats.reachable_upsert 1700200000000 [older] "u1" "weekly"
             1699833600000 1700438399999
             (Stats.mkData (Number.ofQ (4500 # 1)) (Number.ofQ (2700 # 1)) 3
                           (Number.ofQ (6 # 1)) (Number.ofQ (2000 # 1))
                           (Number.ofQ (1200 # 1)) (Number.ofQ (6 # 1)))
             newer [older; newer]); [|vm_compute; reflexivity].
    apply (Stats.reachable_upsert 1699500000000 [] "u1" "weekly"
             1699228800000 1699833599999
             (Stats.mkData (Number.ofQ (3000 # 1)) (Number.ofQ (900 # 1)) 1
                           (Number.ofQ (12 # 1)) (Number.ofQ (3000 # 1))
                           (Number.ofQ (900 # 1)) (Number.ofQ (12 # 1)))
             older [older]); [|vm_compute; reflexivity].
    apply Stats.reachable_empty.
  - cbn. auto.
Defined.

(** [getStatsByPeriod] of the service rejects every period type outside the
    enumerated set with a bad-request error, whatever is stored. *)
Theorem getStatsByPeriod_rejects coll userId periodType :
  ~ In periodType PERIOD_TYPES.values ->
  StatsReads.getStatsByPeriod coll userId periodType
  = Thrown (badRequest "Invalid period type").
Proof.
  intros Hp. unfold StatsReads.getStatsByPeriod.
  destruct (existsb (String.eqb periodType) PERIOD_TYPES.values) eqn:E;
    [|reflexivity].
  apply existsb_exists in E. destruct E as [p [Hin Heq]].
  apply String.eqb_eq in Heq. subst p. contradiction.
Qed.

Lemma getStatsByPeriod_rejects_witness :
  StatsReads.getStatsByPeriod [] "u1" "hourly"
  = Thrown (badRequest "Invalid period type").
Proof.
  apply (getStatsByPeriod_rejects [] "u1" "hourly").
  cbn. intros H.
  repeat (destruct H as [H | H]; [discriminate H|]). exact H.
Defined.

(** *** What the services store *)

Lemma getPeriodDates_all_time tz now ref :
  getPeriodDates tz now "all_time" ref
  = Ok (mkPeriod (Some 0) (JSDate.TimeClip now)).
Proof. reflexivity. Qed.

(** A call either leaves the collection as it was or upserts the row of its
    key. *)
Lemma calculateStats_store h now stamp runs stats userId periodType refDate :
  snd (calculateStats h now stamp runs stats userId periodType refDate)
  = stats \/
  exists w s e data,
    getPeriodDates (LocalTZA h) now periodType
      (Some (match refDate with Some d => d | None => now end)) = Ok w /\
    startDate w = Some s /\ endDate w = Some e /\
    Stats.updateOrCreateStats stamp stats userId periodType s e data
    = Ok (fst (Stats.findOneAndUpdate
                 (Stats.query userId periodType s)
                 (Stats.update stamp e data)
                 (Stats.inserted stamp userId periodType s e data) stats),
          snd (calculateStats h now stamp runs stats userId periodType
                              refDate)).
Proof.
  rewrite calculateStats_unfold.
  destruct (getPeriodDates (LocalTZA h) now periodType _) as [w | err] eqn:Ew;
    [|left; auto].
  destruct (startDate w) as [s|] eqn:Es; [|left; auto].
  destruct (endDate w) as [e|] eqn:Ee; [|left; auto].
  destruct (Run.find runs userId s e) as [|run rest]; [left; auto|].
  destruct (computeStats (maxArguments h) run rest) as [data | err];
    [|left; auto].
  destruct (Stats.updateOrCreateStats stamp stats userId periodType s e data)
    as [[doc stats'] | err] eqn:Eu; [|left; auto].
  right. exists w, s, e, data. split; [reflexivity|].
  split; [exact Es|]. split; [exact Ee|].
  rewrite Eu. apply updateOrCreateStats_Ok in Eu.
  destruct Eu as [_ [_ ->]]. reflexivity.
Qed.

Lemma serviceReachable_reachable stats :
  serviceReachable stats -> Stats.reachable stats.
Proof.
  induction 1 as [|h now stamp runs stats u p ref _ IH | stats u _ IH].
  - constructor.
  - destruct (calculateStats_store h now stamp runs stats u p ref)
      as [-> | [w [s [e [data [_ [_ [_ Hu]]]]]]]]; [exact IH|].
    eapply Stats.reachable_upsert; [exact IH | exact Hu].
  - apply Stats.reachable_deleteMany, IH.
Qed.

Lemma serviceReachable_invariant stats :
  serviceReachable stats -> storeInvariant stats.
Proof.
  intros Hs. split; [apply reachable_NoDup, serviceReachable_reachable, Hs|].
  induction Hs as [|h now stamp runs stats u p ref _ IH | stats u _ IH].
  - intros d [].
  - destruct (calculateStats_store h now stamp runs stats u p ref)
      as [-> | [w [s [e [data [Hw [Hws [_ Hu]]]]]]]]; [exact IH|].
    apply updateOrCreateStats_Ok in Hu. destruct Hu as [_ [_ Hu]].
    apply (f_equal snd) in Hu. cbn [snd] in Hu. rewrite <- Hu.
    intros d Hd Hp.
    destruct (string_dec (Stats.userId d) u) as [Hdu|Hdu];
      [destruct (Z.eq_dec (Stats.periodStart d) s) as [Hds|Hds];
       [destruct (string_dec (Stats.periodType d) p) as [Hpt|Hpt]|]|].
    + rewrite Hds. rewrite <- Hpt, Hp in Hw.
      rewrite getPeriodDates_all_time in Hw. apply Ok_inj in Hw.
      subst w. rewrite startDate_mk in Hws. congruence.
    + apply IH; auto.
      eapply (upsert_others stamp u p s e); [|exact Hd].
      unfold Stats.key. congruence.
    + apply IH; auto.
      eapply (upsert_others stamp u p s e); [|exact Hd].
      unfold Stats.key. congruence.
    + apply IH; auto.
      eapply (upsert_others stamp u p s e); [|exact Hd].
      unfold Stats.key. congruence.
  - intros d Hd. apply filter_In in Hd. apply IH, Hd.
Qed.

Lemma getAllTimeStats_unique stats userId doc :
  storeInvariant stats ->
  In doc stats ->
  Stats.userId doc = userId ->
  Stats.periodType doc = "all_time" ->
  StatsStatics.getAllTimeStats stats userId = Some doc.
Proof.
  intros [Hnd Hzero] Hin Hu Hp. unfold StatsStatics.getAllTimeStats.
  destruct (List.find _ stats) as [d|] eqn:Ef.
  - apply find_some in Ef. destruct Ef as [Hd Hq].
    apply andb_true_iff in Hq. destruct Hq as [Hu' Hp'].
    apply String.eqb_eq in Hu', Hp'.
    f_equal. apply (NoDup_key_inj stats); auto.
    unfold Stats.key.
    rewrite Hu, Hp, Hu', Hp', (Hzero d Hd Hp'), (Hzero doc Hin Hp).
    reflexivity.
  - exfalso. pose proof (find_none _ _ Ef doc Hin) as Hq.
    cbv beta in Hq. rewrite Hu, Hp in Hq. cbn in Hq.
    rewrite String.eqb_refl in Hq. discriminate.
Qed.

Lemma calculateStats_all_time_row h now stamp runs stats userId ref doc
    stats' :
  Run.find runs userId 0 now <> [] ->
  calculateStats h now stamp runs stats userId "all_time" ref
  = (Ok doc, stats') ->
  In doc stats' /\ Stats.userId doc = userId /\
  Stats.periodType doc = "all_time".
Proof.
  intros Hne Hc.
  rewrite calculateStats_unfold, getPeriodDates_all_time in Hc.
  rewrite startDate_mk, endDate_mk in Hc.
  destruct (JSDate.TimeClip now) as [e|] eqn:Ee; [|discriminate].
  apply TimeClip_Some in Ee. destruct Ee as [-> _].
  destruct (Run.find runs userId 0 now) as [|run rest]; [congruence|].
  destruct (computeStats (maxArguments h) run rest) as [data | err];
    [|discriminate].
  destruct (Stats.updateOrCreateStats stamp stats userId "all_time" 0 now
              data) as [[doc0 stats0] | err] eqn:Eu; [|discriminate].
  injection Hc as <- <-.
  pose proof (updateOrCreateStats_doc _ _ _ _ _ _ _ _ _ Eu) as Hdoc.
  apply updateOrCreateStats_Ok in Eu. destruct Eu as [_ [_ Eu]].
  pose proof (upsert_In_doc stamp userId "all_time" 0 now data stats) as Hin.
  rewrite Eu in Hin. cbn [fst snd] in Hin.
  split; [exact Hin|]. rewrite Hdoc. split; reflexivity.
Qed.

(** Write, then read: after [calculateStats] has computed an owner's
    all-time summary from at least one record, [Stats.getAllTimeStats] finds
    exactly the summary that call returned. *)
Theorem getAllTimeStats_finds_computed h now stamp runs stats userId ref doc
    stats' :
  serviceReachable stats ->
  Run.find runs userId 0 now <> [] ->
  calculateStats h now stamp runs stats userId "all_time" ref
  = (Ok doc, stats') ->
  StatsStatics.getAllTimeStats stats' userId = Some doc.
Proof.
  intros Hs Hne Hc.
  destruct (calculateStats_all_time_row _ _ _ _ _ _ _ _ _ Hne Hc)
    as [Hin [Hu Hp]].
  apply getAllTimeStats_unique; auto.
  apply serviceReachable_invariant.
  replace stats' with
    (snd (calculateStats h now stamp runs stats userId "all_time" ref))
    by (rewrite Hc; reflexivity).
  constructor. exact Hs.
Qed.

Lemma getAllTimeStats_finds_computed_witness :
  let run := Run.mk "r1" "u1" 3600000 5400000 (1000 # 1) (600 # 1)
                    (6 # 1) (7 # 1) false in
  exists doc stats',
    calculateStats utcHost 9000000 9000001 [run] [] "u1" "all_time" None
    = (Ok doc, stats') /\
    Stats.totalRuns doc = 1 /\
    StatsStatics.getAllTimeStats stats' "u1" = Some doc.
Proof.
  intros run. do 2 eexists.
  split; [vm_compute; reflexivity|]. split; [reflexivity|].
  apply (getAllTimeStats_finds_computed utcHost 9000000 9000001 [run] [] "u1"
           None).
  - constructor.
  - vm_compute. discriminate.
  - vm_compute. reflexivity.
Defined.

(** [getAllTimeStats] of the service never refreshes: once a call has
    returned a stored or freshly stored all-time summary, every later call
    returns that same summary and leaves the collection alone, whatever runs
    have been added or deleted meanwhile. *)
Theorem getAllTimeStats_never_refreshes h now stamp runs stats userId doc
    stats' now' stamp' runs' :
  serviceReachable stats ->
  StatsStatics.getAllTimeStats stats userId <> None \/
  Run.find runs userId 0 now <> [] ->
  StatsReads.getAllTimeStats h now stamp runs stats userId
  = (Ok doc, stats') ->
  StatsReads.getAllTimeStats h now' stamp' runs' stats' userId
  = (Ok doc, stats').
Proof.
  intros Hs Hsrc Hc. unfold StatsReads.getAllTimeStats in *.
  destruct (StatsStatics.getAllTimeStats stats userId) as [d|] eqn:Ed.
  - injection Hc as <- <-. rewrite Ed. reflexivity.
  - destruct Hsrc as [Hsrc | Hsrc]; [congruence|].
    change PERIOD_TYPES.ALL_TIME with "all_time" in Hc.
    destruct (calculateStats_all_time_row _ _ _ _ _ _ _ _ _ Hsrc Hc)
      as [Hin [Hu Hp]].
    rewrite (getAllTimeStats_unique stats' userId doc); auto.
    apply serviceReachable_invariant.
    replace stats' with
      (snd (calculateStats h now stamp runs stats userId "all_time" None))
      by (rewrite Hc; reflexivity).
    constructor. exact Hs.
Qed.

Lemma getAllTimeStats_never_refreshes_witness :
  let run := Run.mk "r1" "u1" 3600000 5400000 (1000 # 1) (600 # 1)
                    (6 # 1) (7 # 1) false in
  let later := Run.mk "r2" "u1" 9100000 9200000 (5000 # 1) (900 # 1)
                      (20 # 1) (21 # 1) false in
  exists doc stats',
    StatsReads.getAllTimeStats utcHost 9000000 9000001 [run] [] "u1"
    = (Ok doc, stats') /\
    Stats.totalRuns doc = 1 /\
    StatsReads.getAllTimeStats utcHost 9500000 9500001 [run; later] stats'
                               "u1"
    = (Ok doc, stats').
Proof.
  intros run later. do 2 eexists.
  split; [vm_compute; reflexivity|]. split; [reflexivity|].
  apply (getAllTimeStats_never_refreshes utcHost 9000000 9000001 [run] []
           "u1").
  - constructor.
  - right. vm_compute. discriminate.
  - vm_compute. reflexivity.
Defined.

(** A period type outside the enumerated set makes [calculateStats] throw
    before it reads a run or writes a row. *)
Theorem calculateStats_invalid_period h now stamp runs stats userId periodType
    refDate :
  ~ In periodType PERIOD_TYPES.values ->
  calculateStats h now stamp runs stats userId periodType refDate
  = (Err InvalidPeriodType, stats).
Proof.
  intros Hp. rewrite calculateStats_unfold. unfold getPeriodDates.
  assert (Hne : forall s, In s PERIOD_TYPES.values ->
                          String.eqb periodType s = false).
  { intros s Hs. apply String.eqb_neq. intros ->. contradiction. }
  rewrite !Hne by (cbn; auto 10). reflexivity.
Qed.

Lemma calculateStats_invalid_period_witness :
  let run := Run.mk "r1" "u1" 3600000 5400000 (1000 # 1) (600 # 1)
                    (6 # 1) (7 # 1) false in
  calculateStats utcHost 9000000 9000001 [run] [] "u1" "hourly" None
  = (Err InvalidPeriodType, []).
Proof.
  intros run.
  apply (calculateStats_invalid_period utcHost 9000000 9000001 [run] [] "u1"
           "hourly").
  cbn. intros H.
  repeat (destruct H as [H | H]; [discriminate H|]). exact H.
Defined.

(** [calculateStats] touches at most the row of its own key: every row with
    another owner, period type or period start is in the collection
    afterwards exactly if it was there before. *)
Theorem calculateStats_frame h now stamp runs stats userId periodType refDate
    w d :
  getPeriodDates (LocalTZA h) now periodType
    (Some (match refDate with Some r => r | None => now end)) = Ok w ->
  (forall s, startDate w = Some s ->
             Stats.key d <> (userId, periodType, s)) ->
  In d (snd (calculateStats h now stamp runs stats userId periodType refDate))
  <-> In d stats.
Proof.
  intros Hw Hk.
  destruct (calculateStats_store h now stamp runs stats userId periodType
              refDate)
    as [-> | [w' [s [e [data [Hw' [Hs [_ Hu]]]]]]]]; [reflexivity|].
  rewrite Hw in Hw'. apply Ok_inj in Hw'. subst w'.
  apply updateOrCreateStats_Ok in Hu. destruct Hu as [_ [_ Hu]].
  apply (f_equal snd) in Hu. cbn [snd] in Hu. rewrite <- Hu.
  apply upsert_others. apply Hk, Hs.
Qed.

Lemma calculateStats_frame_witness :
  let run := Run.mk "r1" "u1" 3600000 5400000 (1000 # 1) (600 # 1)
                    (6 # 1) (7 # 1) false in
  let other := Stats.mk "u2" "daily" 0 86399999
                        (Number.ofQ (5000 # 1)) (Number.ofQ (1800 # 1)) 1
                        (Number.ofQ (10 # 1)) (Number.ofQ (5000 # 1))
                        (Number.ofQ (1800 # 1)) (Number.ofQ (10 # 1))
                        (Some 7000) (Some 7000) in
  In other (snd (calculateStats utcHost 0 9000 [run] [other] "u1" "daily"
                                (Some 4000000)))
  <-> In other [other].
Proof.
  intros run other.
  apply (calculateStats_frame utcHost 0 9000 [run] [other] "u1" "daily"
           (Some 4000000) (mkPeriod (Some 0) (Some 86399999)) other).
  - vm_compute. reflexivity.
  - intros s _. cbn. intros H. discriminate H.
Defined.

End StatsReadOperations.

(** * Deleting and reading runs *)

Section SoftDelete.
Import RunQueries.

Lemma find_split {A : Type} (f : A -> bool) l x :
  List.find f l = Some x ->
  exists l1 l2,
    l = (l1 ++ x :: l2)%list /\ f x = true /\
    forall y, In y l1 -> f y = false.
Proof.
  induction l as [|a l IH]; cbn [List.find]; [discriminate|].
  destruct (f a) eqn:E.
  - intros H. injection H as <-. exists [], l. repeat split; auto.
    intros y [].
  - intros H. destruct (IH H) as [l1 [l2 [-> [Hx Hl1]]]].
    exists (a :: l1), l2. repeat split; auto.
    intros y [<- | Hy]; auto.
Qed.

Lemma saveDeleted_split runId userId l1 x l2 :
  isLiveRun runId userId x = true ->
  (forall y, In y l1 -> isLiveRun runId userId y = false) ->
  saveDeleted (l1 ++ x :: l2) runId userId
  = (l1 ++ setDeleted x :: l2)%list.
Proof.
  intros Hx. induction l1 as [|a l1 IH]; intros Hl1; cbn [saveDeleted app].
  - rewrite Hx. reflexivity.
  - rewrite (Hl1 a (or_introl eq_refl)), IH; auto.
    intros y Hy. apply Hl1. right. exact Hy.
Qed.

Lemma isLiveRun_spec runId userId r :
  isLiveRun runId userId r = true <->
  Run.id r = runId /\ Run.userId r = userId /\ Run.isDeleted r = false.
Proof.
  unfold isLiveRun. rewrite !andb_true_iff, !String.eqb_eq.
  destruct (Run.isDeleted r); cbn; intuition congruence.
Qed.

Lemma inPeriod_setDeleted owner s e r :
  Run.inPeriod owner s e (setDeleted r) = false.
Proof.
  unfold Run.inPeriod, setDeleted. cbn.
  rewrite andb_false_r. reflexivity.
Qed.

Lemma sumQ_app l1 l2 : (sumQ (l1 ++ l2) == sumQ l1 + sumQ l2)%Q.
Proof.
  unfold sumQ. induction l1 as [|x l1 IH]; cbn [app fold_right].
  - ring.
  - rewrite IH. ring.
Qed.

(** What [deleteRun] does to the collections, when it succeeds. *)
Lemma deleteRun_split runs users runId userId msg runs' users' :
  deleteRun runs users runId userId = Returned (msg, runs', users') ->
  exists run l1 l2,
    runs = (l1 ++ run :: l2)%list /\
    runs' = (l1 ++ setDeleted run :: l2)%list /\
    isLiveRun runId userId run = true /\
    (forall y, In y l1 -> isLiveRun runId userId y = false).
Proof.
  unfold deleteRun.
  destruct (List.find (isLiveRun runId userId) runs) as [run|] eqn:Ef;
    [|discriminate].
  intros H. injection H as _ <- _.
  destruct (find_split _ _ _ Ef) as [l1 [l2 [-> [Hx Hl1]]]].
  exists run, l1, l2. repeat split; auto.
  apply saveDeleted_split; auto.
Qed.

(** Deleting a run takes exactly that run out of every selection
    [calculateStats] aggregates: a selection that held it loses one record
    and that record's distance and duration, and every other selection is
    what it was. *)
Theorem deleteRun_reduces_selection runs users runId userId msg runs' users' :
  deleteRun runs users runId userId = Returned (msg, runs', users') ->
  exists run,
    In run runs /\ Run.id run = runId /\ Run.userId run = userId /\
    Run.isDeleted run = false /\
    forall owner s e,
      (In run (Run.find runs owner s e) ->
       Z.of_nat (List.length (Run.find runs' owner s e))
       = Z.of_nat (List.length (Run.find runs owner s e)) - 1 /\
       (sumQ (map Run.distance (Run.find runs' owner s e))
        == sumQ (map Run.distance (Run.find runs owner s e))
           - Run.distance run)%Q /\
       (sumQ (map Run.duration (Run.find runs' owner s e))
        == sumQ (map Run.duration (Run.find runs owner s e))
           - Run.duration run)%Q) /\
      (~ In run (Run.find runs owner s e) ->
       Run.find runs' owner s e = Run.find runs owner s e).
Proof.
  intros Hd.
  destruct (deleteRun_split _ _ _ _ _ _ _ Hd)
    as [run [l1 [l2 [-> [-> [Hlive _]]]]]].
  exists run. apply isLiveRun_spec in Hlive.
  destruct Hlive as [Hid [Hu Hdel]].
  split; [apply in_or_app; right; left; reflexivity|].
  repeat (split; [assumption|]).
  intros owner s e. unfold Run.find.
  rewrite !filter_app. cbn [filter].
  rewrite inPeriod_setDeleted.
  destruct (Run.inPeriod owner s e run) eqn:Ein.
  - split; [intros _ | intros H; exfalso; apply H].
    + rewrite !length_app, !map_app. cbn [List.length map].
      split; [lia|].
      split; rewrite !sumQ_app; unfold sumQ; cbn [fold_right];
        fold (sumQ (map Run.distance
                        (filter (Run.inPeriod owner s e) l2)));
        fold (sumQ (map Run.duration
                        (filter (Run.inPeriod owner s e) l2)));
        ring.
    + apply in_or_app. right. left. reflexivity.
  - split; [|reflexivity].
    intros Hin. exfalso.
    assert (Hrun : In run (filter (Run.inPeriod owner s e) (l1 ++ l2))).
    { rewrite filter_app. exact Hin. }
    apply filter_In in Hrun. destruct Hrun as [_ Hrun]. congruence.
Qed.


Lemma deleteRun_reduces_selection_witness :
  let r1 := Run.mk "r1" "u1" 1000 2000 (1000 # 1) (600 # 1) (6 # 1) (7 # 1) false in
  let r2 := Run.mk "r2" "u1" 3000 4000 (2500 # 1) (900 # 1) (10 # 1)
                   (11 # 1) false in
  let u := UserDoc.mk "u1" (Some (UserDoc.mkMetadata 2
                                   (Number.ofQ (3500 # 1))
                                   (Number.ofQ (1500 # 1)))) in
  exists run,
    In run [r1; r2] /\ Run.id run = "r2" /\ Run.userId run = "u1" /\
    Run.isDeleted run = false /\
    forall owner s e,
      (In run (Run.find [r1; r2] owner s e) ->
       Z.of_nat (List.length (Run.find [r1; setDeleted r2] owner s e))
       = Z.of_nat (List.length (Run.find [r1; r2] owner s e)) - 1 /\
       (sumQ (map Run.distance (Run.find [r1; setDeleted r2] owner s e))
        == sumQ (map Run.distance (Run.find [r1; r2] owner s e))
           - Run.distance run)%Q /\
       (sumQ (map Run.duration (Run.find [r1; setDeleted r2] owner s e))
        == sumQ (map Run.duration (Run.find [r1; r2] owner s e))
           - Run.duration run)%Q) /\
      (~ In run (Run.find [r1; r2] owner s e) ->
       Run.find [r1; setDeleted r2] owner s e
       = Run.find [r1; r2] owner s e).
Proof.
  intros r1 r2 u.
  apply (deleteRun_reduces_selection [r1; r2] [u] "r2" "u1"
           MESSAGES.RUN_DELETED [r1; setDeleted r2]
           [UserDoc.mk "u1"
              (Some (removeFromMetadata
                       (UserDoc.mkMetadata 2 (Number.ofQ (3500 # 1))
                                           (Number.ofQ (1500 # 1))) r2))]).
  vm_compute. reflexivity.
Defined.

Lemma find_all_false {A : Type} (f : A -> bool) l :
  (forall y, In y l -> f y = false) -> List.find f l = None.
Proof.
  induction l as [|a l IH]; cbn [List.find]; auto.
  intros H. rewrite (H a (or_introl eq_refl)). apply IH.
  intros y Hy. apply H. right. exact Hy.
Qed.

(** A soft delete is final and keeps the record: with distinct run ids, once
    [deleteRun] has succeeded the run can no longer be fetched or deleted
    again (both answer "not found"), while the collection still holds a
    record for every id it held. *)
Theorem deleteRun_then_not_found runs users runId userId msg runs' users' :
  NoDup (map Run.id runs) ->
  deleteRun runs users runId userId = Returned (msg, runs', users') ->
  getRunById runs' runId userId = Thrown (notFound MESSAGES.RUN_NOT_FOUND) /\
  deleteRun runs' users' runId userId
  = Thrown (notFound MESSAGES.RUN_NOT_FOUND) /\
  map Run.id runs' = map Run.id runs.
Proof.
  intros Hnd Hd.
  destruct (deleteRun_split _ _ _ _ _ _ _ Hd)
    as [run [l1 [l2 [-> [-> [Hlive Hl1]]]]]].
  assert (Hnone : List.find (isLiveRun runId userId)
                            (l1 ++ setDeleted run :: l2) = None).
  { apply find_all_false. intros y Hy.
    apply in_app_or in Hy. destruct Hy as [Hy | [<- | Hy]].
    - apply Hl1, Hy.
    - unfold isLiveRun, setDeleted. cbn. apply andb_false_r.
    - destruct (isLiveRun runId userId y) eqn:Ey; [|reflexivity].
      exfalso. apply isLiveRun_spec in Ey, Hlive.
      rewrite map_app in Hnd. cbn [map] in Hnd.
      apply NoDup_remove_2 in Hnd. apply Hnd.
      apply in_or_app. right.
      replace (Run.id run) with (Run.id y) by (destruct Ey, Hlive; congruence).
      apply in_map, Hy. }
  unfold getRunById, deleteRun. rewrite Hnone.
  repeat split. rewrite !map_app. reflexivity.
Qed.

Lemma deleteRun_then_not_found_witness :
  let r1 := Run.mk "r1" "u1" 1000 2000 (1000 # 1) (600 # 1) (6 # 1) (7 # 1) false in
  let r2 := Run.mk "r2" "u1" 3000 4000 (2500 # 1) (900 # 1) (10 # 1)
                   (11 # 1) false in
  getRunById [r1; setDeleted r2] "r2" "u1"
  = Thrown (notFound MESSAGES.RUN_NOT_FOUND) /\
  deleteRun [r1; setDeleted r2] [] "r2" "u1"
  = Thrown (notFound MESSAGES.RUN_NOT_FOUND) /\
  map Run.id [r1; setDeleted r2] = map Run.id [r1; r2].
Proof.
  intros r1 r2.
  apply (deleteRun_then_not_found [r1; r2] [] "r2" "u1"
           MESSAGES.RUN_DELETED [r1; setDeleted r2] []).
  - cbn. repeat constructor; cbn; intuition discriminate.
  - reflexivity.
Defined.

(** *** The run counters of the user *)

Lemma Math_max_zero x :
  Number.ltb (Number.Math_max [Number.zero; x]) Number.zero = false /\
  (Number.isNaN x = false ->
   Number.leb Number.zero (Number.Math_max [Number.zero; x]) = true).
Proof.
  destruct x as [s|s| |s m e]; try (destruct s); split;
    try reflexivity; try discriminate; intros _; reflexivity.
Qed.

Lemma findById_save users user user' :
  UserDoc.findById users (UserDoc._id user) = Some user ->
  UserDoc._id user' = UserDoc._id user ->
  UserDoc.findById (UserDoc.save users user') (UserDoc._id user)
  = Some user'.
Proof.
  intros Hf Hid. unfold UserDoc.findById in *.
  induction users as [|u users IH]; cbn [List.find UserDoc.save] in *;
    [discriminate|].
  rewrite Hid.
  destruct (String.eqb (UserDoc._id u) (UserDoc._id user)) eqn:E.
  - cbn [List.find]. rewrite Hid, String.eqb_refl. reflexivity.
  - cbn [List.find]. rewrite E. apply IH, Hf.
Qed.

Lemma findById_id users userId user :
  UserDoc.findById users userId = Some user -> UserDoc._id user = userId.
Proof.
  intros H. apply find_some in H. apply String.eqb_eq, H.
Qed.

(** [deleteRun] never drives a user's counters below zero: whatever they
    were, after a successful delete no stored counter of the owner is less
    than 0, and each counter that was a finite number is a number at least
    0. *)
Theorem deleteRun_counters_nonnegative runs users runId userId msg runs'
    users' user m :
  deleteRun runs users runId userId = Returned (msg, runs', users') ->
  UserDoc.findById users userId = Some user ->
  UserDoc.metadata user = Some m ->
  exists m',
    UserDoc.findById users' userId
    = Some (UserDoc.mk (UserDoc._id user) (Some m')) /\
    0 <= UserDoc.totalRuns m' /\
    Number.ltb (UserDoc.totalDistance m') Number.zero = false /\
    Number.ltb (UserDoc.totalDuration m') Number.zero = false /\
    (Number.isFinite (UserDoc.totalDistance m) = true ->
     Number.leb Number.zero (UserDoc.totalDistance m') = true) /\
    (Number.isFinite (UserDoc.totalDuration m) = true ->
     Number.leb Number.zero (UserDoc.totalDuration m') = true).
Proof.
  unfold deleteRun.
  destruct (List.find (isLiveRun runId userId) runs) as [run|];
    [|discriminate].
  intros H Hu Hm. rewrite Hu, Hm in H. injection H as _ _ <-.
  exists (removeFromMetadata m run).
  pose proof (findById_id _ _ _ Hu) as Hid. subst userId.
  split; [apply findById_save; auto|].
  unfold removeFromMetadata.
  cbn [UserDoc.totalRuns UserDoc.totalDistance UserDoc.totalDuration].
  split; [lia|].
  split; [apply Math_max_zero|]. split; [apply Math_max_zero|].
  split; intros Hf; apply Math_max_zero, sub_finite_notNaN, Hf.
Qed.

Lemma deleteRun_counters_nonnegative_witness :
  let r1 := Run.mk "r1" "u1" 1000 2000 (1000 # 1) (600 # 1) (6 # 1) (7 # 1)
                   false in
  let m := UserDoc.mkMetadata 0 (Number.ofQ (500 # 1))
                              (Number.ofQ (100 # 1)) in
  let u := UserDoc.mk "u1" (Some m) in
  exists m',
    UserDoc.findById [UserDoc.mk "u1" (Some (removeFromMetadata m r1))] "u1"
    = Some (UserDoc.mk "u1" (Some m')) /\
    UserDoc.totalRuns m' = 0 /\
    UserDoc.totalDistance m' = Number.zero /\
    UserDoc.totalDuration m' = Number.zero.
Proof.
  intros r1 m u.
  destruct (deleteRun_counters_nonnegative [r1] [u] "r1" "u1"
              MESSAGES.RUN_DELETED [setDeleted r1]
              [UserDoc.mk "u1" (Some (removeFromMetadata m r1))] u m)
    as [m' [Hf _]];
    [vm_compute; reflexivity | reflexivity | reflexivity |].
  exists m'. split; [exact Hf|].
  vm_compute in Hf. injection Hf as <-.
  repeat split.
Defined.

(** Counting a run in and taking it out again is computed in double
    precision and need not restore the counter: 3500.1 + 1200.7 - 1200.7 is
    3500.1000000000004. *)
Lemma counters_round_trip_rounded :
  let m := UserDoc.mkMetadata 1 (Number.ofQ (35001 # 10))
                              (Number.ofQ (1500 # 1)) in
  let run := Run.mk "r3" "u1" 5000 6000 (12007 # 10) (400 # 1) (10 # 1)
                    (11 # 1) false in
  let m' := removeFromMetadata
              (UserDoc.updateMetadata m (Number.ofQ (Run.distance run))
                                      (Number.ofQ (Run.duration run))) run in
  UserDoc.totalDistance m'
  = Number.ofQ (35001000000000004 # 10000000000000) /\
  UserDoc.totalDistance m' <> UserDoc.totalDistance m.
Proof.
  intros m run m'. split; [vm_compute; reflexivity|].
  vm_compute. intros H. discriminate H.
Qed.

End SoftDelete.

(** * Listing runs *)

Section RunListings.
Import Helpers RunQueries.

Lemma userQuery_spec userId includeDeleted r :
  RunStatics.userQuery userId includeDeleted r = true <->
  Run.userId r = userId /\
  (includeDeleted = true \/ Run.isDeleted r = false).
Proof.
  unfold RunStatics.userQuery.
  rewrite andb_true_iff, orb_true_iff, String.eqb_eq.
  destruct (Run.isDeleted r); cbn; intuition congruence.
Qed.

Lemma StronglySorted_app_inv {A : Type} (R : A -> A -> Prop) l1 l2 :
  StronglySorted R (l1 ++ l2) ->
  forall a b, In a l1 -> In b l2 -> R a b.
Proof.
  induction l1 as [|x l1 IH]; cbn [app]; intros Hs a b Ha Hb; [destruct Ha|].
  inversion Hs as [|? ? Hs' Hall]; subst.
  destruct Ha as [<- | Ha].
  - rewrite Forall_forall in Hall. apply Hall, in_or_app. auto.
  - apply IH; auto.
Qed.

(** [getRunsByDateRange] refuses a range whose end is not after its start;
    otherwise it returns exactly the owner's live runs that start within the
    range, both ends included, most recent first. *)
Theorem getRunsByDateRange_spec runs userId startDate endDate :
  (endDate <= startDate /\
   getRunsByDateRange runs userId startDate endDate
   = Thrown (badRequest MESSAGES.INVALID_DATE_RANGE)) \/
  (startDate < endDate /\
   exists found,
     getRunsByDateRange runs userId startDate endDate = Returned found /\
     (forall r, In r found <->
                In r runs /\ Run.userId r = userId /\
                Run.isDeleted r = false /\
                startDate <= Run.startTime r <= endDate) /\
     (forall i j ri rj,
         (i < j)%nat ->
         nth_error found i = Some ri -> nth_error found j = Some rj ->
         Run.startTime rj <= Run.startTime ri)).
Proof.
  unfold getRunsByDateRange.
  destruct (endDate <=? startDate) eqn:E;
    [apply Z.leb_le in E | apply Z.leb_gt in E].
  - left. auto.
  - right. split; [exact E|]. eexists. split; [reflexivity|]. split.
    + intros r. unfold RunStatics.getRunsByDateRange.
      rewrite sortByDateDesc_In. apply find_spec.
    + intros i j ri rj Hij Hi Hj.
      refine (StronglySorted_nth
                (fun a b => Run.startTime b <= Run.startTime a)
                _ i j ri rj _ Hij Hi Hj).
      apply sortByDateDesc_sorted.
Qed.

(** [getRecentRuns] with a limit of at least 1 returns at most
    [min(limit, MAX_LIMIT)] runs, all of them live runs of the owner, most
    recent first, and no live run of the owner that it leaves out started
    after one that it returns. *)
Theorem getRecentRuns_most_recent runs userId limit :
  1 <= limit ->
  let found := getRecentRuns runs userId (Some limit) in
  Z.of_nat (List.length found) <= Z.min limit PAGINATION.MAX_LIMIT /\
  (forall r, In r found ->
             In r runs /\ Run.userId r = userId /\
             Run.isDeleted r = false) /\
  (forall i j ri rj,
      (i < j)%nat ->
      nth_error found i = Some ri -> nth_error found j = Some rj ->
      Run.startTime rj <= Run.startTime ri) /\
  (forall r r',
      In r found ->
      In r' runs -> Run.userId r' = userId -> Run.isDeleted r' = false ->
      ~ In r' found ->
      Run.startTime r' <= Run.startTime r).
Proof.
  intros Hl found. unfold found, getRecentRuns, Query.limit.
  set (n := Z.min limit PAGINATION.MAX_LIMIT).
  assert (Hn : 1 <= n) by (unfold n, PAGINATION.MAX_LIMIT; lia).
  replace (n =? 0) with false by (symmetry; apply Z.eqb_neq; lia).
  rewrite Z.abs_eq by lia.
  set (sorted := Query.sortByDateDesc Run.startTime
                   (filter (RunStatics.userQuery userId false) runs)).
  assert (Hsorted : StronglySorted
                      (fun a b => Run.startTime b <= Run.startTime a) sorted)
    by apply sortByDateDesc_sorted.
  assert (Hin : forall r, In r sorted <->
                          In r runs /\ Run.userId r = userId /\
                          Run.isDeleted r = false).
  { intros r. unfold sorted.
    rewrite sortByDateDesc_In, filter_In, userQuery_spec.
    intuition discriminate. }
  split; [|split; [|split]].
  - rewrite length_firstn. lia.
  - intros r Hr. apply Hin. eapply In_firstn, Hr.
  - intros i j ri rj Hij Hi Hj.
    refine (StronglySorted_nth
              (fun a b => Run.startTime b <= Run.startTime a)
              _ i j ri rj _ Hij Hi Hj).
    apply StronglySorted_firstn, Hsorted.
  - intros r r' Hr Hr' Hu Hd Hout.
    assert (Hs' : In r' sorted) by (apply Hin; auto).
    rewrite <- (firstn_skipn (Z.to_nat n) sorted) in Hs', Hsorted.
    apply in_app_or in Hs'. destruct Hs' as [Hs' | Hs']; [contradiction|].
    apply (StronglySorted_app_inv _ _ _ Hsorted r r' Hr Hs').
Qed.

Lemma getRecentRuns_most_recent_witness :
  let r1 := Run.mk "r1" "u1" 1000 2000 (1000 # 1) (600 # 1) (6 # 1) (7 # 1) false in
  let r2 := Run.mk "r2" "u1" 3000 4000 (2500 # 1) (900 # 1) (10 # 1)
                   (11 # 1) false in
  let r3 := Run.mk "r3" "u1" 5000 6000 (1200 # 1) (400 # 1) (10 # 1)
                   (11 # 1) true in
  let found := getRecentRuns [r1; r2; r3] "u1" (Some 1) in
  Z.of_nat (List.length found) <= Z.min 1 PAGINATION.MAX_LIMIT /\
  (forall r, In r found ->
             In r [r1; r2; r3] /\ Run.userId r = "u1" /\
             Run.isDeleted r = false) /\
  (forall i j ri rj,
      (i < j)%nat ->
      nth_error found i = Some ri -> nth_error found j = Some rj ->
      Run.startTime rj <= Run.startTime ri) /\
  (forall r r',
      In r found ->
      In r' [r1; r2; r3] -> Run.userId r' = "u1" ->
      Run.isDeleted r' = false ->
      ~ In r' found ->
      Run.startTime r' <= Run.startTime r).
Proof.
  intros r1 r2 r3.
  apply (getRecentRuns_most_recent [r1; r2; r3] "u1" 1). lia.
Defined.


Lemma mapi_from_const {A : Type} s (l : list A) :
  mapi_from (fun x (_ : Z) => x) s l = l.
Proof.
  revert s. induction l as [|x l IH]; intros s; cbn [mapi_from]; auto.
  rewrite IH. reflexivity.
Qed.

Lemma chunks_concat {A : Type} (l : list A) (L n : nat) :
  flat_map (fun p => firstn L (skipn ((p - 1) * L) l)) (seq 1 n)
  = firstn (n * L) l.
Proof.
  pose proof (ranked_chunks (fun x (_ : Z) => x) l L n) as H.
  rewrite mapi_from_const in H. rewrite <- H.
  rewrite !flat_map_concat_map. f_equal. apply map_ext.
  intros p. rewrite mapi_from_const. reflexivity.
Qed.

Lemma getUserRuns_page runs userId (p : nat) (limit : Z) includeDeleted :
  (1 <= p)%nat ->
  1 <= limit <= PAGINATION.MAX_LIMIT ->
  getUserRuns runs userId (Some (Z.of_nat p)) (Some limit) includeDeleted
  = Ok (firstn (Z.to_nat limit)
          (skipn ((p - 1) * Z.to_nat limit)
             (Query.sortByDateDesc Run.startTime
                (filter (RunStatics.userQuery userId includeDeleted) runs))),
        calculatePagination
          (Z.of_nat (List.length
                       (filter (RunStatics.userQuery userId includeDeleted)
                               runs)))
          (Z.of_nat p) limit).
Proof.
  intros Hp Hl. unfold getUserRuns, RunStatics.getUserRuns.
  cbn [RunService.optionsPage RunService.optionsLimit].
  rewrite Z.min_l by lia.
  replace ((Z.of_nat p - 1) * limit <? 0) with false
    by (symmetry; apply Z.ltb_ge; nia).
  unfold Query.limit, Query.skip.
  replace (limit =? 0) with false by (symmetry; apply Z.eqb_neq; lia).
  rewrite Z.abs_eq by lia.
  replace (Z.to_nat ((Z.of_nat p - 1) * limit))
    with ((p - 1) * Z.to_nat limit)%nat by nia.
  reflexivity.
Qed.

(** Paging through a user's runs with a limit within [1, MAX_LIMIT]: the
    pages 1..totalPages, one after the other, are all runs of the user that
    the query matches, each once, most recent first; totalItems is their
    number. *)
Theorem getUserRuns_pages_complete runs userId limit includeDeleted :
  1 <= limit <= PAGINATION.MAX_LIMIT ->
  exists found pagination,
    getUserRuns runs userId (Some 1) (Some limit) includeDeleted
    = Ok (found, pagination) /\
    totalItems pagination
    = Z.of_nat (List.length
                  (filter (RunStatics.userQuery userId includeDeleted)
                          runs)) /\
    userRunPages runs userId (Some limit) includeDeleted
                 (Z.to_nat (totalPages pagination))
    = Query.sortByDateDesc Run.startTime
        (filter (RunStatics.userQuery userId includeDeleted) runs).
Proof.
  intros Hl.
  pose proof (getUserRuns_page runs userId 1 limit includeDeleted (le_n 1) Hl)
    as H1.
  change (Z.of_nat 1) with 1 in H1 at 1.
  do 2 eexists. split; [exact H1|].
  cbn [calculatePagination totalItems totalPages].
  split; [reflexivity|].
  set (matching := filter (RunStatics.userQuery userId includeDeleted) runs).
  set (sorted := Query.sortByDateDesc Run.startTime matching).
  assert (Hlen : List.length sorted = List.length matching).
  { apply Permutation_length, sortByDateDesc_perm. }
  destruct (Math_ceil_div_covers (Z.of_nat (List.length matching)) limit)
    as [Hn0 Hcov]; [lia | lia |].
  unfold userRunPages. rewrite flat_map_concat_map.
  rewrite (map_ext_in _
             (fun p => firstn (Z.to_nat limit)
                              (skipn ((p - 1) * Z.to_nat limit) sorted))).
  - rewrite <- flat_map_concat_map, chunks_concat.
    apply firstn_all2. rewrite Hlen. nia.
  - intros p Hp. apply in_seq in Hp.
    rewrite getUserRuns_page by (auto; lia). reflexivity.
Qed.

Lemma getUserRuns_pages_complete_witness :
  let r1 := Run.mk "r1" "u1" 1000 2000 (1000 # 1) (600 # 1) (6 # 1) (7 # 1) false in
  let r2 := Run.mk "r2" "u1" 3000 4000 (2500 # 1) (900 # 1) (10 # 1)
                   (11 # 1) false in
  let r3 := Run.mk "r3" "u1" 5000 6000 (1200 # 1) (400 # 1) (10 # 1)
                   (11 # 1) true in
  exists found pagination,
    getUserRuns [r1; r2; r3] "u1" (Some 1) (Some 1) false
    = Ok (found, pagination) /\
    totalItems pagination
    = Z.of_nat (List.length
                  (filter (RunStatics.userQuery "u1" false) [r1; r2; r3])) /\
    userRunPages [r1; r2; r3] "u1" (Some 1) false
                 (Z.to_nat (totalPages pagination))
    = Query.sortByDateDesc Run.startTime
        (filter (RunStatics.userQuery "u1" false) [r1; r2; r3]).
Proof.
  intros r1 r2 r3.
  apply (getUserRuns_pages_complete [r1; r2; r3] "u1" 1 false).
  unfold PAGINATION.MAX_LIMIT. lia.
Defined.

End RunListings.

(** * Formatting and pagination helpers *)

Section FormatDuration.
Import Format.

Lemma padStart2_two_digits n :
  0 <= n < 100 -> padStart2 (toString n) = twoDigits n.
Proof.
  intros Hn.
  assert (Hall : forallb
                   (fun k => String.eqb (padStart2 (toString (Z.of_nat k)))
                                        (twoDigits (Z.of_nat k)))
                   (seq 0 100) = true) by (vm_compute; reflexivity).
  rewrite forallb_forall in Hall.
  specialize (Hall (Z.to_nat n)).
  rewrite Z2Nat.id in Hall by lia.
  apply String.eqb_eq, Hall, in_seq. lia.
Qed.

Lemma digit_inj a b : 0 <= a <= 9 -> 0 <= b <= 9 -> digit a = digit b -> a = b.
Proof.
  intros Ha Hb H. unfold digit in H.
  apply (f_equal Ascii.nat_of_ascii) in H.
  rewrite !Ascii.nat_ascii_embedding in H by lia. lia.
Qed.

Lemma twoDigits_inj a b :
  0 <= a < 100 -> 0 <= b < 100 -> twoDigits a = twoDigits b -> a = b.
Proof.
  intros Ha Hb H. unfold twoDigits in H. injection H as H1 H0.
  apply digit_inj in H1; [|divmod|divmod].
  apply digit_inj in H0; [|divmod|divmod].
  divmod.
Qed.

Lemma formatDuration_fields seconds :
  0 <= seconds < 360000 ->
  0 <= seconds / 3600 < 100 /\
  0 <= seconds / 60 mod 60 < 100 /\
  0 <= seconds mod 60 < 100 /\
  Z.rem seconds 3600 / 60 = seconds / 60 mod 60 /\
  Z.rem seconds 60 = seconds mod 60.
Proof.
  intros H.
  rewrite !Z.rem_mod_nonneg by lia.
  repeat split; divmod.
Qed.

(** Below 100 hours [formatDuration] writes "HH:MM:SS": two decimal digits
    each for the hours, the minutes within the hour and the seconds within
    the minute. *)
Theorem formatDuration_shape seconds :
  0 <= seconds < 360000 ->
  formatDuration seconds
  = (twoDigits (seconds / 3600) ++ ":"
     ++ twoDigits (seconds / 60 mod 60) ++ ":"
     ++ twoDigits (seconds mod 60))%string.
Proof.
  intros H.
  destruct (formatDuration_fields seconds H) as [Hh [Hm [Hs [Em Es]]]].
  unfold formatDuration. rewrite Em, Es.
  rewrite !padStart2_two_digits by assumption. reflexivity.
Qed.

Lemma formatDuration_shape_witness :
  formatDuration 3725
  = (twoDigits (3725 / 3600) ++ ":"
     ++ twoDigits (3725 / 60 mod 60) ++ ":"
     ++ twoDigits (3725 mod 60))%string.
Proof. apply (formatDuration_shape 3725). lia. Defined.

(** Below 100 hours two different durations are never formatted alike. *)
Theorem formatDuration_injective s1 s2 :
  0 <= s1 < 360000 ->
  0 <= s2 < 360000 ->
  formatDuration s1 = formatDuration s2 ->
  s1 = s2.
Proof.
  intros H1 H2 H.
  assert (Hshape : forall s, 0 <= s < 360000 ->
            formatDuration s
            = (twoDigits (s / 3600) ++ ":" ++ twoDigits (s / 60 mod 60)
               ++ ":" ++ twoDigits (s mod 60))%string).
  { intros s Hs.
    destruct (formatDuration_fields s Hs) as [Hh [Hm [Hs' [Em Es]]]].
    unfold formatDuration. rewrite Em, Es.
    rewrite !padStart2_two_digits by assumption. reflexivity. }
  rewrite (Hshape s1 H1), (Hshape s2 H2) in H. clear Hshape.
  destruct (formatDuration_fields s1 H1) as [Hh1 [Hm1 [Hs1 _]]].
  destruct (formatDuration_fields s2 H2) as [Hh2 [Hm2 [Hs2 _]]].
  assert (Eh : twoDigits (s1 / 3600) = twoDigits (s2 / 3600) /\
               twoDigits (s1 / 60 mod 60) = twoDigits (s2 / 60 mod 60) /\
               twoDigits (s1 mod 60) = twoDigits (s2 mod 60)).
  { unfold twoDigits in *. cbn [String.append] in H.
    injection H as -> -> -> -> -> ->. auto. }
  destruct Eh as [Eh [Em Es]].
  apply twoDigits_inj in Eh, Em, Es; try assumption.
  divmod.
Qed.

Lemma formatDuration_injective_witness : 3725 = 3725.
Proof.
  apply (formatDuration_injective 3725 3725); [lia | lia | reflexivity].
Defined.

End FormatDuration.

Section PaginationMetadata.
Import Helpers.

(** For a limit of at least 1, [calculatePagination] reports the least
    number of pages that holds all items, and [hasNextPage] is true exactly
    when items remain beyond the current page; [hasPrevPage] is true exactly
    after page 1. *)
Theorem calculatePagination_spec totalItems page limit :
  0 <= totalItems ->
  1 <= limit ->
  let p := calculatePagination totalItems page limit in
  (totalPages p - 1) * limit < totalItems <= totalPages p * limit /\
  (hasNextPage p = true <-> page * limit < totalItems) /\
  (hasPrevPage p = true <-> 1 < page).
Proof.
  intros Hn Hl p. unfold p, calculatePagination.
  cbn [totalPages hasNextPage hasPrevPage].
  rewrite !Z.ltb_lt.
  assert (Hceil : (Math_ceil_div totalItems limit - 1) * limit < totalItems
                  <= Math_ceil_div totalItems limit * limit).
  { unfold Math_ceil_div. Z.to_euclidean_division_equations. nia. }
  split; [exact Hceil|]. split; [|reflexivity].
  split; intros H; nia.
Qed.

Lemma calculatePagination_spec_witness :
  let p := calculatePagination 101 2 50 in
  (totalPages p - 1) * 50 < 101 <= totalPages p * 50 /\
  (hasNextPage p = true <-> 2 * 50 < 101) /\
  (hasPrevPage p = true <-> 1 < 2).
Proof. apply (calculatePagination_spec 101 2 50); lia. Defined.

End PaginationMetadata.
